(** * gevent 0.9: hub, wait primitives, timeouts and the cooperative socket

    A shallow embedding of [gevent/__init__.py] and [gevent/socket.py].

    Python code that runs in a greenlet is embedded as a computation over an
    explicit [World]: the calls made to the libevent reactor ([core]) and to
    the operating system are recorded in a trace, greenlets live in a table,
    and exceptions are results.  What the rest of the program does while the
    calling greenlet is suspended, and what the kernel answers to a system
    call, are variables of the sections below. *)

From Stdlib Require Import ZArith QArith.
From stdpp Require Import base option list gmap strings.

Local Open Scope Z_scope.

(** ** Python values and exceptions *)

(** The exception classes the two modules raise, catch or compare. *)
Inductive exn_class : Type :=
| TimeoutError                               (* gevent.TimeoutError *)
| TimeoutError_subclass (name : string)      (* a class derived from it *)
| _SilentException                           (* gevent._SilentException *)
| _SilentException_subclass (name : string)
| AssertionError
| error (errno : Z)                          (* socket.error, ex[0] = errno *)
| socket_timeout                             (* socket.timeout('timed out') *)
| TypeError
| ValueError
| OtherException (name : string).

(** An exception instance: a Python object, so it has an identity. *)
Record exn : Type := Exn { exn_id : nat; exn_cls : exn_class }.

(** What can be handed to [throw] or stored as a scope's exception:
    a class or an instance. *)
Inductive exc_arg : Type :=
| ExcClass (c : exn_class)
| ExcInst (e : exn).

Inductive pyval : Type :=
| VNone
| VBool (b : bool)
| VInt (z : Z)
| VFloat (q : Q)
| VStr (s : string)
| VEvent (h : nat)          (* a core event object *)
| VGreenlet (g : nat).

#[global] Instance Q_eq_dec : EqDecision Q.
Proof. solve_decision. Defined.
#[global] Instance exn_class_eq_dec : EqDecision exn_class.
Proof. solve_decision. Defined.
#[global] Instance exn_eq_dec : EqDecision exn.
Proof. solve_decision. Defined.
#[global] Instance pyval_eq_dec : EqDecision pyval.
Proof. solve_decision. Defined.

(** [a is b] on exception instances. *)
Definition exn_is (a b : exn) : bool := Nat.eqb (exn_id a) (exn_id b).

(** [isinstance(e, TimeoutError)], the test of [except TimeoutError]. *)
Definition isinstance_TimeoutError (e : exn) : bool :=
  match exn_cls e with
  | TimeoutError | TimeoutError_subclass _ => true
  | _ => false
  end.

(** [isinstance(e, socket.error)], the test of [except error];
    [socket.timeout] derives from [socket.error]. *)
Definition isinstance_error (e : exn) : bool :=
  match exn_cls e with
  | error _ | socket_timeout => true
  | _ => false
  end.

(** [ex[0]] of a socket error compared with an errno: the first argument of
    [socket.timeout('timed out')] is a string and equals no errno. *)
Definition arg0_is (e : exn) (errno : Z) : bool :=
  match exn_cls e with
  | error n => Z.eqb n errno
  | _ => false
  end.

(** A timeout in seconds: [None] is Python's [None]. *)
Definition seconds := option Q.

(** [t == 0.0] *)
Definition eq_zero (t : seconds) : bool :=
  match t with
  | Some q => Qeq_bool q 0
  | None => false
  end.

(** ** Python floats *)

(** A float is given by its value, a rational.  The conversions below are
    those of IEEE 754 binary64, which CPython's float is. *)

(** The integer nearest to [n / d] for [d > 0]; a tie goes to the even one. *)
Definition round_half_even (n d : Z) : Z :=
  let q := n / d in
  let r := n mod d in
  match 2 * r ?= d with
  | Lt => q
  | Gt => q + 1
  | Eq => if Z.even q then q else q + 1
  end.

(** [m * 2^e] *)
Definition scale2 (m e : Z) : Q :=
  if 0 <=? e then inject_Z (m * 2 ^ e) else Qred (Qmake m (Z.to_pos (2 ^ (- e)))).

(** The double nearest to [x]: 53 bits, round to nearest, ties to even,
    subnormals below 2^-1022; [None] when the result is beyond the largest
    double. *)
Definition binary64 (x : Q) : option Q :=
  let n := Qnum x in
  let d := Zpos (Qden x) in
  if n =? 0 then Some 0%Q
  else
    let a := Z.abs n in
    let k := Z.log2 a - Z.log2 d in
    (* 2^k <= a/d < 2^(k+1) *)
    let k := if (if 0 <=? k then d * 2 ^ k <=? a else d <=? a * 2 ^ (- k)) then k else k - 1 in
    (* the weight of the last bit kept *)
    let e := Z.max (k - 52) (-1074) in
    let m := if 0 <=? e then round_half_even a (d * 2 ^ e)
             else round_half_even (a * 2 ^ (- e)) d in
    if (0 <=? e) && (2 ^ 1024 <=? m * 2 ^ e) then None
    else Some (scale2 (Z.sgn n * m) e).

(** [float(z)] for an integer: [None] is OverflowError. *)
Definition float_of_int (z : Z) : option Q := binary64 (inject_Z z).

(** ** The world *)

Definition gid := nat.

Inductive callback : Type :=
| cb_switch (g : gid)                      (* g.switch *)
| cb_throw (g : gid) (args : list exc_arg) (* g.throw, *throw_args *)
| cb_wait_helper.                          (* _wait_helper *)

(** Calls to [gevent.core] and to the underlying OS socket, in order. *)
Inductive effect : Type :=
| ArmTimer (h : nat) (s : seconds) (cb : callback)
| ArmRead (h : nat) (fileno : Z) (cb : callback) (timeout : seconds) (arg : gid * exc_arg)
| ArmWrite (h : nat) (fileno : Z) (cb : callback) (timeout : seconds) (arg : gid * exc_arg)
| ArmReadWrite (h : nat) (fileno : Z) (cb : callback) (timeout : seconds) (arg : gid * exc_arg)
| Cancel (h : nat)
| SysCall (fileno : Z) (method : string) (args : list pyval).

(** What a greenlet runs. *)
Inductive callable : Type :=
| Hub_run                                       (* the bound method hub.run *)
| user_lambda (function : nat) (args : list pyval) (kwargs : gmap string pyval).

Record greenlet : Type := {
  g_run : callable;
  g_parent : option gid;
  g_started : bool;
  g_dead : bool
}.

Record Hub : Type := {
  hub_greenlet : gid;
  keyboard_interrupt_signal : option nat
}.

Record World : Type := {
  trace : list effect;
  next_handle : nat;            (* the next core event object *)
  next_obj : nat;               (* the next exception object *)
  greenlets : list greenlet;
  current : gid;                (* greenlet.getcurrent() *)
  hubs : list Hub;              (* the Hub objects, by reference *)
  threadlocal_hub : option nat; (* _threadlocal.hub as the running thread reads
                                   it; None: the read raises AttributeError *)
  stderr : list exn             (* tracebacks printed *)
}.

Definition with_trace (f : list effect -> list effect) (w : World) : World :=
  {| trace := f (trace w); next_handle := next_handle w; next_obj := next_obj w;
     greenlets := greenlets w; current := current w; hubs := hubs w;
     threadlocal_hub := threadlocal_hub w; stderr := stderr w |}.

Definition with_next_handle (n : nat) (w : World) : World :=
  {| trace := trace w; next_handle := n; next_obj := next_obj w;
     greenlets := greenlets w; current := current w; hubs := hubs w;
     threadlocal_hub := threadlocal_hub w; stderr := stderr w |}.

Definition with_next_obj (n : nat) (w : World) : World :=
  {| trace := trace w; next_handle := next_handle w; next_obj := n;
     greenlets := greenlets w; current := current w; hubs := hubs w;
     threadlocal_hub := threadlocal_hub w; stderr := stderr w |}.

Definition with_greenlets (f : list greenlet -> list greenlet) (w : World) : World :=
  {| trace := trace w; next_handle := next_handle w; next_obj := next_obj w;
     greenlets := f (greenlets w); current := current w; hubs := hubs w;
     threadlocal_hub := threadlocal_hub w; stderr := stderr w |}.

Definition with_hubs (f : list Hub -> list Hub) (w : World) : World :=
  {| trace := trace w; next_handle := next_handle w; next_obj := next_obj w;
     greenlets := greenlets w; current := current w; hubs := f (hubs w);
     threadlocal_hub := threadlocal_hub w; stderr := stderr w |}.

Definition with_threadlocal_hub (h : option nat) (w : World) : World :=
  {| trace := trace w; next_handle := next_handle w; next_obj := next_obj w;
     greenlets := greenlets w; current := current w; hubs := hubs w;
     threadlocal_hub := h; stderr := stderr w |}.

Definition with_stderr (f : list exn -> list exn) (w : World) : World :=
  {| trace := trace w; next_handle := next_handle w; next_obj := next_obj w;
     greenlets := greenlets w; current := current w; hubs := hubs w;
     threadlocal_hub := threadlocal_hub w; stderr := f (stderr w) |}.

(** ** The monad of Python computations: state and exceptions *)

Inductive result (A : Type) : Type :=
| Ret (a : A)
| Raise (e : exn).
Arguments Ret {A} a.
Arguments Raise {A} e.

Definition M (A : Type) : Type := World -> result A * World.

Definition ret {A} (a : A) : M A := fun w => (Ret a, w).

Definition raise {A} (e : exn) : M A := fun w => (Raise e, w).

Definition bind {A B} (m : M A) (k : A -> M B) : M B :=
  fun w => match m w with
           | (Ret a, w') => k a w'
           | (Raise e, w') => (Raise e, w')
           end.

Declare Scope py_scope.
Delimit Scope py_scope with py.
Notation "x <- m ;; k" := (bind m (fun x => k))
  (at level 100, m at next level, right associativity) : py_scope.
Notation "m ;;; k" := (bind m (fun _ => k))
  (at level 100, right associativity) : py_scope.
Local Open Scope py_scope.

(** [try: body finally: cleanup]: the cleanup runs on every exit of the body;
    an exception of the cleanup replaces the body's outcome. *)
Definition try_finally {A} (body : M A) (cleanup : M unit) : M A :=
  fun w => match body w with
           | (r, w') => match cleanup w' with
                        | (Ret _, w'') => (r, w'')
                        | (Raise e, w'') => (Raise e, w'')
                        end
           end.

(** [try: body except C, ex: handler]: [catches] is the isinstance test. *)
Definition try_except {A} (body : M A) (catches : exn -> bool) (handler : exn -> M A) : M A :=
  fun w => match body w with
           | (Ret a, w') => (Ret a, w')
           | (Raise e, w') => if catches e then handler e w' else (Raise e, w')
           end.

(** Instantiating an exception class allocates a new object. *)
Definition new_exn (c : exn_class) : M exn :=
  fun w => (Ret (Exn (next_obj w) c), with_next_obj (S (next_obj w)) w).

(** [raise C(...)] *)
Definition raise_new {A} (c : exn_class) : M A :=
  e <- new_exn c ;; raise e.

(** [assert cond] *)
Definition py_assert (cond : bool) : M unit :=
  if cond then ret tt else raise_new AssertionError.

Definition emit (e : effect) : M unit :=
  fun w => (Ret tt, with_trace (fun t => t ++ [e]) w).

Definition new_handle : M nat :=
  fun w => (Ret (next_handle w), with_next_handle (S (next_handle w)) w).

(** ** gevent.core (libevent): arming and cancelling events *)

Module core.

Definition timer (s : seconds) (cb : callback) : M nat :=
  h <- new_handle ;; emit (ArmTimer h s cb) ;;; ret h.

Definition read (fileno : Z) (cb : callback) (timeout : seconds) (arg : gid * exc_arg) : M nat :=
  h <- new_handle ;; emit (ArmRead h fileno cb timeout arg) ;;; ret h.

Definition write (fileno : Z) (cb : callback) (timeout : seconds) (arg : gid * exc_arg) : M nat :=
  h <- new_handle ;; emit (ArmWrite h fileno cb timeout arg) ;;; ret h.

Definition read_event := read.
Definition write_event := write.

Definition readwrite_event (fileno : Z) (cb : callback) (timeout : seconds) (arg : gid * exc_arg) : M nat :=
  h <- new_handle ;; emit (ArmReadWrite h fileno cb timeout arg) ;;; ret h.

(** [evt.cancel()] *)
Definition cancel (h : nat) : M unit := emit (Cancel h).

End core.

(** ** greenlet: creation, parent, current *)

Definition getcurrent : M gid := fun w => (Ret (current w), w).

(** [Greenlet(run)]: a new greenlet, child of the current one, not started. *)
Definition Greenlet (run : callable) : M gid :=
  fun w => (Ret (length (greenlets w)),
            with_greenlets (fun gs => gs ++ [{| g_run := run; g_parent := Some (current w);
                                                g_started := false; g_dead := false |}]) w).

(** [g.parent = p] *)
Definition set_parent (g p : gid) : M unit :=
  fun w => (Ret tt,
            with_greenlets (fun gs =>
              match gs !! g with
              | Some r => <[g := {| g_run := g_run r; g_parent := Some p;
                                    g_started := g_started r; g_dead := g_dead r |}]> gs
              | None => gs
              end) w).

Definition is_dead (w : World) (g : gid) : bool :=
  match greenlets w !! g with Some r => g_dead r | None => false end.

(** [g.dead] *)
Definition dead (g : gid) : M bool := fun w => (Ret (is_dead w g), w).

(** ** gevent/__init__.py *)

Module Gevent.

Section Program.

(** [g.switch()] seen from the greenlet that calls it: control leaves, the
    rest of the program runs, and the call ends when some callback resumes
    the caller with a value ([Ret]) or throws into it ([Raise]). *)
Variable greenlet_switch : gid -> M pyval.

(** [getattr(cur, 'switch_out', None)] *)
Variable switch_out_of : gid -> option (M unit).

(** [timer] forwards its arguments to [core.timer]. *)
Definition timer (s : seconds) (cb : callback) : M nat := core.timer s cb.

(** [self.greenlet] of the Hub object [self] *)
Definition Hub_greenlet (w : World) (self : nat) : gid :=
  match hubs w !! self with Some h => hub_greenlet h | None => 0%nat end.

Definition get_greenlet (self : nat) : M gid :=
  fun w => (Ret (Hub_greenlet w self), w).

(** [self.greenlet = g] *)
Definition set_greenlet (self : nat) (g : gid) : M unit :=
  fun w => (Ret tt,
            with_hubs (fun hs =>
              match hs !! self with
              | Some h => <[self := {| hub_greenlet := g;
                                       keyboard_interrupt_signal := keyboard_interrupt_signal h |}]> hs
              | None => hs
              end) w).

(** Hub.__init__ *)
Definition Hub___init__ : M nat :=
  g <- Greenlet Hub_run ;;
  fun w => (Ret (length (hubs w)),
            with_hubs (fun hs => hs ++ [{| hub_greenlet := g;
                                           keyboard_interrupt_signal := None |}]) w).

(** get_hub.  [threadlocal_hub] is what [_threadlocal.hub] gives the running
    thread.  When the read raises AttributeError the module's _threadlocal
    is rebound to a new threading.local() that holds the new hub only; a
    thread whose registration is lost in this way finds, at its next call,
    a world with [threadlocal_hub = None]. *)
Definition get_hub : M nat :=
  fun w => match threadlocal_hub w with
           | Some hub => (Ret hub, w)
           | None =>
               (hub <- Hub___init__ ;;
                (fun w' => (Ret tt, with_threadlocal_hub (Some hub) w')) ;;;
                ret hub) w
           end.

Definition spawn (function : nat) (args : list pyval) (kwargs : gmap string pyval) : M gid :=
  g <- Greenlet (user_lambda function args kwargs) ;;
  hub <- get_hub ;;
  p <- get_greenlet hub ;;
  set_parent g p ;;;
  timer (Some 0%Q) (cb_switch g) ;;;
  ret g.

Definition spawn_later (s : seconds) (function : nat) (args : list pyval)
    (kwargs : gmap string pyval) : M gid :=
  g <- Greenlet (user_lambda function args kwargs) ;;
  hub <- get_hub ;;
  p <- get_greenlet hub ;;
  set_parent g p ;;;
  timer s (cb_switch g) ;;;
  ret g.

(** print the traceback of a swallowed exception *)
Definition print_exception (e : exn) : M unit :=
  fun w => (Ret tt, with_stderr (fun l => l ++ [e]) w).

(** Hub.switch *)
Definition Hub_switch (self : nat) : M pyval :=
  cur <- getcurrent ;;
  g <- get_greenlet self ;;
  py_assert (negb (Nat.eqb cur g)) ;;;
  match switch_out_of cur with
  | Some switch_out => try_except switch_out (fun _ => true) print_exception
  | None => ret tt
  end ;;;
  g <- get_greenlet self ;;
  d <- dead g ;;
  (if d then g' <- Greenlet Hub_run ;; set_greenlet self g' else ret tt) ;;;
  g <- get_greenlet self ;;
  greenlet_switch g.

Definition sleep (s : seconds) : M unit :=
  hub <- get_hub ;;
  g <- get_greenlet hub ;;
  cur <- getcurrent ;;
  py_assert (negb (Nat.eqb g cur)) ;;;
  cur <- getcurrent ;;
  t <- timer s (cb_switch cur) ;;
  try_finally
    (Hub_switch hub ;;; ret tt)
    (core.cancel t).

Definition kill (g : gid) (throw_args : list exc_arg) : M unit :=
  timer (Some 0%Q) (cb_throw g throw_args) ;;;
  cur <- getcurrent ;;
  hub <- get_hub ;;
  hg <- get_greenlet hub ;;
  if negb (Nat.eqb cur hg) then sleep (Some 0%Q) else ret tt.

Definition wait_reader (fileno : Z) (timeout : seconds) (timeout_exc : exc_arg) : M unit :=
  cur <- getcurrent ;;
  evt <- core.read fileno cb_wait_helper timeout (cur, timeout_exc) ;;
  try_finally
    (hub <- get_hub ;;
     returned_ev <- Hub_switch hub ;;
     py_assert (bool_decide (VEvent evt = returned_ev)))
    (core.cancel evt).

Definition wait_writer (fileno : Z) (timeout : seconds) (timeout_exc : exc_arg) : M unit :=
  cur <- getcurrent ;;
  evt <- core.write fileno cb_wait_helper timeout (cur, timeout_exc) ;;
  try_finally
    (hub <- get_hub ;;
     returned_ev <- Hub_switch hub ;;
     py_assert (bool_decide (VEvent evt = returned_ev)))
    (core.cancel evt).

(** *** class timeout *)

Record timeout : Type := {
  exception : exc_arg;       (* self.exception *)
  timeout_ : option nat      (* self.timeout: the timer, or None *)
}.

(** timeout.__init__; [exception = None] is Python's None. *)
Definition timeout___init__ (s : seconds) (exception : option exc_arg) : M timeout :=
  exception <- match exception with
               | None => e <- new_exn _SilentException ;; ret (ExcInst e)
               | Some x => ret x
               end ;;
  match s with
  | None => ret {| exception := exception; timeout_ := None |}
  | Some _ =>
      cur <- getcurrent ;;
      t <- timer s (cb_throw cur [exception]) ;;
      ret {| exception := exception; timeout_ := Some t |}
  end.

Definition timeout_cancel (self : timeout) : M unit :=
  match timeout_ self with
  | Some t => core.cancel t
  | None => ret tt
  end.

(** [value is self.exception], for the [value] handed to [__exit__]
    ([None] when the block ended normally). *)
Definition value_is (value : option exn) (stored : exc_arg) : bool :=
  match value, stored with
  | Some e, ExcInst e' => exn_is e e'
  | _, _ => false
  end.

(** [typ is _SilentException] *)
Definition typ_is__SilentException (typ : option exn_class) : bool :=
  match typ with
  | Some _SilentException => true
  | _ => false
  end.

(** timeout.__exit__: the result is the truth value returned. *)
Definition timeout___exit__ (self : timeout) (typ : option exn_class) (value : option exn) : M bool :=
  timeout_cancel self ;;;
  if typ_is__SilentException typ && value_is value (exception self)
  then ret true
  else ret false.

(** The [with] statement over a timeout scope:
    [with timeout(s, exc): block]. *)
Definition with_timeout_scope (s : seconds) (exc : option exc_arg) (block : timeout -> M unit) : M unit :=
  mgr <- timeout___init__ s exc ;;
  fun w => match block mgr w with
           | (Ret _, w') => (timeout___exit__ mgr None None ;;; ret tt) w'
           | (Raise e, w') =>
               (suppress <- timeout___exit__ mgr (Some (exn_cls e)) (Some e) ;;
                if suppress then ret tt else raise e) w'
           end.

Definition with_timeout (s : seconds)
    (func : list pyval -> gmap string pyval -> M pyval)
    (args : list pyval) (kwds : gmap string pyval) : M pyval :=
  let has_timeout_value := bool_decide (is_Some (kwds !! "timeout_value")) in
  let timeout_value := default VNone (kwds !! "timeout_value") in
  let kwds := delete "timeout_value" kwds in
  error <- new_exn TimeoutError ;;
  timer <- timeout___init__ s (Some (ExcInst error)) ;;
  try_finally
    (try_except (func args kwds) isinstance_TimeoutError
       (fun ex => if exn_is ex error && has_timeout_value
                  then ret timeout_value
                  else raise ex))
    (timeout_cancel timer).

(** *** Hub.run, signal and the callback of the wait functions *)

(** [core.dispatch()]: the reactor runs the callbacks that are due and
    gives its status. *)
Variable core_dispatch : M Z.

(** [core.signal(signalnum, callback)] *)
Variable core_signal : Z -> M unit -> M nat.

(** [g.throw( *args )] called by the running greenlet. *)
Variable greenlet_throw : gid -> list exc_arg -> M unit.

(** [MAIN = greenlet.getcurrent()], taken when the module is loaded. *)
Variable MAIN : gid.

(** core.EV_TIMEOUT *)
Variable EV_TIMEOUT : Z.

Definition KeyboardInterrupt : exn_class := OtherException "KeyboardInterrupt".

(** [while True: body], where the body gives [Some v] for [return v] and
    [None] to go round again; [None] when [fuel] rounds were not enough. *)
Fixpoint while_True {A} (fuel : nat) (body : M (option A)) : M (option A) :=
  match fuel with
  | O => ret None
  | S fuel' =>
      r <- body ;;
      match r with
      | Some v => ret (Some v)
      | None => while_True fuel' body
      end
  end.

Definition signal (signalnum : Z) (handler : M unit) : M nat :=
  let deliver_exception_to_MAIN :=
    try_except handler (fun _ => true) (fun e => greenlet_throw MAIN [ExcInst e]) in
  core_signal signalnum deliver_exception_to_MAIN.

(** [self.keyboard_interrupt_signal] *)
Definition get_keyboard_interrupt_signal (self : nat) : M (option nat) :=
  fun w => (Ret (match hubs w !! self with
                 | Some h => keyboard_interrupt_signal h
                 | None => None
                 end), w).

(** [self.keyboard_interrupt_signal = k] *)
Definition set_keyboard_interrupt_signal (self : nat) (k : option nat) : M unit :=
  fun w => (Ret tt,
            with_hubs (fun hs =>
              match hs !! self with
              | Some h => <[self := {| hub_greenlet := hub_greenlet h;
                                       keyboard_interrupt_signal := k |}]> hs
              | None => hs
              end) w).

(** Hub.run; the strings are the two messages of the source. *)
Definition Hub_run_ (fuel : nat) (self : nat) : M (option pyval) :=
  k <- get_keyboard_interrupt_signal self ;;
  match k with
  | None =>
      ev <- signal 2 (greenlet_throw MAIN [ExcClass KeyboardInterrupt]) ;;
      set_keyboard_interrupt_signal self (Some ev)
  | Some _ => ret tt
  end ;;;
  while_True fuel
    (result <- core_dispatch ;;
     if Z.ltb 0 result
     then ret (Some (VStr "Hub.run() has finished because there are no events registered"))
     else if Z.ltb result 0
     then ret (Some (VStr "Hub.run() has finished because there was an error"))
     else ret (Some (VInt result))).

(** What a callback of the hub does to a waiting greenlet. *)
Inductive resumption : Type :=
| resume_switch (g : gid) (v : pyval)         (* g.switch(v) *)
| resume_throw (g : gid) (exc : exc_arg).     (* g.throw(exc) *)

(** _wait_helper, for the event [ev] whose [ev.arg] is [arg]. *)
Definition _wait_helper (ev : nat) (arg : gid * exc_arg) (evtype : Z) : resumption :=
  let (current, timeout_exc) := arg in
  if negb (Z.eqb (Z.land evtype EV_TIMEOUT) 0)
  then resume_throw current timeout_exc
  else resume_switch current (VEvent ev).

(** fork *)
Definition fork (_original_fork : M Z) (core_reinit : M unit) : M Z :=
  result <- _original_fork ;;
  core_reinit ;;;
  ret result.


End Program.

End Gevent.

(** ** gevent/socket.py *)

Module Socket.

Section Program.

(** errno.EWOULDBLOCK and errno.EBADF of the platform. *)
Variables EWOULDBLOCK EBADF : Z.

(** [get_hub().switch()], imported from gevent.hub: control leaves the
    caller until a callback resumes it with a value or throws into it. *)
Variable hub_switch : M pyval.

(** What the non-blocking OS socket [fileno] answers to a call of one of
    its methods, in the world where the call is made. *)
Variable kernel : Z -> string -> list pyval -> World -> result pyval.

(** The default [timeout_exc] of the wait functions: the one instance
    [_socket.timeout('timed out')] made when the module is loaded. *)
Variable timed_out : exn.

Definition wait_read (fileno : Z) (timeout : seconds) (timeout_exc : exc_arg) : M unit :=
  cur <- getcurrent ;;
  evt <- core.read_event fileno cb_wait_helper timeout (cur, timeout_exc) ;;
  try_finally
    (switch_result <- hub_switch ;;
     py_assert (bool_decide (VEvent evt = switch_result)))
    (core.cancel evt).

Definition wait_write (fileno : Z) (timeout : seconds) (timeout_exc : exc_arg) : M unit :=
  cur <- getcurrent ;;
  evt <- core.write_event fileno cb_wait_helper timeout (cur, timeout_exc) ;;
  try_finally
    (switch_result <- hub_switch ;;
     py_assert (bool_decide (VEvent evt = switch_result)))
    (core.cancel evt).

Definition wait_readwrite (fileno : Z) (timeout : seconds) (timeout_exc : exc_arg) : M unit :=
  cur <- getcurrent ;;
  evt <- core.readwrite_event fileno cb_wait_helper timeout (cur, timeout_exc) ;;
  try_finally
    (switch_result <- hub_switch ;;
     py_assert (bool_decide (VEvent evt = switch_result)))
    (core.cancel evt).

(** *** class _closedsocket *)

(** _closedsocket._dummy *)
Definition _dummy {A} : M A := raise_new (error EBADF).

(** The object held in [self._sock]. *)
Inductive sock_obj : Type :=
| _realsocket (fileno : Z)
| _closedsocket.

(** [self._sock.name( *args )]: on a [_closedsocket] every name is
    [_dummy], either as the class attribute or through [__getattr__]. *)
Definition _sock_call (s : sock_obj) (name : string) (args : list pyval) : M pyval :=
  match s with
  | _realsocket fd =>
      emit (SysCall fd name args) ;;;
      fun w => (kernel fd name args w, w)
  | _closedsocket => _dummy
  end.

(** [self._sock.fileno()] *)
Definition _sock_fileno (s : sock_obj) : M Z :=
  match s with
  | _realsocket fd => ret fd
  | _closedsocket => _dummy
  end.

(** *** class socket *)

Definition _delegate_methods : list string :=
  ["recv"; "recvfrom"; "recv_into"; "recvfrom_into"; "send"; "sendto"; "sendall"]%string.

(** What [close] binds in the instance: the bound method [_dummy]. *)
Inductive attr : Type := dummy.

Record socket : Type := {
  _sock : sock_obj;
  timeout : seconds;
  inst_dict : gmap string attr      (* methods rebound on the instance *)
}.

(** socket(_sock=raw) for a raw OS socket *)
Definition socket___init__ (raw : Z) (defaulttimeout : seconds) : M socket :=
  _sock_call (_realsocket raw) "setblocking" [VInt 0] ;;;
  ret {| _sock := _realsocket raw; timeout := defaulttimeout; inst_dict := ∅ |}.

Definition close (self : socket) : socket :=
  {| _sock := _closedsocket;
     timeout := timeout self;
     inst_dict := foldl (fun d method => <[method := dummy]> d) (inst_dict self) _delegate_methods |}.

(** Attribute lookup of a method: the instance first, then the class. *)
Definition lookup_method {A} (self : socket) (name : string) (class_method : M A) : M A :=
  match inst_dict self !! name with
  | Some dummy => _dummy
  | None => class_method
  end.

(** The methods made by the [exec] loop:
    def name(self, *args): return self._sock.name( *args ) *)
Definition delegated (name : string) (self : socket) (args : list pyval) : M pyval :=
  _sock_call (_sock self) name args.

(** [self.fileno()] *)
Definition fileno (self : socket) : M Z :=
  lookup_method self "fileno" (_sock_fileno (_sock self)).

(** One round of the [while True] loop of the recv family: [Some v] is
    [return v], [None] goes round again. *)
Definition recv_round (name : string) (self : socket) (args : list pyval)
    (wait_fileno : M Z) : M (option pyval) :=
  r <- try_except (v <- _sock_call (_sock self) name args ;; ret (Some v)) isinstance_error
         (fun ex => if negb (arg0_is ex EWOULDBLOCK) || eq_zero (timeout self)
                    then raise ex
                    else ret None) ;;
  match r with
  | Some v => ret (Some v)
  | None =>
      fd <- wait_fileno ;;
      wait_read fd (timeout self) (ExcInst timed_out) ;;;
      ret None
  end.

Fixpoint loop (fuel : nat) (round : M (option pyval)) : M (option pyval) :=
  match fuel with
  | O => ret None
  | S fuel' =>
      r <- round ;;
      match r with
      | Some v => ret (Some v)
      | None => loop fuel' round
      end
  end.

Definition recv (fuel : nat) (self : socket) (args : list pyval) : M (option pyval) :=
  loop fuel (recv_round "recv" self args (fileno self)).

Definition recvfrom (fuel : nat) (self : socket) (args : list pyval) : M (option pyval) :=
  loop fuel (recv_round "recvfrom" self args (_sock_fileno (_sock self))).

Definition recvfrom_into (fuel : nat) (self : socket) (args : list pyval) : M (option pyval) :=
  loop fuel (recv_round "recvfrom_into" self args (_sock_fileno (_sock self))).

Definition recv_into (fuel : nat) (self : socket) (args : list pyval) : M (option pyval) :=
  loop fuel (recv_round "recv_into" self args (_sock_fileno (_sock self))).

(** A socket object is shared with the other greenlets: they run while the
    caller waits in the hub, and may call close() or settimeout() on it.  A
    method takes the object as it is when the method is called;
    [after_wait self w] is that object as the caller finds it when it is
    resumed in world [w]. *)
Variable after_wait : socket -> World -> socket.

(** Reading [self] again once the wait is over. *)
Definition reread (self : socket) : M socket :=
  fun w => (Ret (after_wait self w), w).

(** [timeout_kw = None] is the default [timeout_default]. *)
Definition send (self : socket) (data flags : pyval) (timeout_kw : option seconds) : M pyval :=
  let timeout := match timeout_kw with
                 | None => timeout self
                 | Some t => t
                 end in
  try_except (_sock_call (_sock self) "send" [data; flags]) isinstance_error
    (fun ex =>
       if negb (arg0_is ex EWOULDBLOCK) || eq_zero timeout
       then raise ex
       else
         fd <- _sock_fileno (_sock self) ;;
         wait_write fd timeout (ExcInst timed_out) ;;;
         self <- reread self ;;
         try_except (_sock_call (_sock self) "send" [data; flags]) isinstance_error
           (fun ex2 => if arg0_is ex2 EWOULDBLOCK then ret (VInt 0) else raise ex2)).

(** In [sendto] the name [timeout] is not a parameter: it is the module's
    [timeout = _socket.timeout], an exception class, and a class never
    equals the float 0.0. *)
Definition module_timeout_eq_zero : bool := false.

Definition sendto (self : socket) (args : list pyval) : M pyval :=
  try_except (_sock_call (_sock self) "sendto" args) isinstance_error
    (fun ex =>
       if negb (arg0_is ex EWOULDBLOCK) || module_timeout_eq_zero
       then raise ex
       else
         fd <- fileno self ;;
         wait_write fd (timeout self) (ExcInst timed_out) ;;;
         self <- reread self ;;
         try_except (_sock_call (_sock self) "sendto" args) isinstance_error
           (fun ex2 => if arg0_is ex2 EWOULDBLOCK then ret (VInt 0) else raise ex2)).

Definition setblocking (self : socket) (flag : bool) : socket :=
  {| _sock := _sock self;
     timeout := if flag then None else Some 0%Q;
     inst_dict := inst_dict self |}.

(** [int.__float__()]: the nearest float, OverflowError beyond the range. *)
Definition int___float__ (z : Z) : M Q :=
  match float_of_int z with
  | Some f => ret f
  | None => raise_new (OtherException "OverflowError")
  end.

(** [howlong.__float__]: the bound method, when the value has one;
    [None] is AttributeError. *)
Definition __float__ (v : pyval) : option (M Q) :=
  match v with
  | VInt z => Some (int___float__ z)
  | VBool b => Some (ret (if b then 1%Q else 0%Q))
  | VFloat q => Some (ret q)
  | _ => None
  end.

Definition settimeout (self : socket) (howlong : pyval) : M socket :=
  howlong <- match howlong with
             | VNone => ret None
             | _ =>
                 match __float__ howlong with
                 | None => raise_new TypeError
                 | Some f =>
                     howlong <- f ;;
                     if negb (Qle_bool 0 howlong) then raise_new ValueError
                     else ret (Some howlong)
                 end
             end ;;
  ret {| _sock := _sock self; timeout := howlong; inst_dict := inst_dict self |}.

Definition gettimeout (self : socket) : seconds := timeout self.

(** The I/O methods of a socket object, as called on the instance. *)
Inductive io_method : Type :=
| m_send (data flags : pyval) (timeout_kw : option seconds)
| m_sendto
| m_recv
| m_recv_into
| m_recvfrom
| m_recvfrom_into
| m_delegated (name : string).

Definition method_name (m : io_method) : string :=
  match m with
  | m_send _ _ _ => "send"
  | m_sendto => "sendto"
  | m_recv => "recv"
  | m_recv_into => "recv_into"
  | m_recvfrom => "recvfrom"
  | m_recvfrom_into => "recvfrom_into"
  | m_delegated name => name
  end.

(** [self.m( *args )]; [None] when a loop has not ended within [fuel]. *)
Definition call (fuel : nat) (self : socket) (m : io_method) (args : list pyval) : M (option pyval) :=
  lookup_method self (method_name m)
    match m with
    | m_send data flags timeout_kw => v <- send self data flags timeout_kw ;; ret (Some v)
    | m_sendto => v <- sendto self args ;; ret (Some v)
    | m_recv => recv fuel self args
    | m_recv_into => recv_into fuel self args
    | m_recvfrom => recvfrom fuel self args
    | m_recvfrom_into => recvfrom_into fuel self args
    | m_delegated name => v <- delegated name self args ;; ret (Some v)
    end.

(** *** The rest of class socket *)

(** errno.EWOULDBLOCK, the name [accept] uses; the other methods use the
    module's EWOULDBLOCK (they differ on Windows only). *)
Variable errno_EWOULDBLOCK : Z.

(** [_socket.getdefaulttimeout()] *)
Variable defaulttimeout : seconds.

(** [_realsocket(family, type, proto)]: a new OS socket. *)
Variable _realsocket_new : Z -> Z -> Z -> M Z.

(** What the OS socket [fileno] answers to accept(): the new descriptor
    and the peer address. *)
Variable kernel_accept : Z -> World -> result (Z * pyval).

(** What the OS socket answers to a call that returns an integer
    (getsockopt, connect_ex). *)
Variable kernel_int : Z -> string -> list pyval -> World -> result Z.

(** [time.time()] *)
Variable time_time : World -> Q.

(** [a + b] and [a - b] on floats, as the platform rounds them. *)
Variables float_add float_sub : Q -> Q -> Q.

(** [self._sock.accept()] *)
Definition _sock_accept (s : sock_obj) : M (Z * pyval) :=
  match s with
  | _realsocket fd =>
      emit (SysCall fd "accept" []) ;;;
      fun w => (kernel_accept fd w, w)
  | _closedsocket => _dummy
  end.

(** [self._sock.name( *args )] for a method that returns an integer. *)
Definition _sock_call_int (s : sock_obj) (name : string) (args : list pyval) : M Z :=
  match s with
  | _realsocket fd =>
      emit (SysCall fd name args) ;;;
      fun w => (kernel_int fd name args w, w)
  | _closedsocket => _dummy
  end.

(** The [_sock] argument of socket.__init__: None, an object that has a
    [_sock] attribute (with its [timeout] attribute, when it has one that
    is not False), or any other object. *)
Inductive _sock_arg : Type :=
| _sock_None
| _sock_wrapper (inner : sock_obj) (timeout_attr : option seconds)
| _sock_raw (o : sock_obj).

(** socket.__init__, with every form of its [_sock] argument. *)
Definition socket___init___ (family type proto : Z) (sock_arg : _sock_arg) : M socket :=
  self <- match sock_arg with
          | _sock_None =>
              fd <- _realsocket_new family type proto ;;
              ret {| _sock := _realsocket fd; timeout := defaulttimeout; inst_dict := ∅ |}
          | _sock_wrapper inner timeout_attr =>
              ret {| _sock := inner;
                     timeout := match timeout_attr with
                                | Some t => t
                                | None => defaulttimeout
                                end;
                     inst_dict := ∅ |}
          | _sock_raw o =>
              ret {| _sock := o; timeout := defaulttimeout; inst_dict := ∅ |}
          end ;;
  _sock_call (_sock self) "setblocking" [VInt 0] ;;;
  ret self.

(** dup: [socket(_sock=self._sock)]; [self._sock] is an OS socket or a
    _closedsocket, and neither has a [_sock] attribute. *)
Definition dup (self : socket) : M socket :=
  socket___init___ 0 0 0 (_sock_raw (_sock self)).

(** [while True] with a body that gives [Some v] for [return v]/[break]
    and [None] to go round again. *)
Fixpoint while_True {A} (fuel : nat) (body : M (option A)) : M (option A) :=
  match fuel with
  | O => ret None
  | S fuel' =>
      r <- body ;;
      match r with
      | Some v => ret (Some v)
      | None => while_True fuel' body
      end
  end.

Definition accept (fuel : nat) (self : socket) : M (option (socket * pyval)) :=
  r <- while_True fuel
         (r <- try_except (c <- _sock_accept (_sock self) ;; ret (Some c)) isinstance_error
                (fun ex => if negb (arg0_is ex errno_EWOULDBLOCK) || eq_zero (timeout self)
                           then raise ex
                           else ret None) ;;
          match r with
          | Some c => ret (Some c)
          | None =>
              fd <- _sock_fileno (_sock self) ;;
              wait_read fd (timeout self) (ExcInst timed_out) ;;;
              ret None
          end) ;;
  match r with
  | Some (client, addr) =>
      s <- socket___init___ 0 0 0 (_sock_raw (_realsocket client)) ;;
      ret (Some (s, addr))
  | None => ret None
  end.


(** **** sendall *)

(** The numbers [data_sent] can hold. *)
Inductive number : Type :=
| n_int (z : Z)
| n_float (q : Q).

Definition as_number (v : pyval) : option number :=
  match v with
  | VInt z => Some (n_int z)
  | VBool b => Some (n_int (if b then 1 else 0))
  | VFloat q => Some (n_float q)
  | _ => None
  end.

(** [a + b]: an integer that meets a float is converted first. *)
Definition number_add (a b : number) : M number :=
  match a, b with
  | n_int x, n_int y => ret (n_int (x + y))
  | n_int x, n_float y => x <- int___float__ x ;; ret (n_float (float_add x y))
  | n_float x, n_int y => y <- int___float__ y ;; ret (n_float (float_add x y))
  | n_float x, n_float y => ret (n_float (float_add x y))
  end.

(** [a < n] for an integer [n] *)
Definition number_lt (a : number) (n : Z) : bool :=
  match a with
  | n_int x => Z.ltb x n
  | n_float q => negb (Qle_bool (inject_Z n) q)
  end.

(** [data_sent += v] *)
Definition iadd (data_sent : number) (v : pyval) : M number :=
  match as_number v with
  | Some n => number_add data_sent n
  | None => raise_new TypeError
  end.

(** [len(data)] *)
Definition len (data : string) : Z := Z.of_nat (String.length data).

(** [data[i:]] for an integer [i] *)
Definition slice_from (data : string) (i : Z) : string :=
  let start := if Z.ltb i 0 then Z.max 0 (len data + i) else Z.min i (len data) in
  String.substring (Z.to_nat start) (Z.to_nat (len data - start)) data.

(** [data[data_sent:]]; a float is not a slice index. *)
Definition slice (data : string) (data_sent : number) : M string :=
  match data_sent with
  | n_int i => ret (slice_from data i)
  | n_float _ => raise_new TypeError
  end.

(** A loop that carries a state: the body gives [inl s'] to go round again
    with [s'] and [inr a] to leave with [a]. *)
Fixpoint loop_from {S A} (fuel : nat) (body : S -> M (S + A)) (s : S) : M (option A) :=
  match fuel with
  | O => ret None
  | Datatypes.S fuel' =>
      r <- body s ;;
      match r with
      | inl s' => loop_from fuel' body s'
      | inr a => ret (Some a)
      end
  end.

(** [self.send(data, flags)] and [self.send(data, flags, timeout=t)] *)
Definition self_send (self : socket) (data flags : pyval) (timeout_kw : option seconds) : M pyval :=
  lookup_method self "send" (send self data flags timeout_kw).

Definition time_ : M Q := fun w => (Ret (time_time w), w).

Definition sendall (fuel : nat) (self : socket) (data : string) (flags : pyval) : M (option unit) :=
  match timeout self with
  | None =>
      loop_from fuel
        (fun data_sent =>
           if number_lt data_sent (len data)
           then
             chunk <- slice data data_sent ;;
             v <- self_send self (VStr chunk) flags None ;;
             data_sent <- iadd data_sent v ;;
             ret (inl data_sent)
           else ret (inr tt))
        (n_int 0)
  | Some timeleft =>
      now <- time_ ;;
      let end_ := float_add now timeleft in
      loop_from fuel
        (fun '(data_sent, timeleft) =>
           chunk <- slice data data_sent ;;
           v <- self_send self (VStr chunk) flags (Some (Some timeleft)) ;;
           data_sent <- iadd data_sent v ;;
           if negb (number_lt data_sent (len data))
           then ret (inr tt)
           else
             now <- time_ ;;
             let timeleft := float_sub end_ now in
             if Qle_bool timeleft 0
             then raise_new socket_timeout
             else ret (inl (data_sent, timeleft)))
        (n_int 0, timeleft)
  end.

(** **** gethostbyname *)

(** The resolvers the module calls. *)
Variable _socket_gethostbyname : pyval -> M pyval.
Variable _socket_gethostname : M pyval.
Variable resolve_ipv4 : string -> M (list string).
Variable random_choice : list string -> M string.
Variable inet_ntoa : string -> M pyval.

Fixpoint string_forall (p : Ascii.ascii -> bool) (s : string) : bool :=
  match s with
  | EmptyString => true
  | String c rest => p c && string_forall p rest
  end.

(** ['.' in s]; the character [.] has code 46. *)
Fixpoint contains_dot (s : string) : bool :=
  match s with
  | EmptyString => false
  | String c rest => Ascii.eqb c (Ascii.ascii_of_nat 46) || contains_dot rest
  end.

(** A character of the class [\d\.] *)
Definition digit_or_dot (c : Ascii.ascii) : bool :=
  let n := Ascii.nat_of_ascii c in
  (Nat.leb 48 n && Nat.leb n 57) || Ascii.eqb c (Ascii.ascii_of_nat 46).

(** The string without the newline (code 10) that ends it, if one does. *)
Fixpoint without_final_newline (s : string) : string :=
  match s with
  | EmptyString => EmptyString
  | String c EmptyString => if Ascii.eqb c (Ascii.ascii_of_nat 10) then EmptyString else s
  | String c rest => String c (without_final_newline rest)
  end.

(** [_ip4_re.match(s)] for [_ip4_re = re.compile('^[\d\.]+$')]: one or more
    digits and dots up to the end of the string, where [$] also matches
    just before a newline that ends the string. *)
Definition _ip4_re_match (s : string) : bool :=
  let body := without_final_newline s in
  negb (String.eqb body "") && string_forall digit_or_dot body.

Definition gethostbyname (hostname : pyval) : M pyval :=
  match hostname with
  | VStr h =>
      if negb (contains_dot h) then _socket_gethostbyname hostname
      else if _ip4_re_match h then ret hostname
      else
        name <- _socket_gethostname ;;
        if bool_decide (hostname = name) then _socket_gethostbyname hostname
        else
          addrs <- resolve_ipv4 h ;;
          addr <- random_choice addrs ;;
          inet_ntoa addr
  | _ => _socket_gethostbyname hostname
  end.

(** **** connect and connect_ex *)

Variables EINVAL EINPROGRESS EALREADY EISCONN EAGAIN : Z.
Variable is_windows : bool.
Variables SOL_SOCKET SO_ERROR SO_REUSEADDR : Z.

(** The [address] argument: a tuple of length 2, or anything else. *)
Inductive address : Type :=
| addr_pair (host port : pyval)
| addr_other (v : pyval).

(** The address as the argument of a call of the OS socket. *)
Definition address_args (a : address) : list pyval :=
  match a with
  | addr_pair host port => [host; port]
  | addr_other v => [v]
  end.

(** [result in (EWOULDBLOCK, EINPROGRESS, EALREADY) or
    (result == EINVAL and is_windows)] *)
Definition in_progress (result : Z) : bool :=
  (Z.eqb result EWOULDBLOCK || Z.eqb result EINPROGRESS || Z.eqb result EALREADY)
  || (Z.eqb result EINVAL && is_windows).

(** The two [while True] loops of connect on the local [sock]: the one of a
    socket without timeout ([end_ = None]) and the one that runs against the
    deadline [end_]. *)
Definition connect_loop (fuel : nat) (sock : sock_obj) (addr : address) (end_ : option Q)
    : M (option pyval) :=
  while_True fuel
    (err <- _sock_call_int sock "getsockopt" [VInt SOL_SOCKET; VInt SO_ERROR] ;;
     if negb (Z.eqb err 0) then raise_new (error err)
     else
       result <- _sock_call_int sock "connect_ex" (address_args addr) ;;
       if Z.eqb result 0 || Z.eqb result EISCONN then ret (Some VNone)
       else if in_progress result
       then
         match end_ with
         | None =>
             fd <- _sock_fileno sock ;;
             wait_readwrite fd (Some (-1)%Q) (ExcInst timed_out) ;;;
             ret None
         | Some end_ =>
             now <- time_ ;;
             let timeleft := float_sub end_ now in
             if Qle_bool timeleft 0 then raise_new socket_timeout
             else
               fd <- _sock_fileno sock ;;
               wait_readwrite fd (Some timeleft) (ExcInst timed_out) ;;;
               ret None
         end
       else raise_new (error result)).

Definition connect (fuel : nat) (self : socket) (addr : address) : M (option pyval) :=
  addr <- match addr with
          | addr_pair host port => host' <- gethostbyname host ;; ret (addr_pair host' port)
          | addr_other _ => ret addr
          end ;;
  if eq_zero (timeout self)
  then v <- _sock_call (_sock self) "connect" (address_args addr) ;; ret (Some v)
  else
    let sock := _sock self in
    match timeout self with
    | None => connect_loop fuel sock addr None
    | Some t =>
        now <- time_ ;;
        let end_ := float_add now t in
        connect_loop fuel sock addr (Some end_)
    end.

(** The truth value of a Python value. *)
Definition truthy (v : pyval) : bool :=
  match v with
  | VNone => false
  | VBool b => b
  | VInt z => negb (Z.eqb z 0)
  | VFloat q => negb (Qeq_bool q 0)
  | VStr s => negb (String.eqb s "")
  | VEvent _ | VGreenlet _ => true
  end.

(** [isinstance(ex, timeout)] for the class socket.timeout *)
Definition isinstance_timeout (ex : exn) : bool :=
  match exn_cls ex with
  | socket_timeout => true
  | _ => false
  end.

(** connect_ex.  On Windows the module defines [EGAIN], not [EAGAIN], so
    the name read in the first handler is not bound there. *)
Definition connect_ex (fuel : nat) (self : socket) (addr : address) : M (option pyval) :=
  try_except
    (r <- lookup_method self "connect" (connect fuel self addr) ;;
     match r with
     | Some v => ret (Some (if truthy v then v else VInt 0))
     | None => ret None
     end)
    (fun ex => isinstance_timeout ex || isinstance_error ex)
    (fun ex =>
       if isinstance_timeout ex
       then if is_windows then raise_new (OtherException "NameError")
            else ret (Some (VInt EAGAIN))
       else match exn_cls ex with
            | error n => ret (Some (VInt n))
            | _ => raise ex
            end).

(** **** bind_and_listen and tcp_listener *)

(** [descriptor.name( *args )] for one of the methods the class delegates. *)
Definition method (descriptor : socket) (name : string) (args : list pyval) : M pyval :=
  lookup_method descriptor name (delegated name descriptor args).

(** [v | 1] *)
Definition or_1 (v : pyval) : M pyval :=
  match v with
  | VInt z => ret (VInt (Z.lor z 1))
  | VBool b => ret (VInt (Z.lor (if b then 1 else 0) 1))
  | _ => raise_new TypeError
  end.

Definition bind_and_listen (descriptor : socket) (addr : list pyval) (backlog : pyval)
    (reuse_addr : bool) : M unit :=
  (if reuse_addr
   then
     try_except
       (v <- method descriptor "getsockopt" [VInt SOL_SOCKET; VInt SO_REUSEADDR] ;;
        v <- or_1 v ;;
        method descriptor "setsockopt" [VInt SOL_SOCKET; VInt SO_REUSEADDR; v] ;;;
        ret tt)
       isinstance_error
       (fun _ => ret tt)
   else ret tt) ;;;
  method descriptor "bind" addr ;;;
  method descriptor "listen" [backlog] ;;;
  ret tt.

Definition tcp_listener (AF_INET SOCK_STREAM : Z) (addr : list pyval) (backlog : pyval)
    (reuse_addr : bool) : M socket :=
  sock <- socket___init___ AF_INET SOCK_STREAM 0 _sock_None ;;
  bind_and_listen sock addr backlog reuse_addr ;;;
  ret sock.


End Program.

End Socket.

(** * Notions used in the statements *)

Local Open Scope py_scope.

(** A world right after start-up: only the main greenlet exists. *)
Definition w0 : World :=
  {| trace := []; next_handle := 0; next_obj := 0;
     greenlets := [ {| g_run := user_lambda 0 [] ∅; g_parent := None;
                       g_started := true; g_dead := false |} ];
     current := 0%nat; hubs := []; threadlocal_hub := None; stderr := [] |}.

(** A world whose hub exists and whose driver greenlet has finished. *)
Definition w_driver_dead : World :=
  {| trace := []; next_handle := 0; next_obj := 0;
     greenlets := [ {| g_run := user_lambda 0 [] ∅; g_parent := None;
                       g_started := true; g_dead := false |};
                    {| g_run := Hub_run; g_parent := Some 0%nat;
                       g_started := true; g_dead := true |} ];
     current := 0%nat;
     hubs := [ {| hub_greenlet := 1%nat; keyboard_interrupt_signal := Some 0%nat |} ];
     threadlocal_hub := Some 0%nat; stderr := [] |}.

(** The marker allocated by the call made in world [w]. *)
Definition marker (w : World) : exn := Exn (next_obj w) TimeoutError.

(** The world in which [func] starts: the marker is allocated and, unless
    [s] is None, the timer is armed. *)
Definition with_timeout_entry (s : seconds) (w : World) : World :=
  snd (Gevent.timeout___init__ s (Some (ExcInst (marker w))) (with_next_obj (S (next_obj w)) w)).

(** A function that yields until its caller's marker is thrown into it:
    here, the exception with identity 0. *)
Definition times_out : list pyval -> gmap string pyval -> M pyval :=
  fun _ _ => raise (Exn 0 TimeoutError).

(** The scope object that [timeout(s, exc)] builds in world [w]. *)
Definition scope_of (s : seconds) (exc : option exc_arg) (w : World) : Gevent.timeout :=
  {| Gevent.exception := match exc with
                         | None => ExcInst (Exn (next_obj w) _SilentException)
                         | Some x => x
                         end;
     Gevent.timeout_ := match s with
                        | Some _ => Some (next_handle w)
                        | None => None
                        end |}.

(** The world in which the block of [with timeout(s, exc)] starts. *)
Definition scope_entry (s : seconds) (exc : option exc_arg) (w : World) : World :=
  snd (Gevent.timeout___init__ s exc w).

(** The greenlet made by [Greenlet(self.run)] in world [w]. *)
Definition fresh_driver (w : World) : greenlet :=
  {| g_run := Hub_run; g_parent := Some (current w); g_started := false; g_dead := false |}.

(** The greenlet made by spawn and spawn_later, once its parent is [p]. *)
Definition spawned (function : nat) (args : list pyval) (kwargs : gmap string pyval)
    (p : gid) : greenlet :=
  {| g_run := user_lambda function args kwargs; g_parent := Some p;
     g_started := false; g_dead := false |}.

Definition is_Hub_run (c : callable) : bool :=
  match c with
  | Hub_run => true
  | user_lambda _ _ _ => false
  end.

(** The state in which Hub.__init__, get_hub and Hub.switch keep the world:
    if a hub is registered for the thread, it is one of the Hub objects and
    its [greenlet] is a greenlet that runs Hub.run. *)
Definition hub_registered (w : World) : bool :=
  match threadlocal_hub w with
  | None => true
  | Some hub =>
      match hubs w !! hub with
      | Some h =>
          match greenlets w !! hub_greenlet h with
          | Some r => is_Hub_run (g_run r)
          | None => false
          end
      | None => false
      end
  end.

(** The world once a call made in [w] has armed an event: [e] is the call
    to the reactor, and the event's handle is [next_handle w]. *)
Definition armed (e : effect) (w : World) : World :=
  with_trace (fun t => t ++ [e]) (with_next_handle (S (next_handle w)) w).

(** A wait, from the armed world on: [sw] is the switch to the hub and [h]
    the handle of the event the call armed. *)
Definition wait_outcome (sw : M pyval) (h : nat) (w1 : World) : result unit * World :=
  match sw w1 with
  | (Ret v, w2) =>
      if bool_decide (VEvent h = v)
      then (Ret tt, with_trace (fun t => t ++ [Cancel h]) w2)
      else (Raise (Exn (next_obj w2) AssertionError),
            with_trace (fun t => t ++ [Cancel h]) (with_next_obj (S (next_obj w2)) w2))
  | (Raise e, w2) => (Raise e, with_trace (fun t => t ++ [Cancel h]) w2)
  end.

(** [cancel()] of the event [h] is the last reactor call of [out], made in
    the world [w2] in which the switch to the hub ended. *)
Definition cancelled_last (h : nat) (w2 : World) (out : World) : Prop :=
  trace out = trace w2 ++ [Cancel h].

(** A wait returns only when resumed with its own event [h]. *)
Definition own_event_only (h : nat) (switched : result pyval * World)
    (out : result unit * World) : Prop :=
  (fst out = Ret tt <-> fst switched = Ret (VEvent h)) /\
  (forall v, fst switched = Ret v -> v <> VEvent h ->
             fst out = Raise (Exn (next_obj (snd switched)) AssertionError)) /\
  (forall e, fst switched = Raise e -> fst out = Raise e).

(** The hub that [get_hub()] returns in world [w]. *)
Definition hub_of (w : World) : nat :=
  match threadlocal_hub w with
  | Some hub => hub
  | None => length (hubs w)
  end.

(** A hub that resumes the caller with the event armed last. *)
Definition resume_with_last_event : M pyval :=
  fun w => (Ret (VEvent (pred (next_handle w))), w).

(** A stray switch: the caller is resumed with None. *)
Definition stray_switch : M pyval := fun w => (Ret VNone, w).

(** The one instance socket.timeout('timed out'). *)
Definition timed_out_exn : exn := Exn 1000 socket_timeout.

(** The error of a send buffer that is full, with EWOULDBLOCK = 11. *)
Definition busy_exn : exn := Exn 1001 (error 11).

(** A kernel whose send buffer stays full. *)
Definition kernel_busy : Z -> string -> list pyval -> World -> result pyval :=
  fun _ _ _ _ => Raise busy_exn.

(** A hub in which the event's timeout fires: _wait_helper throws the
    timeout exception into the waiting greenlet. *)
Definition hub_timeout_fires : M pyval := fun w => (Raise timed_out_exn, w).

Definition sock3 (t : seconds) : Socket.socket :=
  {| Socket._sock := Socket._realsocket 3; Socket.timeout := t; Socket.inst_dict := ∅ |}.

(** Float addition and subtraction as IEEE 754 rounds them, for results
    within the range of the doubles. *)
Definition ieee (x : Q) : Q :=
  match binary64 x with
  | Some r => r
  | None => x
  end.

Definition ieee_add (a b : Q) : Q := ieee (a + b).

Definition ieee_sub (a b : Q) : Q := ieee (a - b).

(** No other greenlet touches the socket object while the caller waits. *)
Definition untouched : Socket.socket -> World -> Socket.socket := fun self _ => self.

(** Another greenlet calls close() on the socket object while the caller
    waits. *)
Definition closed_meanwhile : Socket.socket -> World -> Socket.socket :=
  fun self _ => Socket.close self.

(** What Hub.run returns for the status [r] of the one dispatch it makes. *)
Definition run_result (r : Z) : pyval :=
  if Z.ltb 0 r
  then VStr "Hub.run() has finished because there are no events registered"
  else if Z.ltb r 0
  then VStr "Hub.run() has finished because there was an error"
  else VInt r.

(** The handle and [arg] of the fd event whose arming is the last entry of
    a trace. *)
Definition last_armed (t : list effect) : option (nat * (gid * exc_arg)) :=
  match last t with
  | Some (ArmRead h _ _ _ arg) | Some (ArmWrite h _ _ _ arg)
  | Some (ArmReadWrite h _ _ _ arg) => Some (h, arg)
  | _ => None
  end.

(** What the greenlet that is resumed sees: the value switched in, or the
    exception thrown in (a class is instantiated). *)
Definition resumed (r : Gevent.resumption) : M pyval :=
  match r with
  | Gevent.resume_switch _ v => ret v
  | Gevent.resume_throw _ (ExcInst e) => raise e
  | Gevent.resume_throw _ (ExcClass c) => raise_new c
  end.

(** A switch to the hub during which the reactor fires, with flags
    [evtype], the event armed last, whose callback is _wait_helper. *)
Definition reactor_fires (EV_TIMEOUT evtype : Z) : M pyval :=
  fun w => match last_armed (trace w) with
           | Some (h, arg) => resumed (Gevent._wait_helper EV_TIMEOUT h arg evtype) w
           | None => (Ret VNone, w)
           end.

(** The exception that [throw(exc)] raises in a greenlet in world [w]. *)
Definition thrown (exc : exc_arg) (w : World) : exn :=
  match exc with
  | ExcInst e => e
  | ExcClass c => Exn (next_obj w) c
  end.

(** with_timeout inside with_timeout: the inner call has its own
    timeout_value [v2]. *)
Definition inner_with_timeout (s2 : seconds) (v2 : pyval)
    (f : list pyval -> gmap string pyval -> M pyval) : list pyval -> gmap string pyval -> M pyval :=
  fun a k => Gevent.with_timeout s2 f a (<["timeout_value" := v2]> k).

(** Hub.run ends with the outcome of its one dispatch. *)
Definition finish_run (d : result Z * World) : result (option pyval) * World :=
  match d with
  | (Ret r, w') => (Ret (Some (run_result r)), w')
  | (Raise e, w') => (Raise e, w')
  end.

(** The outcome of sleep and kill, given the outcome of the switch to the hub. *)
Definition discard_value (r : result pyval) : result unit :=
  match r with
  | Ret _ => Ret tt
  | Raise e => Raise e
  end.

Section statements.

Variables EWOULDBLOCK EBADF : Z.
Variable hub_switch : M pyval.
Variable kernel : Z -> string -> list pyval -> World -> result pyval.
Variable timed_out : exn.
Variable greenlet_switch : gid -> M pyval.
Variable switch_out_of : gid -> option (M unit).
Variable func : list pyval -> gmap string pyval -> M pyval.
Variables (args : list pyval) (kwds : gmap string pyval).

Definition func_outcome (s : seconds) (w : World) : result pyval * World :=
  func args (delete "timeout_value" kwds) (with_timeout_entry s w).

(** The world when the caller's [switch_out] hook, if it has one, is over. *)
Definition after_switch_out (w : World) : World :=
  match switch_out_of (current w) with
  | Some switch_out => snd (try_except switch_out (fun _ => true) Gevent.print_exception w)
  | None => w
  end.

(** The hook leaves the hub's driver alone: [self.greenlet] is the same
    greenlet afterwards, and if it was dead it is still dead. *)
Definition hook_keeps_driver (self : nat) (w : World) : Prop :=
  Gevent.Hub_greenlet (after_switch_out w) self = Gevent.Hub_greenlet w self /\
  (is_dead w (Gevent.Hub_greenlet w self) = true ->
   is_dead (after_switch_out w) (Gevent.Hub_greenlet w self) = true).

(** [get_hub().switch()] of gevent/__init__.py *)
Definition get_hub_switch : M pyval :=
  hub <- Gevent.get_hub ;; Gevent.Hub_switch greenlet_switch switch_out_of hub.

(** What [_dummy] does in world [w]: a new socket.error(EBADF, ...) is raised. *)
Definition bad_file_descriptor {A} (w : World) : result A * World :=
  (Raise (Exn (next_obj w) (error EBADF)), with_next_obj (S (next_obj w)) w).

(** [ex] is the would-block error: a socket.error with ex[0] == EWOULDBLOCK. *)
Definition would_block (ex : exn) : bool :=
  isinstance_error ex && arg0_is ex EWOULDBLOCK.

(** One call of a method of the underlying socket. *)
Definition attempt (self : Socket.socket) (name : string) (args : list pyval) : M pyval :=
  Socket._sock_call EBADF kernel (Socket._sock self) name args.

Variable after_wait : Socket.socket -> World -> Socket.socket.

(** What send and sendto do after a would-block that is not re-raised: wait
    for writability with timeout [t], then try once more on the object as
    it is after the wait. *)
Definition wait_and_retry (self : Socket.socket) (wait_fileno : M Z) (t : seconds)
    (name : string) (args : list pyval) : M pyval :=
  fd <- wait_fileno ;;
  Socket.wait_write hub_switch fd t (ExcInst timed_out) ;;;
  self <- Socket.reread after_wait self ;;
  try_except (attempt self name args) isinstance_error
    (fun ex2 => if arg0_is ex2 EWOULDBLOCK then ret (VInt 0) else raise ex2).

End statements.

(** A new exception of class [c] is raised in world [w], and nothing else
    happens. *)
Definition raised_new {A} (c : exn_class) (w : World) : result A * World :=
  (Raise (Exn (next_obj w) c), with_next_obj (S (next_obj w)) w).

(** The world after a wait for readability armed in [w1] on [fd] with
    timeout [t] and timeout exception [exc], when the hub has touched
    nothing else: the event armed, then cancelled. *)
Definition waited_read (fd : Z) (t : seconds) (exc : exc_arg) (w1 : World) : World :=
  with_trace (fun tr => tr ++ [ArmRead (next_handle w1) fd cb_wait_helper t (current w1, exc);
                               Cancel (next_handle w1)])
    (with_next_handle (S (next_handle w1)) w1).

(** A socket object just made around the OS socket [fd]. *)
Definition fresh_socket (fd : Z) (t : seconds) : Socket.socket :=
  {| Socket._sock := Socket._realsocket fd; Socket.timeout := t; Socket.inst_dict := ∅ |}.

(** An address for which connect asks no resolver: not a pair, or a pair
    whose host is a string of digits and dots with a dot in it. *)
Definition no_lookup (a : Socket.address) : bool :=
  match a with
  | Socket.addr_other _ => true
  | Socket.addr_pair (VStr h) _ => Socket.contains_dot h && Socket._ip4_re_match h
  | Socket.addr_pair _ _ => false
  end.

(** The timeout with which a round of connect waits after an in-progress
    answer, at time [now]: -1, the default of wait_readwrite, when there is
    no deadline, else the time left to the deadline; [None] when that is
    not positive and the round raises socket.timeout instead. *)
Definition readwrite_timeout (float_sub : Q -> Q -> Q) (end_ : option Q) (now : Q) : option Q :=
  match end_ with
  | None => Some (-1)%Q
  | Some end_ =>
      let timeleft := float_sub end_ now in
      if Qle_bool timeleft 0 then None else Some timeleft
  end.

(** An OS socket whose connect_ex answers EINPROGRESS (115) at first and 0
    once the caller has waited; getsockopt answers 0. *)
Definition connecting : Z -> string -> list pyval -> World -> result Z :=
  fun _ name _ w =>
    if String.eqb name "connect_ex" && Nat.eqb (next_handle w) 0 then Ret 115 else Ret 0.

(** One round of the loops of connect on the OS socket [fd]: SO_ERROR is
    read, connect_ex is tried, and [rest] is what an in-progress answer
    leads to. *)
Definition connect_round (kernel_int : Z -> string -> list pyval -> World -> result Z)
    (EISCONN : Z) (in_progress : Z -> bool) (SOL_SOCKET SO_ERROR : Z)
    (fd : Z) (args : list pyval) (rest : M (option pyval)) : M (option pyval) :=
  fun w =>
    let w1 := with_trace
                (fun t => t ++ [SysCall fd "getsockopt" [VInt SOL_SOCKET; VInt SO_ERROR]]) w in
    let w2 := with_trace (fun t => t ++ [SysCall fd "connect_ex" args]) w1 in
    match kernel_int fd "getsockopt" [VInt SOL_SOCKET; VInt SO_ERROR] w1 with
    | Raise e => (Raise e, w1)
    | Ret err =>
        if negb (Z.eqb err 0) then raised_new (error err) w1
        else
          match kernel_int fd "connect_ex" args w2 with
          | Raise e => (Raise e, w2)
          | Ret r =>
              if Z.eqb r 0 || Z.eqb r EISCONN then (Ret (Some VNone), w2)
              else if in_progress r then rest w2
              else raised_new (error r) w2
          end
    end.

Section statements_socket.

Variables EWOULDBLOCK EBADF : Z.
Variable hub_switch : M pyval.
Variable kernel : Z -> string -> list pyval -> World -> result pyval.
Variable timed_out : exn.

(** One call of a method of the underlying socket and nothing more: its
    value is returned, its exception raised. *)
Definition single_attempt (self : Socket.socket) (name : string) (args : list pyval)
    : M (option pyval) :=
  fun w => match attempt EBADF kernel self name args w with
           | (Ret v, w1) => (Ret (Some v), w1)
           | (Raise e, w1) => (Raise e, w1)
           end.

(** The last step of socket.__init__ on the OS socket [fd], in world [w1]:
    setblocking(0) is called, and the new object has timeout [t] and no
    method rebound. *)
Definition constructed (fd : Z) (t : seconds) (w1 : World) : result Socket.socket * World :=
  let w' := with_trace (fun tr => tr ++ [SysCall fd "setblocking" [VInt 0]]) w1 in
  match kernel fd "setblocking" [VInt 0] w' with
  | Ret _ => (Ret (fresh_socket fd t), w')
  | Raise e => (Raise e, w')
  end.

(** bind, then listen. *)
Definition bind_then_listen (descriptor : Socket.socket) (addr : list pyval) (backlog : pyval)
    : M unit :=
  Socket.method EBADF kernel descriptor "bind" addr ;;;
  Socket.method EBADF kernel descriptor "listen" [backlog] ;;;
  ret tt.

End statements_socket.

(** * Properties *)


(** ** Generic facts about the monad *)

Lemma bind_Ret {A B} (m : M A) (k : A -> M B) w a w' :
  m w = (Ret a, w') -> bind m k w = k a w'.
Proof. intros H. unfold bind. by rewrite H. Qed.

Lemma bind_Raise {A B} (m : M A) (k : A -> M B) w e w' :
  m w = (Raise e, w') -> bind m k w = (Raise e, w').
Proof. intros H. unfold bind. by rewrite H. Qed.

Lemma try_finally_cancel {A} (body : M A) h w :
  try_finally body (core.cancel h) w
  = (fst (body w), with_trace (fun t => t ++ [Cancel h]) (snd (body w))).
Proof. unfold try_finally, core.cancel, emit. by destruct (body w). Qed.

(** ** with_timeout *)

Section with_timeout_facts.

Variable func : list pyval -> gmap string pyval -> M pyval.
Variables (args : list pyval) (kwds : gmap string pyval).

Lemma with_timeout_unfold s w :
  Gevent.with_timeout s func args kwds w =
  let timer := match s with Some _ => Some (next_handle w) | None => None end in
  let r := func_outcome func args kwds s w in
  let w' := match timer with
            | Some t => with_trace (fun t' => t' ++ [Cancel t]) (snd r)
            | None => snd r
            end in
  match fst r with
  | Ret v => (Ret v, w')
  | Raise e =>
      if isinstance_TimeoutError e
      then if exn_is e (marker w) && bool_decide (is_Some (kwds !! "timeout_value"))
           then (Ret (default VNone (kwds !! "timeout_value")), w')
           else (Raise e, w')
      else (Raise e, w')
  end.
Proof.
  unfold Gevent.with_timeout, func_outcome, with_timeout_entry, marker.
  destruct s as [q|]; cbn;
    unfold bind, new_exn, try_finally, try_except; cbn;
    match goal with |- context [func ?a ?k ?w1] => destruct (func a k w1) as [[v|e] w2] end;
    cbn; try reflexivity;
    destruct (isinstance_TimeoutError e); cbn; try reflexivity;
    match goal with |- context [if ?c then _ else _] => destruct c end; reflexivity.
Qed.

(** C1.  with_timeout(seconds, func, ..., timeout_value=v): a value returned
    by [func] is returned; when [func] raises the very TimeoutError
    instance this call allocated and a timeout_value was given, that value is
    returned; a TimeoutError instance that is another object, an exception of
    another class, and any exception when no timeout_value was given, are
    raised to the caller; and when a timer was armed (seconds is not None)
    it is the last thing touched on every exit: [Cancel] of its handle ends
    the trace.  With seconds = None no timer exists and nothing is
    cancelled. *)
Theorem with_timeout_spec (s : seconds) (w : World) :
  let r := func_outcome func args kwds s w in
  let out := Gevent.with_timeout s func args kwds w in
  (forall v, fst r = Ret v -> fst out = Ret v) /\
  (forall v, fst r = Raise (marker w) -> kwds !! "timeout_value" = Some v ->
             fst out = Ret v) /\
  (forall e, fst r = Raise e -> isinstance_TimeoutError e = true ->
             exn_is e (marker w) = false -> fst out = Raise e) /\
  (forall e, fst r = Raise e -> isinstance_TimeoutError e = false ->
             fst out = Raise e) /\
  (forall e, fst r = Raise e -> kwds !! "timeout_value" = None ->
             fst out = Raise e) /\
  (forall q, s = Some q ->
     trace (with_timeout_entry s w)
       = trace w ++ [ArmTimer (next_handle w) s (cb_throw (current w) [ExcInst (marker w)])] /\
     trace (snd out) = trace (snd r) ++ [Cancel (next_handle w)]) /\
  (s = None -> trace (with_timeout_entry s w) = trace w /\ snd out = snd r).
Proof.
  intros r out. subst out. rewrite with_timeout_unfold. fold r. cbv zeta.
  repeat split.
  - intros v Hr. by rewrite Hr.
  - intros v Hr Hk. rewrite Hr, Hk. cbn.
    unfold exn_is. rewrite Nat.eqb_refl. cbn.
    try rewrite bool_decide_true by eauto. reflexivity.
  - intros e Hr Hi Hn. rewrite Hr, Hi, Hn. reflexivity.
  - intros e Hr Hi. rewrite Hr, Hi. reflexivity.
  - intros e Hr Hk. rewrite Hr, Hk.
    rewrite bool_decide_false by (intros [? ?]; discriminate).
    rewrite andb_false_r. by destruct (isinstance_TimeoutError e).
  - subst s. reflexivity.
  - subst s. destruct (fst r) as [v|e]; [reflexivity|].
    destruct (isinstance_TimeoutError e); [|reflexivity].
    match goal with |- context [if ?c then _ else _] => destruct c end; reflexivity.
  - subst s. reflexivity.
  - subst s. destruct (fst r) as [v|e]; [reflexivity|].
    destruct (isinstance_TimeoutError e); [|reflexivity].
    match goal with |- context [if ?c then _ else _] => destruct c end; reflexivity.
Qed.

End with_timeout_facts.

Lemma with_timeout_spec_witness :
  fst (Gevent.with_timeout (Some (1 # 20)) times_out [VInt 10]
         {[ "timeout_value" := VStr "X" ]} w0) = Ret (VStr "X").
Proof.
  apply (with_timeout_spec times_out [VInt 10] {[ "timeout_value" := VStr "X" ]}
           (Some (1 # 20)) w0).
  - reflexivity.
  - reflexivity.
Defined.

(** ** Timeout scopes *)

Lemma timeout___init___scope s exc w :
  fst (Gevent.timeout___init__ s exc w) = Ret (scope_of s exc w).
Proof. destruct s, exc; reflexivity. Qed.

Lemma timeout___init___None exc w :
  trace (scope_entry None exc w) = trace w /\
  next_handle (scope_entry None exc w) = next_handle w.
Proof. destruct exc; split; reflexivity. Qed.

Lemma timeout___exit___result self typ value w :
  Gevent.timeout___exit__ self typ value w
  = (Ret (Gevent.typ_is__SilentException typ && Gevent.value_is value (Gevent.exception self)),
     snd (Gevent.timeout_cancel self w)).
Proof.
  unfold Gevent.timeout___exit__, Gevent.timeout_cancel, bind, core.cancel, emit, ret.
  destruct (Gevent.timeout_ self); cbn;
    by destruct (Gevent.typ_is__SilentException typ && _).
Qed.

Lemma suppress_iff typ value stored :
  Gevent.typ_is__SilentException typ && Gevent.value_is value stored = true <->
  typ = Some _SilentException /\
  exists e e', value = Some e /\ stored = ExcInst e' /\ exn_id e = exn_id e'.
Proof.
  rewrite andb_true_iff. split.
  - intros [Ht Hv]. split.
    + destruct typ as [[]|]; cbn in Ht; congruence.
    + destruct value as [e|], stored as [c|e']; cbn in Hv; try discriminate.
      exists e, e'. repeat split. by apply Nat.eqb_eq.
  - intros [-> (e & e' & -> & -> & Hid)]. split; [reflexivity|].
    cbn. unfold exn_is. by apply Nat.eqb_eq.
Qed.

(** C6.  A timeout scope: [__exit__] cancels the scope's timer whatever the
    block did; it returns true (swallows the exception in flight) exactly when
    the type is _SilentException itself and the value is the object stored in
    the scope, so the sentinel of a scope made later is not swallowed by this
    one; the [with] statement ends with the timer cancelled, normally or with
    the exception that was not swallowed; and a scope built with
    seconds = None arms no timer and its cancel leaves the world as it is. *)
Theorem timeout_scope_spec (self : Gevent.timeout) (typ : option exn_class)
    (value : option exn) (s : seconds) (exc : option exc_arg)
    (block : Gevent.timeout -> M unit) (w : World) :
  let out := Gevent.timeout___exit__ self typ value w in
  let scope := scope_of s exc w in
  let b := block scope (scope_entry s exc w) in
  let wout := Gevent.with_timeout_scope s exc block w in
  (forall t, Gevent.timeout_ self = Some t -> trace (snd out) = trace w ++ [Cancel t]) /\
  (fst out = Ret true <->
     typ = Some _SilentException /\
     exists e e', value = Some e /\ Gevent.exception self = ExcInst e' /\ exn_id e = exn_id e') /\
  (fst out <> Ret true -> fst out = Ret false) /\
  (forall w1 w2, next_obj w1 <> next_obj w2 ->
     fst (Gevent.timeout___exit__ (scope_of s None w1) (Some _SilentException)
            (Some (Exn (next_obj w2) _SilentException)) w) = Ret false) /\
  (forall q, s = Some q ->
     trace (scope_entry s exc w)
       = trace w ++ [ArmTimer (next_handle w) s (cb_throw (current w) [Gevent.exception scope])] /\
     trace (snd wout) = trace (snd b) ++ [Cancel (next_handle w)]) /\
  (fst b = Ret tt -> fst wout = Ret tt) /\
  (forall e, fst b = Raise e ->
     fst wout = if bool_decide (exn_cls e = _SilentException)
                   && Gevent.value_is (Some e) (Gevent.exception scope)
                then Ret tt else Raise e) /\
  (s = None ->
     Gevent.timeout_ scope = None /\
     trace (scope_entry s exc w) = trace w /\
     Gevent.timeout_cancel scope = ret tt /\
     snd wout = snd b).
Proof.
  intros out scope b wout.
  assert (Hwith : wout =
            match fst b with
            | Ret _ => (Ret tt, snd (Gevent.timeout_cancel scope (snd b)))
            | Raise e =>
                (if Gevent.typ_is__SilentException (Some (exn_cls e))
                    && Gevent.value_is (Some e) (Gevent.exception scope)
                 then Ret tt else Raise e,
                 snd (Gevent.timeout_cancel scope (snd b)))
            end).
  { subst wout b. unfold Gevent.with_timeout_scope, bind at 1.
    pose proof (timeout___init___scope s exc w) as Hi. unfold scope_entry.
    destruct (Gevent.timeout___init__ s exc w) as [r w1]. cbn in Hi. subst r.
    fold scope. cbn [snd].
    destruct (block scope w1) as [[[]|e] w2]; cbn [fst snd].
    - unfold bind. rewrite timeout___exit___result. reflexivity.
    - unfold bind. rewrite timeout___exit___result.
      by destruct (Gevent.typ_is__SilentException _ && _). }
  assert (Htyp : forall e, Gevent.typ_is__SilentException (Some (exn_cls e))
                           = bool_decide (exn_cls e = _SilentException)).
  { intros e. by destruct (exn_cls e). }
  subst out. rewrite timeout___exit___result. cbn [fst snd].
  split; [|split; [|split; [|split; [|split; [|split; [|split]]]]]].
  - intros t Ht. unfold Gevent.timeout_cancel. by rewrite Ht.
  - rewrite <- suppress_iff. split; [congruence|]. by intros ->.
  - intros H. destruct (_ && _); congruence.
  - intros w1 w2 H. rewrite timeout___exit___result. cbn. unfold exn_is. cbn.
    apply Nat.eqb_neq in H. rewrite Nat.eqb_sym in H. by rewrite H.
  - intros q ->. split.
    + unfold scope_entry. by destruct exc.
    + rewrite Hwith. by destruct (fst b).
  - intros Hb. rewrite Hwith, Hb. reflexivity.
  - intros e Hb. rewrite Hwith, Hb, Htyp. reflexivity.
  - intros ->. split; [reflexivity|]. split; [apply timeout___init___None|].
    split; [reflexivity|]. rewrite Hwith. by destruct (fst b).
Qed.

Lemma timeout_scope_spec_witness :
  fst (Gevent.timeout___exit__
         {| Gevent.exception := ExcInst (Exn 0 _SilentException); Gevent.timeout_ := Some 0%nat |}
         (Some _SilentException) (Some (Exn 0 _SilentException)) w0) = Ret true.
Proof.
  apply (timeout_scope_spec
           {| Gevent.exception := ExcInst (Exn 0 _SilentException); Gevent.timeout_ := Some 0%nat |}
           (Some _SilentException) (Some (Exn 0 _SilentException))
           None None (fun _ => ret tt) w0).
  split; [reflexivity|].
  exists (Exn 0 _SilentException), (Exn 0 _SilentException). repeat split.
Defined.

(** ** spawn *)

Lemma set_parent_middle (gs : list greenlet) (r : greenlet) (rest : list greenlet) (p : gid) w :
  greenlets w = gs ++ r :: rest ->
  set_parent (length gs) p w
  = (Ret tt,
     with_greenlets (fun _ => gs ++ {| g_run := g_run r; g_parent := Some p;
                                       g_started := g_started r; g_dead := g_dead r |} :: rest) w).
Proof.
  intros H. unfold set_parent, with_greenlets. rewrite H.
  rewrite list_lookup_middle by reflexivity.
  rewrite insert_app_r_alt by lia. by rewrite Nat.sub_diag.
Qed.

(** The world that spawn_later leaves: the new greenlet is appended, with
    the hub's greenlet as parent; when the thread has no hub yet, the hub
    and its driver greenlet are made after the new greenlet. *)
Lemma spawn_later_world (s : seconds) (function : nat) (args : list pyval)
    (kwargs : gmap string pyval) (w : World) :
  let out := Gevent.spawn_later s function args kwargs w in
  let g := length (greenlets w) in
  fst out = Ret g /\
  current (snd out) = current w /\
  trace (snd out) = trace w ++ [ArmTimer (next_handle w) s (cb_switch g)] /\
  match threadlocal_hub w with
  | Some hub =>
      threadlocal_hub (snd out) = Some hub /\
      hubs (snd out) = hubs w /\
      greenlets (snd out)
      = greenlets w ++ [spawned function args kwargs (Gevent.Hub_greenlet w hub)]
  | None =>
      threadlocal_hub (snd out) = Some (length (hubs w)) /\
      hubs (snd out)
      = hubs w ++ [{| hub_greenlet := S g; keyboard_interrupt_signal := None |}] /\
      greenlets (snd out)
      = greenlets w ++ [spawned function args kwargs (S g); fresh_driver w]
  end.
Proof.
  intros out g. subst out g.
  unfold Gevent.spawn_later, bind, Greenlet, Gevent.get_hub,
    Gevent.Hub___init__, bind, Greenlet,
    Gevent.get_greenlet, Gevent.timer, core.timer, bind, new_handle, emit, ret.
  cbn -[set_parent Gevent.Hub_greenlet].
  destruct (threadlocal_hub w) as [hub|] eqn:Hh.
  - erewrite (set_parent_middle (greenlets w) _ []) by reflexivity.
    cbn -[Gevent.Hub_greenlet]. rewrite Hh. repeat split.
  - erewrite (set_parent_middle (greenlets w) _ [_]) by (cbn; by rewrite <- app_assoc).
    cbn -[Gevent.Hub_greenlet]. split; [reflexivity|]. split; [reflexivity|].
    split; [reflexivity|]. split; [reflexivity|].
    assert (Hl : forall r : greenlet, length (greenlets w ++ [r]) = S (length (greenlets w))).
    { intros r. rewrite length_app. cbn. lia. }
    split; [by rewrite Hl|].
    unfold Gevent.Hub_greenlet. cbn. rewrite list_lookup_middle by reflexivity.
    cbn. by rewrite Hl.
Qed.

(** After spawn_later the thread has a hub, the hub's greenlet runs Hub.run,
    and the new greenlet is a child of it. *)
Lemma spawn_later_parent (s : seconds) (function : nat) (args : list pyval)
    (kwargs : gmap string pyval) (w : World) :
  let out := Gevent.spawn_later s function args kwargs w in
  let g := length (greenlets w) in
  hub_registered w = true ->
  (exists hub h driver,
     threadlocal_hub (snd out) = Some hub /\
     hubs (snd out) !! hub = Some h /\
     greenlets (snd out) !! hub_greenlet h = Some driver /\
     g_run driver = Hub_run /\
     hub_greenlet h <> g /\
     greenlets (snd out) !! g = Some (spawned function args kwargs (hub_greenlet h))) /\
  hub_registered (snd out) = true.
Proof.
  intros out g Hreg.
  destruct (spawn_later_world s function args kwargs w) as (_ & _ & _ & Hw).
  fold out g in Hw. unfold hub_registered in *.
  destruct (threadlocal_hub w) as [hub|] eqn:Hh.
  - destruct Hw as (Ht & Hhubs & Hg).
    destruct (hubs w !! hub) as [h|] eqn:Hhub; [|discriminate].
    destruct (greenlets w !! hub_greenlet h) as [r|] eqn:Hr; [|discriminate].
    pose proof (lookup_lt_Some _ _ _ Hr) as Hlt.
    assert (Hp : Gevent.Hub_greenlet w hub = hub_greenlet h).
    { unfold Gevent.Hub_greenlet. by rewrite Hhub. }
    assert (Hd : greenlets (snd out) !! hub_greenlet h = Some r).
    { rewrite Hg. by rewrite lookup_app_l. }
    split.
    + exists hub, h, r. split; [exact Ht|]. split; [by rewrite Hhubs|]. split; [exact Hd|].
      split; [by destruct (g_run r)|]. split; [unfold g; lia|].
      rewrite Hg, Hp. unfold g. by rewrite list_lookup_middle.
    + by rewrite Ht, Hhubs, Hhub, Hd.
  - destruct Hw as (Ht & Hhubs & Hg).
    assert (Hd : greenlets (snd out) !! S g = Some (fresh_driver w)).
    { rewrite Hg. rewrite lookup_app_r by (unfold g; lia).
      replace (S g - length (greenlets w))%nat with 1%nat by (unfold g; lia). reflexivity. }
    assert (Hhub : hubs (snd out) !! length (hubs w)
                   = Some {| hub_greenlet := S g; keyboard_interrupt_signal := None |}).
    { rewrite Hhubs. by rewrite list_lookup_middle. }
    split.
    + exists (length (hubs w)), {| hub_greenlet := S g; keyboard_interrupt_signal := None |},
        (fresh_driver w).
      split; [exact Ht|]. split; [exact Hhub|].
      split; [exact Hd|]. split; [reflexivity|]. split; [cbn; lia|].
      rewrite Hg. unfold g. by rewrite list_lookup_middle.
    + rewrite Ht, Hhub.
      change (hub_greenlet {| hub_greenlet := S g; keyboard_interrupt_signal := None |})
        with (S g).
      match goal with
      | |- context [?x !! ?y] =>
          replace (x !! y) with (Some (fresh_driver w)) by (symmetry; exact Hd)
      end.
      reflexivity.
Qed.

(** C5.  spawn(function, args...) returns the new greenlet with the caller
    still the current greenlet; no greenlet that existed is touched and the
    new one has not started; and the only reactor call made is arming a
    timer of delay 0 whose callback is the new greenlet's switch.  When
    spawn returns the thread has a hub (made by this call if there was
    none), the [greenlet] of that Hub object is a greenlet that runs
    Hub.run, and it is the parent of the new greenlet. *)
Theorem spawn_spec (function : nat) (args : list pyval) (kwargs : gmap string pyval)
    (w : World) :
  let out := Gevent.spawn function args kwargs w in
  let g := length (greenlets w) in
  fst out = Ret g /\
  current (snd out) = current w /\
  take g (greenlets (snd out)) = greenlets w /\
  trace (snd out) = trace w ++ [ArmTimer (next_handle w) (Some 0%Q) (cb_switch g)] /\
  (hub_registered w = true ->
   (exists hub h driver,
      threadlocal_hub (snd out) = Some hub /\
      hubs (snd out) !! hub = Some h /\
      greenlets (snd out) !! hub_greenlet h = Some driver /\
      g_run driver = Hub_run /\
      hub_greenlet h <> g /\
      greenlets (snd out) !! g
      = Some {| g_run := user_lambda function args kwargs;
                g_parent := Some (hub_greenlet h);
                g_started := false; g_dead := false |}) /\
   hub_registered (snd out) = true) /\
  (threadlocal_hub w = None ->
   hubs (snd out) = hubs w ++ [{| hub_greenlet := S g; keyboard_interrupt_signal := None |}] /\
   greenlets (snd out) !! S g = Some (fresh_driver w)).
Proof.
  intros out g.
  assert (Hout : out = Gevent.spawn_later (Some 0%Q) function args kwargs w) by reflexivity.
  clearbody out. subst out. subst g.
  destruct (spawn_later_world (Some 0%Q) function args kwargs w) as (Hr & Hc & Ht & Hw).
  split; [exact Hr|]. split; [exact Hc|]. split; [|split; [exact Ht|split]].
  - destruct (threadlocal_hub w); destruct Hw as (_ & _ & ->); by rewrite take_app_length.
  - apply spawn_later_parent.
  - intros Hn. rewrite Hn in Hw. destruct Hw as (_ & Hh & Hg). split; [exact Hh|].
    rewrite Hg. rewrite lookup_app_r by lia.
    replace (S (length (greenlets w)) - length (greenlets w))%nat with 1%nat by lia.
    reflexivity.
Qed.

Lemma spawn_spec_witness :
  exists driver,
    greenlets (snd (Gevent.spawn 7 [VInt 1] ∅ w_driver_dead)) !! 1%nat = Some driver /\
    g_run driver = Hub_run /\
    g_parent <$> greenlets (snd (Gevent.spawn 7 [VInt 1] ∅ w_driver_dead)) !! 2%nat
    = Some (Some 1%nat).
Proof.
  destruct (proj1 (proj2 (proj2 (proj2 (proj2 (spawn_spec 7 [VInt 1] ∅ w_driver_dead)))))
              eq_refl) as [(hub & h & driver & Hh & Hhub & Hd & Hrun & _ & Hg) _].
  cbn in Hh. injection Hh as <-. cbn in Hhub. injection Hhub as <-.
  exists driver. split; [exact Hd|]. split; [exact Hrun|].
  cbn in Hg. cbn. reflexivity.
Defined.

(** ** Hub.switch *)

Section Hub_switch_facts.

Variable greenlet_switch : gid -> M pyval.
Variable switch_out_of : gid -> option (M unit).

Lemma hook_never_raises w :
  match switch_out_of (current w) with
  | Some switch_out => try_except switch_out (fun _ => true) Gevent.print_exception
  | None => ret tt
  end w = (Ret tt, after_switch_out switch_out_of w).
Proof.
  unfold after_switch_out. destruct (switch_out_of (current w)) as [h|]; [|reflexivity].
  unfold try_except, Gevent.print_exception. by destruct (h w) as [[[]|e] w'].
Qed.

(** C4.  Hub.switch(): called by the hub's own driver greenlet it fails with
    an AssertionError and switches nowhere.  Called by any other greenlet it
    always ends in a switch into [self.greenlet], and that greenlet is not
    dead: if the driver was found dead (after the caller's switch_out hook)
    a new greenlet running Hub.run was made and stored in the hub first;
    otherwise nothing was changed.  A driver dead when the call was made is
    found dead, as long as the hook keeps the driver. *)
Theorem Hub_switch_spec (self : nat) (w : World) :
  let wh := after_switch_out switch_out_of w in
  (current w = Gevent.Hub_greenlet w self ->
   Gevent.Hub_switch greenlet_switch switch_out_of self w
   = (Raise (Exn (next_obj w) AssertionError), with_next_obj (S (next_obj w)) w)) /\
  (current w <> Gevent.Hub_greenlet w self -> is_Some (hubs wh !! self) ->
   exists w1,
     Gevent.Hub_switch greenlet_switch switch_out_of self w
     = greenlet_switch (Gevent.Hub_greenlet w1 self) w1 /\
     is_dead w1 (Gevent.Hub_greenlet w1 self) = false /\
     (is_dead wh (Gevent.Hub_greenlet wh self) = false -> w1 = wh) /\
     (is_dead wh (Gevent.Hub_greenlet wh self) = true ->
        Gevent.Hub_greenlet w1 self = length (greenlets wh) /\
        greenlets w1 = greenlets wh ++ [fresh_driver wh]) /\
     (is_dead w (Gevent.Hub_greenlet w self) = true -> hook_keeps_driver switch_out_of self w ->
        is_dead wh (Gevent.Hub_greenlet wh self) = true)).
Proof.
  intros wh. split.
  - intros Hcur. unfold Gevent.Hub_switch, bind, getcurrent, Gevent.get_greenlet. cbn.
    rewrite Hcur, Nat.eqb_refl. reflexivity.
  - intros Hcur [h Hh].
    assert (Hstart : Gevent.Hub_switch greenlet_switch switch_out_of self w =
              (g <- Gevent.get_greenlet self ;;
               d <- dead g ;;
               (if d then g' <- Greenlet Hub_run ;; Gevent.set_greenlet self g' else ret tt) ;;;
               g <- Gevent.get_greenlet self ;;
               greenlet_switch g) wh).
    { unfold Gevent.Hub_switch. unfold bind at 1. cbn [getcurrent].
      unfold bind at 1. cbn [Gevent.get_greenlet].
      apply Nat.eqb_neq in Hcur. unfold bind at 1. rewrite Hcur. cbn [negb py_assert ret].
      unfold bind at 1. rewrite hook_never_raises. reflexivity. }
    rewrite Hstart. unfold bind at 1. cbn [Gevent.get_greenlet].
    unfold bind at 1. cbn [dead].
    destruct (is_dead wh (Gevent.Hub_greenlet wh self)) eqn:Hd.
    + set (w1 := snd (Gevent.set_greenlet self (length (greenlets wh))
                        (with_greenlets (fun gs => gs ++ [fresh_driver wh]) wh))).
      assert (Hg : Gevent.Hub_greenlet w1 self = length (greenlets wh)).
      { subst w1. unfold Gevent.Hub_greenlet, Gevent.set_greenlet. cbn. rewrite Hh.
        rewrite list_lookup_insert_eq; [reflexivity|]. by eapply lookup_lt_Some. }
      exists w1. split; [reflexivity|]. split.
      * rewrite Hg. unfold is_dead. subst w1. cbn.
        by rewrite list_lookup_middle.
      * split; [discriminate|]. split; [by intros _|]. reflexivity.
    + exists wh. split; [reflexivity|]. split; [exact Hd|].
      split; [reflexivity|]. split; [discriminate|].
      intros Hw [Hk1 Hk2]. fold wh in Hk1, Hk2. rewrite Hk1 in Hd.
      rewrite (Hk2 Hw) in Hd. discriminate.
Qed.

End Hub_switch_facts.

Lemma Hub_switch_spec_witness :
  exists w1,
    Gevent.Hub_switch (fun _ => ret VNone) (fun _ => None) 0%nat w_driver_dead
    = (Ret VNone, w1) /\
    Gevent.Hub_greenlet w1 0%nat = 2%nat /\
    is_dead w1 2%nat = false.
Proof.
  destruct (proj2 (Hub_switch_spec (fun _ => ret VNone) (fun _ => None) 0%nat w_driver_dead))
    as (w1 & Heq & Hlive & _ & Hnew & _).
  - cbn. lia.
  - cbn. eauto.
  - exists w1. split; [exact Heq|].
    destruct Hnew as [Hg _]; [reflexivity|].
    split; [exact Hg|]. rewrite Hg in Hlive. exact Hlive.
Defined.

(** ** The wait primitives and sleep *)

Lemma wait_body (sw : M pyval) (h : nat) (w1 : World) :
  try_finally (switch_result <- sw ;; py_assert (bool_decide (VEvent h = switch_result)))
    (core.cancel h) w1
  = wait_outcome sw h w1.
Proof.
  rewrite try_finally_cancel. unfold wait_outcome, bind.
  destruct (sw w1) as [[v|e] w2]; [|reflexivity].
  by destruct (bool_decide (VEvent h = v)).
Qed.

Lemma wait_outcome_cancelled sw h w1 :
  cancelled_last h (snd (sw w1)) (snd (wait_outcome sw h w1)).
Proof.
  unfold cancelled_last, wait_outcome. destruct (sw w1) as [[v|e] w2]; [|reflexivity].
  by destruct (bool_decide (VEvent h = v)).
Qed.

Lemma wait_outcome_own_event sw h w1 :
  own_event_only h (sw w1) (wait_outcome sw h w1).
Proof.
  unfold own_event_only, wait_outcome. destruct (sw w1) as [[v|e] w2]; cbn.
  - destruct (bool_decide (VEvent h = v)) eqn:Hb; cbn.
    + apply bool_decide_eq_true in Hb.
      split; [split; congruence|].
      split; [intros v' Hv Hne; congruence | intros e He; discriminate].
    + apply bool_decide_eq_false in Hb.
      split; [split; [discriminate | congruence]|].
      split; [intros v' Hv Hne; reflexivity | intros e He; discriminate].
  - split; [split; discriminate|]. split; [intros v Hv; discriminate|].
    intros e' He. congruence.
Qed.

Section wait_facts.

Variable hub_switch : M pyval.
Variable greenlet_switch : gid -> M pyval.
Variable switch_out_of : gid -> option (M unit).

Lemma wait_read_outcome fileno t exc w :
  Socket.wait_read hub_switch fileno t exc w
  = wait_outcome hub_switch (next_handle w)
      (armed (ArmRead (next_handle w) fileno cb_wait_helper t (current w, exc)) w).
Proof. unfold Socket.wait_read. unfold bind at 1 2. cbn. apply wait_body. Qed.

Lemma wait_write_outcome fileno t exc w :
  Socket.wait_write hub_switch fileno t exc w
  = wait_outcome hub_switch (next_handle w)
      (armed (ArmWrite (next_handle w) fileno cb_wait_helper t (current w, exc)) w).
Proof. unfold Socket.wait_write. unfold bind at 1 2. cbn. apply wait_body. Qed.

Lemma wait_readwrite_outcome fileno t exc w :
  Socket.wait_readwrite hub_switch fileno t exc w
  = wait_outcome hub_switch (next_handle w)
      (armed (ArmReadWrite (next_handle w) fileno cb_wait_helper t (current w, exc)) w).
Proof. unfold Socket.wait_readwrite. unfold bind at 1 2. cbn. apply wait_body. Qed.

Lemma get_hub_switch_body h w1 :
  try_finally
    (hub <- Gevent.get_hub ;;
     returned_ev <- Gevent.Hub_switch greenlet_switch switch_out_of hub ;;
     py_assert (bool_decide (VEvent h = returned_ev)))
    (core.cancel h) w1
  = wait_outcome (get_hub_switch greenlet_switch switch_out_of) h w1.
Proof.
  rewrite <- wait_body. rewrite !try_finally_cancel. unfold get_hub_switch.
  assert (H : forall A B C (m : M A) (k : A -> M B) (k' : B -> M C) w,
             bind m (fun a => bind (k a) k') w = bind (bind m k) k' w).
  { intros A B C m k k' w. unfold bind. by destruct (m w) as [[a|e] w']. }
  by rewrite H.
Qed.

Lemma wait_reader_outcome fileno t exc w :
  Gevent.wait_reader greenlet_switch switch_out_of fileno t exc w
  = wait_outcome (get_hub_switch greenlet_switch switch_out_of) (next_handle w)
      (armed (ArmRead (next_handle w) fileno cb_wait_helper t (current w, exc)) w).
Proof. unfold Gevent.wait_reader. unfold bind at 1 2. cbn. apply get_hub_switch_body. Qed.

Lemma wait_writer_outcome fileno t exc w :
  Gevent.wait_writer greenlet_switch switch_out_of fileno t exc w
  = wait_outcome (get_hub_switch greenlet_switch switch_out_of) (next_handle w)
      (armed (ArmWrite (next_handle w) fileno cb_wait_helper t (current w, exc)) w).
Proof. unfold Gevent.wait_writer. unfold bind at 1 2. cbn. apply get_hub_switch_body. Qed.

Lemma get_hub_result w :
  exists wg, Gevent.get_hub w = (Ret (hub_of w), wg) /\
             trace wg = trace w /\ next_handle wg = next_handle w /\
             current wg = current w /\ next_obj wg = next_obj w.
Proof.
  unfold Gevent.get_hub, hub_of. destruct (threadlocal_hub w); eexists; split;
    try reflexivity; repeat split.
Qed.

Lemma sleep_outcome s w :
  let wg := snd (Gevent.get_hub w) in
  let hub := hub_of w in
  let h := next_handle w in
  let w1 := armed (ArmTimer h s (cb_switch (current w))) wg in
  let sw := Gevent.Hub_switch greenlet_switch switch_out_of hub w1 in
  Gevent.sleep greenlet_switch switch_out_of s w =
  if Nat.eqb (Gevent.Hub_greenlet wg hub) (current w)
  then (Raise (Exn (next_obj w) AssertionError), with_next_obj (S (next_obj w)) wg)
  else (match fst sw with Ret _ => Ret tt | Raise e => Raise e end,
        with_trace (fun t => t ++ [Cancel h]) (snd sw)).
Proof.
  intros wg hub h w1 sw. subst wg hub h w1 sw.
  destruct (get_hub_result w) as (wg & Hg & Ht & Hh & Hc & Ho).
  unfold Gevent.sleep. unfold bind at 1. rewrite Hg. cbn [snd].
  unfold bind at 1. cbn [Gevent.get_greenlet]. unfold bind at 1. cbn [getcurrent].
  rewrite Hc. unfold bind at 1.
  destruct (Nat.eqb (Gevent.Hub_greenlet wg (hub_of w)) (current w)); cbn [negb py_assert].
  - unfold raise_new, bind, new_exn, raise. by rewrite Ho.
  - cbn [ret]. unfold bind at 1. cbn [getcurrent]. rewrite Hc.
    unfold bind at 1. unfold Gevent.timer, core.timer, bind at 1 2, new_handle, emit, ret.
    cbn [fst snd]. rewrite try_finally_cancel. rewrite Hh. unfold armed. rewrite Hh.
    unfold bind.
    by destruct (Gevent.Hub_switch _ _ _ _) as [[v|e] w2].
Qed.

(** C2.  Each of wait_read, wait_write, wait_readwrite (socket.py),
    wait_reader, wait_writer and sleep (__init__.py) ends with [cancel()] of
    the event or timer it armed, whatever the switch to the hub did: returned
    a value, had the timeout exception thrown into the caller, or raised
    anything else.  The handle armed is [next_handle w]; the cancel is
    appended to the trace of the world in which the switch ended.  sleep()
    called by the hub's own greenlet fails its assertion before any timer
    is armed, and changes nothing in the trace. *)
Theorem wait_cancels_spec (fileno : Z) (t : seconds) (exc : exc_arg) (w : World) :
  let h := next_handle w in
  let arg := (current w, exc) in
  let wr := armed (ArmRead h fileno cb_wait_helper t arg) w in
  let ww := armed (ArmWrite h fileno cb_wait_helper t arg) w in
  let wrw := armed (ArmReadWrite h fileno cb_wait_helper t arg) w in
  let wg := snd (Gevent.get_hub w) in
  let wt := armed (ArmTimer h t (cb_switch (current w))) wg in
  cancelled_last h (snd (hub_switch wr)) (snd (Socket.wait_read hub_switch fileno t exc w)) /\
  cancelled_last h (snd (hub_switch ww)) (snd (Socket.wait_write hub_switch fileno t exc w)) /\
  cancelled_last h (snd (hub_switch wrw))
    (snd (Socket.wait_readwrite hub_switch fileno t exc w)) /\
  cancelled_last h (snd ((get_hub_switch greenlet_switch switch_out_of) wr))
    (snd (Gevent.wait_reader greenlet_switch switch_out_of fileno t exc w)) /\
  cancelled_last h (snd ((get_hub_switch greenlet_switch switch_out_of) ww))
    (snd (Gevent.wait_writer greenlet_switch switch_out_of fileno t exc w)) /\
  (if Nat.eqb (Gevent.Hub_greenlet wg (hub_of w)) (current w)
   then trace (snd (Gevent.sleep greenlet_switch switch_out_of t w)) = trace w
   else cancelled_last h
          (snd (Gevent.Hub_switch greenlet_switch switch_out_of (hub_of w) wt))
          (snd (Gevent.sleep greenlet_switch switch_out_of t w))).
Proof.
  intros h arg wr ww wrw wg wt.
  rewrite wait_read_outcome, wait_write_outcome, wait_readwrite_outcome,
    wait_reader_outcome, wait_writer_outcome, sleep_outcome.
  repeat (split; [apply wait_outcome_cancelled|]).
  fold wg. destruct (Nat.eqb (Gevent.Hub_greenlet wg (hub_of w)) (current w)).
  - cbn. subst wg. destruct (get_hub_result w) as (wg & Hg & Ht & _). by rewrite Hg.
  - reflexivity.
Qed.

(** C3.  wait_read, wait_write, wait_readwrite, wait_reader and wait_writer
    return normally exactly when the switch to the hub delivered the event
    the call armed (handle [next_handle w]); resumed with any other value
    they raise AssertionError, and an exception thrown into the caller is
    raised unchanged. *)
Theorem wait_own_event_spec (fileno : Z) (t : seconds) (exc : exc_arg) (w : World) :
  let h := next_handle w in
  let arg := (current w, exc) in
  let wr := armed (ArmRead h fileno cb_wait_helper t arg) w in
  let ww := armed (ArmWrite h fileno cb_wait_helper t arg) w in
  let wrw := armed (ArmReadWrite h fileno cb_wait_helper t arg) w in
  own_event_only h (hub_switch wr) (Socket.wait_read hub_switch fileno t exc w) /\
  own_event_only h (hub_switch ww) (Socket.wait_write hub_switch fileno t exc w) /\
  own_event_only h (hub_switch wrw) (Socket.wait_readwrite hub_switch fileno t exc w) /\
  own_event_only h ((get_hub_switch greenlet_switch switch_out_of) wr)
    (Gevent.wait_reader greenlet_switch switch_out_of fileno t exc w) /\
  own_event_only h ((get_hub_switch greenlet_switch switch_out_of) ww)
    (Gevent.wait_writer greenlet_switch switch_out_of fileno t exc w).
Proof.
  intros h arg wr ww wrw.
  rewrite wait_read_outcome, wait_write_outcome, wait_readwrite_outcome,
    wait_reader_outcome, wait_writer_outcome.
  repeat (split; [apply wait_outcome_own_event|]).
  apply wait_outcome_own_event.
Qed.

End wait_facts.

Lemma wait_own_event_spec_witness :
  fst (Socket.wait_read resume_with_last_event 3 None (ExcClass socket_timeout) w0) = Ret tt /\
  fst (Socket.wait_read stray_switch 3 None (ExcClass socket_timeout) w0)
  = Raise (Exn 0 AssertionError).
Proof.
  split.
  - apply (proj1 (wait_own_event_spec resume_with_last_event (fun _ => ret VNone)
                    (fun _ => None) 3 None (ExcClass socket_timeout) w0)).
    reflexivity.
  - apply (proj1 (wait_own_event_spec stray_switch (fun _ => ret VNone)
                    (fun _ => None) 3 None (ExcClass socket_timeout) w0)) with (v := VNone).
    + reflexivity.
    + discriminate.
Defined.

(** ** The cooperative socket *)

Lemma rebind_lookup (l : list string) (d : gmap string Socket.attr) (k : string) :
  foldl (fun d method => <[method := Socket.dummy]> d) d l !! k
  = if bool_decide (k ∈ l) then Some Socket.dummy else d !! k.
Proof.
  revert d. induction l as [|m l IH]; intros d; cbn [foldl].
  - rewrite bool_decide_false by set_solver. reflexivity.
  - rewrite IH. destruct (decide (k = m)) as [->|Hne].
    + rewrite lookup_insert_eq. rewrite (bool_decide_true (m ∈ m :: l)) by set_solver.
      by case_bool_decide.
    + rewrite lookup_insert_ne by done.
      destruct (decide (k ∈ l)) as [Hin|Hnin].
      * by rewrite !bool_decide_true by set_solver.
      * by rewrite !bool_decide_false by set_solver.
Qed.

Lemma close_inst_dict (self : Socket.socket) (k : string) :
  Socket.inst_dict (Socket.close self) !! k
  = if bool_decide (k ∈ Socket._delegate_methods) then Some Socket.dummy
    else Socket.inst_dict self !! k.
Proof. apply rebind_lookup. Qed.



(** C10.  close() changes only [_sock] and the instance bindings of the
    names in _delegate_methods: the timeout field is kept, so gettimeout()
    gives the same answer before and after; no other name is bound in the
    instance, in particular not gettimeout or settimeout; and settimeout()
    on the closed socket does what it does on the open one, the result
    being the closed socket with the new timeout. *)
Theorem close_keeps_timeout (self : Socket.socket) (howlong : pyval) (w : World) :
  Socket.gettimeout (Socket.close self) = Socket.gettimeout self /\
  (forall k, k ∉ Socket._delegate_methods ->
             Socket.inst_dict (Socket.close self) !! k = Socket.inst_dict self !! k) /\
  "gettimeout" ∉ Socket._delegate_methods /\
  "settimeout" ∉ Socket._delegate_methods /\
  Socket.settimeout (Socket.close self) howlong w
  = match Socket.settimeout self howlong w with
    | (Ret self', w') => (Ret (Socket.close self'), w')
    | (Raise e, w') => (Raise e, w')
    end /\
  (forall q, Qle_bool 0 q = true ->
     exists closed,
       Socket.settimeout (Socket.close self) (VFloat q) w = (Ret closed, w) /\
       Socket.gettimeout closed = Some q /\
       Socket._sock closed = Socket._closedsocket) /\
  (exists closed,
     Socket.settimeout (Socket.close self) VNone w = (Ret closed, w) /\
     Socket.gettimeout closed = None /\
     Socket._sock closed = Socket._closedsocket).
Proof.
  split; [reflexivity|]. split.
  { intros k Hk. rewrite close_inst_dict. by rewrite bool_decide_false. }
  split; [set_solver|]. split; [set_solver|]. split.
  { unfold Socket.settimeout, bind.
    destruct howlong as [|b|z|q|?|?|?]; cbn [Socket.__float__]; try reflexivity.
    - cbn. destruct (Qle_bool 0 (if b then 1 else 0)); reflexivity.
    - unfold Socket.int___float__. destruct (float_of_int z) as [f|]; [|reflexivity].
      cbn. destruct (Qle_bool 0 f); reflexivity.
    - cbn. destruct (Qle_bool 0 q); reflexivity. }
  split.
  - intros q Hq. eexists. unfold Socket.settimeout, bind. cbn. rewrite Hq. cbn.
    split; [reflexivity|]. split; reflexivity.
  - eexists. split; [reflexivity|]. split; reflexivity.
Qed.

Section socket_facts.

Variables EWOULDBLOCK EBADF : Z.
Variable hub_switch : M pyval.
Variable kernel : Z -> string -> list pyval -> World -> result pyval.
Variable timed_out : exn.
Variable after_wait : Socket.socket -> World -> Socket.socket.

Lemma _dummy_raises {A} w : @Socket._dummy EBADF A w = bad_file_descriptor EBADF w.
Proof. reflexivity. Qed.


Lemma attempt_trace self name args fd w :
  Socket._sock self = Socket._realsocket fd ->
  trace (snd (attempt EBADF kernel self name args w)) = trace w ++ [SysCall fd name args].
Proof. intros H. unfold attempt. rewrite H. reflexivity. Qed.

Lemma attempt_closed self name args w :
  Socket._sock self = Socket._closedsocket ->
  attempt EBADF kernel self name args w = bad_file_descriptor EBADF w.
Proof. intros H. unfold attempt. rewrite H. reflexivity. Qed.

Lemma send_unfold self data flags kw w :
  Socket.send EWOULDBLOCK EBADF hub_switch kernel timed_out after_wait self data flags kw w =
  let t := match kw with None => Socket.timeout self | Some t => t end in
  match attempt EBADF kernel self "send" [data; flags] w with
  | (Ret v, w1) => (Ret v, w1)
  | (Raise ex, w1) =>
      if would_block EWOULDBLOCK ex && negb (eq_zero t)
      then wait_and_retry EWOULDBLOCK EBADF hub_switch kernel timed_out after_wait self
             (Socket._sock_fileno EBADF (Socket._sock self)) t "send" [data; flags] w1
      else (Raise ex, w1)
  end.
Proof.
  unfold Socket.send, try_except at 1. fold (attempt EBADF kernel self "send" [data; flags]).
  destruct (attempt EBADF kernel self "send" [data; flags] w) as [[v|ex] w1]; [reflexivity|].
  unfold would_block. destruct (isinstance_error ex); [|reflexivity].
  cbn [andb]. destruct (arg0_is ex EWOULDBLOCK); [|reflexivity].
  cbn [negb orb andb]. by destruct (eq_zero _).
Qed.

Lemma sendto_unfold self args w :
  Socket.sendto EWOULDBLOCK EBADF hub_switch kernel timed_out after_wait self args w =
  match attempt EBADF kernel self "sendto" args w with
  | (Ret v, w1) => (Ret v, w1)
  | (Raise ex, w1) =>
      if would_block EWOULDBLOCK ex
      then wait_and_retry EWOULDBLOCK EBADF hub_switch kernel timed_out after_wait self
             (Socket.fileno EBADF self) (Socket.timeout self) "sendto" args w1
      else (Raise ex, w1)
  end.
Proof.
  unfold Socket.sendto, try_except at 1. fold (attempt EBADF kernel self "sendto" args).
  destruct (attempt EBADF kernel self "sendto" args w) as [[v|ex] w1]; [reflexivity|].
  unfold would_block, Socket.module_timeout_eq_zero.
  destruct (isinstance_error ex); [|reflexivity].
  cbn [andb]. by destruct (arg0_is ex EWOULDBLOCK).
Qed.

(** Whatever the socket's timeout is, 0 included, a would-block error of
    the underlying sendto is followed by the wait and the retry. *)
Lemma sendto_would_block_waits self args w ex :
  fst (attempt EBADF kernel self "sendto" args w) = Raise ex ->
  would_block EWOULDBLOCK ex = true ->
  Socket.sendto EWOULDBLOCK EBADF hub_switch kernel timed_out after_wait self args w
  = wait_and_retry EWOULDBLOCK EBADF hub_switch kernel timed_out after_wait self
      (Socket.fileno EBADF self) (Socket.timeout self) "sendto" args
      (snd (attempt EBADF kernel self "sendto" args w)).
Proof.
  intros Hf Hwb. rewrite sendto_unfold.
  destruct (attempt EBADF kernel self "sendto" args w) as [[v|ex'] w1]; [discriminate|].
  cbn in Hf. injection Hf as ->. by rewrite Hwb.
Qed.

Lemma wait_and_retry_outcome self wait_fileno t name args w1 :
  let waited := (fd <- wait_fileno ;;
                 Socket.wait_write hub_switch fd t (ExcInst timed_out)) w1 in
  let second := attempt EBADF kernel (after_wait self (snd waited)) name args (snd waited) in
  wait_and_retry EWOULDBLOCK EBADF hub_switch kernel timed_out after_wait self wait_fileno t
    name args w1 =
  match fst waited with
  | Raise e => (Raise e, snd waited)
  | Ret _ =>
      match fst second with
      | Ret v => second
      | Raise e2 => if would_block EWOULDBLOCK e2 then (Ret (VInt 0), snd second) else second
      end
  end.
Proof.
  cbv zeta. unfold wait_and_retry, bind.
  destruct (wait_fileno w1) as [[fd|e] w2]; [|reflexivity]. cbn [fst snd].
  destruct (Socket.wait_write hub_switch fd t (ExcInst timed_out) w2) as [[[]|e] w3];
    [|reflexivity].
  cbn [fst snd]. unfold Socket.reread, try_except, would_block.
  destruct (attempt EBADF kernel (after_wait self w3) name args w3) as [[v|e2] w4];
    [reflexivity|].
  cbn [fst snd].
  destruct (isinstance_error e2); [|reflexivity].
  by destruct (arg0_is e2 EWOULDBLOCK).
Qed.

(** C7.  send(data, flags, timeout=...): the timeout used is the keyword
    when it is given and the socket's timeout otherwise.  The underlying send
    is called once; its value is returned; an error that is not would-block,
    and would-block when the timeout equals 0, are raised as they are, with
    no wait and no second call.  On would-block with any other timeout the
    call waits for writability: it arms a write event on the descriptor with
    that timeout and _wait_helper as callback, switches to the hub, and
    cancels the event when the switch is over; an exception out of the wait
    is raised.  After the wait [self._sock.send] is called exactly once more,
    on the object as it is then: its value is returned, a second would-block
    gives 0, and another error is raised.  Each call that reaches the OS
    socket is one entry of the trace; if the object has been closed during
    the wait the retry reaches no OS socket and raises error(EBADF). *)
Theorem send_spec (self : Socket.socket) (data flags : pyval) (kw : option seconds)
    (w : World) :
  let t := match kw with None => Socket.timeout self | Some t => t end in
  let out := Socket.send EWOULDBLOCK EBADF hub_switch kernel timed_out after_wait self data
               flags kw w in
  let first := attempt EBADF kernel self "send" [data; flags] w in
  (forall v, fst first = Ret v -> out = first) /\
  (forall ex, fst first = Raise ex -> would_block EWOULDBLOCK ex = false -> out = first) /\
  (forall ex, fst first = Raise ex -> eq_zero t = true -> out = first) /\
  (forall fd, Socket._sock self = Socket._realsocket fd ->
     trace (snd first) = trace w ++ [SysCall fd "send" [data; flags]]) /\
  (Socket._sock self = Socket._closedsocket -> EBADF <> EWOULDBLOCK ->
     out = bad_file_descriptor EBADF w) /\
  (forall ex fd, fst first = Raise ex -> would_block EWOULDBLOCK ex = true -> eq_zero t = false ->
     Socket._sock self = Socket._realsocket fd ->
     let w1 := snd first in
     let h := next_handle w1 in
     let waited := wait_outcome hub_switch h
                     (armed (ArmWrite h fd cb_wait_helper t (current w1, ExcInst timed_out))
                        w1) in
     let self' := after_wait self (snd waited) in
     let second := attempt EBADF kernel self' "send" [data; flags] (snd waited) in
     (forall e, fst waited = Raise e -> out = (Raise e, snd waited)) /\
     (fst waited = Ret tt ->
        (forall v, fst second = Ret v -> out = second) /\
        (forall ex2, fst second = Raise ex2 -> would_block EWOULDBLOCK ex2 = true ->
                     out = (Ret (VInt 0), snd second)) /\
        (forall ex2, fst second = Raise ex2 -> would_block EWOULDBLOCK ex2 = false ->
                     out = second) /\
        (forall fd', Socket._sock self' = Socket._realsocket fd' ->
           trace (snd second) = trace (snd waited) ++ [SysCall fd' "send" [data; flags]]) /\
        (Socket._sock self' = Socket._closedsocket -> EBADF <> EWOULDBLOCK ->
           out = bad_file_descriptor EBADF (snd waited)))).
Proof.
  intros t out first.
  assert (Hout : out =
            match fst first with
            | Ret v => first
            | Raise ex =>
                if would_block EWOULDBLOCK ex && negb (eq_zero t)
                then wait_and_retry EWOULDBLOCK EBADF hub_switch kernel timed_out after_wait
                       self (Socket._sock_fileno EBADF (Socket._sock self)) t "send"
                       [data; flags] (snd first)
                else first
            end).
  { subst out first. rewrite send_unfold. cbv zeta. fold t.
    by destruct (attempt EBADF kernel self "send" [data; flags] w) as [[v|ex] w1]. }
  split; [|split; [|split; [|split; [|split]]]].
  - intros v Hf. by rewrite Hout, Hf.
  - intros ex Hf Hwb. by rewrite Hout, Hf, Hwb.
  - intros ex Hf Hz. rewrite Hout, Hf, Hz. by rewrite andb_false_r.
  - intros fd Hfd. by apply attempt_trace.
  - intros Hc Hne. rewrite Hout. subst first. rewrite (attempt_closed _ _ _ _ Hc).
    cbn [fst bad_file_descriptor]. unfold would_block, isinstance_error, arg0_is. cbn.
    apply Z.eqb_neq in Hne. by rewrite Hne.
  - intros ex fd Hf Hwb Hz Hfd w1 h waited self' second.
    assert (Hw : (fd0 <- Socket._sock_fileno EBADF (Socket._sock self) ;;
                  Socket.wait_write hub_switch fd0 t (ExcInst timed_out)) w1 = waited).
    { unfold bind. rewrite Hfd. cbn [Socket._sock_fileno ret].
      by rewrite wait_write_outcome. }
    rewrite Hout, Hf, Hwb, Hz. cbn [andb negb].
    rewrite wait_and_retry_outcome. cbv zeta. fold w1. rewrite Hw. fold self' second.
    split.
    + intros e He. by rewrite He.
    + intros Hr. rewrite Hr. split; [|split; [|split; [|split]]].
      * intros v Hs. by rewrite Hs.
      * intros ex2 Hs Hwb2. by rewrite Hs, Hwb2.
      * intros ex2 Hs Hwb2. by rewrite Hs, Hwb2.
      * intros fd' Hfd'. by apply attempt_trace.
      * intros Hc Hne. subst second. rewrite (attempt_closed _ _ _ _ Hc).
        cbn [fst bad_file_descriptor]. unfold would_block, isinstance_error, arg0_is. cbn.
        apply Z.eqb_neq in Hne. by rewrite Hne.
Qed.

End socket_facts.

Lemma close_keeps_timeout_witness :
  exists closed,
    Socket.settimeout (Socket.close {| Socket._sock := Socket._realsocket 3;
                                       Socket.timeout := None;
                                       Socket.inst_dict := ∅ |}) (VFloat (1 # 2)) w0
      = (Ret closed, w0) /\
    Socket.gettimeout closed = Some (1 # 2) /\
    Socket._sock closed = Socket._closedsocket.
Proof.
  apply (close_keeps_timeout {| Socket._sock := Socket._realsocket 3;
                                Socket.timeout := None;
                                Socket.inst_dict := ∅ |} VNone w0).
  reflexivity.
Defined.

(** *** Concrete runs *)

Lemma send_spec_witness :
  fst (Socket.send 11 9 resume_with_last_event kernel_busy timed_out_exn untouched
         (sock3 None) (VStr "ping") (VInt 0) None w0) = Ret (VInt 0) /\
  fst (Socket.send 11 9 resume_with_last_event kernel_busy timed_out_exn closed_meanwhile
         (sock3 None) (VStr "ping") (VInt 0) None w0) = Raise (Exn 0 (error 9)).
Proof.
  split.
  - pose proof (send_spec 11 9 resume_with_last_event kernel_busy timed_out_exn untouched
                  (sock3 None) (VStr "ping") (VInt 0) None w0) as H.
    cbv zeta in H. destruct H as (_ & _ & _ & _ & _ & H).
    destruct (H busy_exn 3 eq_refl eq_refl eq_refl eq_refl) as [_ H2].
    destruct (H2 eq_refl) as (_ & H3 & _).
    rewrite (H3 busy_exn eq_refl eq_refl). reflexivity.
  - pose proof (send_spec 11 9 resume_with_last_event kernel_busy timed_out_exn
                  closed_meanwhile (sock3 None) (VStr "ping") (VInt 0) None w0) as H.
    cbv zeta in H. destruct H as (_ & _ & _ & _ & _ & H).
    destruct (H busy_exn 3 eq_refl eq_refl eq_refl eq_refl) as [_ H2].
    destruct (H2 eq_refl) as (_ & _ & _ & _ & H5).
    rewrite (H5 eq_refl); [reflexivity | lia].
Defined.

(** send on a socket without timeout whose buffer is full: one call, the
    wait, and the second call when nobody has touched the socket; when the
    socket has been closed during the wait there is no second call. *)
Example send_runs :
  trace (snd (Socket.send 11 9 resume_with_last_event kernel_busy timed_out_exn untouched
                (sock3 None) (VStr "ping") (VInt 0) None w0))
  = [SysCall 3 "send" [VStr "ping"; VInt 0];
     ArmWrite 0 3 cb_wait_helper None (0%nat, ExcInst timed_out_exn);
     Cancel 0;
     SysCall 3 "send" [VStr "ping"; VInt 0]] /\
  trace (snd (Socket.send 11 9 resume_with_last_event kernel_busy timed_out_exn
                closed_meanwhile (sock3 None) (VStr "ping") (VInt 0) None w0))
  = [SysCall 3 "send" [VStr "ping"; VInt 0];
     ArmWrite 0 3 cb_wait_helper None (0%nat, ExcInst timed_out_exn);
     Cancel 0].
Proof. split; reflexivity. Qed.

(** C8.  sendto on a socket whose timeout is 0, when the underlying sendto
    would block: the guard compares the module's name [timeout], not the
    socket's timeout, so the error is not re-raised.  The call arms a write
    event with timeout 0 and switches to the hub; when that timeout fires,
    socket.timeout comes out instead of the would-block error.  send on the
    same socket re-raises the would-block error after its single call. *)
Theorem sendto_zero_timeout_waits :
  let out := Socket.sendto 11 9 hub_timeout_fires kernel_busy timed_out_exn untouched
               (sock3 (Some 0%Q)) [VStr "ping"; VStr "peer"] w0 in
  let out' := Socket.send 11 9 hub_timeout_fires kernel_busy timed_out_exn untouched
                (sock3 (Some 0%Q)) (VStr "ping") (VInt 0) None w0 in
  fst out = Raise timed_out_exn /\
  trace (snd out)
  = [SysCall 3 "sendto" [VStr "ping"; VStr "peer"];
     ArmWrite 0 3 cb_wait_helper (Some 0%Q) (0%nat, ExcInst timed_out_exn);
     Cancel 0] /\
  fst out' = Raise busy_exn /\
  trace (snd out') = [SysCall 3 "send" [VStr "ping"; VInt 0]].
Proof. repeat split. Qed.

(** ** Runs of the model *)

(** spawn from the main greenlet of a fresh process: the hub is made on
    the way, the new greenlet is number 1 and the hub's greenlet number 2. *)
Example spawn_from_main :
  let out := Gevent.spawn 7 [VInt 1] ∅ w0 in
  fst out = Ret 1%nat /\
  current (snd out) = 0%nat /\
  g_parent <$> greenlets (snd out) = [None; Some 2%nat; Some 0%nat] /\
  g_started <$> greenlets (snd out) = [true; false; false] /\
  trace (snd out) = [ArmTimer 0 (Some 0%Q) (cb_switch 1%nat)].
Proof. repeat split. Qed.

(** sleep(0) from the main greenlet, resumed by its timer. *)
Example sleep_from_main :
  let out := Gevent.sleep (fun _ => ret VNone) (fun _ => None) (Some 0%Q) w0 in
  fst out = Ret tt /\
  trace (snd out) = [ArmTimer 0 (Some 0%Q) (cb_switch 0%nat); Cancel 0].
Proof. repeat split. Qed.

(** with_timeout around a function that returns in time. *)
Example with_timeout_in_time :
  let out := Gevent.with_timeout (Some (1 # 20)) (fun _ _ => ret (VInt 5)) []
               {[ "timeout_value" := VStr "X" ]} w0 in
  fst out = Ret (VInt 5) /\
  trace (snd out)
  = [ArmTimer 0 (Some (1 # 20)) (cb_throw 0%nat [ExcInst (Exn 0 TimeoutError)]); Cancel 0].
Proof. repeat split. Qed.

(** A TimeoutError of an enclosing scope passes through an inner
    with_timeout that has a timeout_value. *)
Example with_timeout_outer_marker :
  fst (Gevent.with_timeout (Some 1%Q) (fun _ _ => raise (Exn 77 TimeoutError)) []
         {[ "timeout_value" := VStr "X" ]} w0)
  = Raise (Exn 77 TimeoutError).
Proof. reflexivity. Qed.

(** recv on a closed socket, and a method the class only delegates. *)
Example closed_socket_calls :
  fst (Socket.call 11 9 stray_switch kernel_busy timed_out_exn untouched 0
         (Socket.close (sock3 None)) Socket.m_recv [VInt 1024] w0)
  = Raise (Exn 0 (error 9)) /\
  fst (Socket.call 11 9 stray_switch kernel_busy timed_out_exn untouched 0
         (Socket.close (sock3 None)) (Socket.m_delegated "getpeername") [] w0)
  = Raise (Exn 0 (error 9)).
Proof. split; reflexivity. Qed.

(** * Further properties of gevent/__init__.py *)

(** ** get_hub *)

(** get_hub() returns the hub registered in _threadlocal for the calling
    thread, and changes nothing, as long as one is registered.  When none
    is registered (at the thread's first call, or when the registration has
    been lost because get_hub() called by another thread has rebound the
    module's _threadlocal) it makes a new Hub object, different from every
    Hub that exists, with one greenlet for Hub.run, child of the caller and
    not started; it registers that hub, arms nothing and keeps the caller
    current.  A call made in the world that get_hub leaves returns the same
    hub and changes nothing. *)
Theorem get_hub_once (w : World) :
  let wg := snd (Gevent.get_hub w) in
  fst (Gevent.get_hub w) = Ret (hub_of w) /\
  Gevent.get_hub wg = (Ret (hub_of w), wg) /\
  (forall hub, threadlocal_hub w = Some hub -> Gevent.get_hub w = (Ret hub, w)) /\
  (threadlocal_hub w = None ->
     hubs w !! hub_of w = None /\
     hubs wg = hubs w ++ [{| hub_greenlet := length (greenlets w);
                             keyboard_interrupt_signal := None |}] /\
     hubs wg !! hub_of w
     = Some {| hub_greenlet := length (greenlets w); keyboard_interrupt_signal := None |} /\
     greenlets wg = greenlets w ++ [fresh_driver w] /\
     threadlocal_hub wg = Some (hub_of w) /\
     trace wg = trace w /\ current wg = current w /\ next_handle wg = next_handle w) /\
  (hub_registered w = true -> hub_registered wg = true).
Proof.
  intros wg. subst wg. unfold Gevent.get_hub, hub_of, hub_registered.
  destruct (threadlocal_hub w) as [hub|] eqn:Hh.
  - cbn. rewrite Hh. split; [done|]. split; [done|]. split; [by intros ? [= ->]|].
    split; [discriminate|]. done.
  - cbn. split; [reflexivity|]. split; [reflexivity|]. split; [discriminate|].
    split.
    + intros _. split; [by apply lookup_ge_None_2|]. split; [reflexivity|].
      rewrite list_lookup_middle by reflexivity. repeat split.
    + intros _. rewrite list_lookup_middle by reflexivity. cbn.
      by rewrite list_lookup_middle.
Qed.

Lemma get_hub_once_witness :
  Gevent.get_hub w_driver_dead = (Ret 0%nat, w_driver_dead) /\
  hubs (snd (Gevent.get_hub w0)) !! hub_of w0
  = Some {| hub_greenlet := 1%nat; keyboard_interrupt_signal := None |} /\
  hub_registered (snd (Gevent.get_hub w0)) = true.
Proof.
  split; [|split].
  - apply (proj1 (proj2 (proj2 (get_hub_once w_driver_dead)))). reflexivity.
  - apply (proj1 (proj2 (proj2 (proj2 (get_hub_once w0))))). reflexivity.
  - apply (proj2 (proj2 (proj2 (proj2 (get_hub_once w0))))). reflexivity.
Defined.

(** ** spawn_later *)

(** spawn_later(seconds, function, args...) is spawn with a delay: it
    returns the new greenlet without switching, leaves every existing
    greenlet as it was, and its one reactor call arms a timer of [seconds]
    whose callback is the new greenlet's switch.  When it returns the
    thread has a hub, the [greenlet] of that Hub object is a greenlet that
    runs Hub.run, and it is the parent of the new greenlet.  spawn is
    spawn_later with delay 0. *)
Theorem spawn_later_spec (s : seconds) (function : nat) (args : list pyval)
    (kwargs : gmap string pyval) (w : World) :
  let out := Gevent.spawn_later s function args kwargs w in
  let g := length (greenlets w) in
  fst out = Ret g /\
  current (snd out) = current w /\
  take g (greenlets (snd out)) = greenlets w /\
  trace (snd out) = trace w ++ [ArmTimer (next_handle w) s (cb_switch g)] /\
  (hub_registered w = true ->
   (exists hub h driver,
      threadlocal_hub (snd out) = Some hub /\
      hubs (snd out) !! hub = Some h /\
      greenlets (snd out) !! hub_greenlet h = Some driver /\
      g_run driver = Hub_run /\
      hub_greenlet h <> g /\
      greenlets (snd out) !! g
      = Some {| g_run := user_lambda function args kwargs;
                g_parent := Some (hub_greenlet h);
                g_started := false; g_dead := false |}) /\
   hub_registered (snd out) = true) /\
  Gevent.spawn function args kwargs w = Gevent.spawn_later (Some 0%Q) function args kwargs w.
Proof.
  intros out g. subst out g.
  destruct (spawn_later_world s function args kwargs w) as (Hr & Hc & Ht & Hw).
  split; [exact Hr|]. split; [exact Hc|]. split; [|split; [exact Ht|split]].
  - destruct (threadlocal_hub w); destruct Hw as (_ & _ & ->); by rewrite take_app_length.
  - apply spawn_later_parent.
  - reflexivity.
Qed.

Lemma spawn_later_spec_witness :
  exists driver,
    greenlets (snd (Gevent.spawn_later (Some 2%Q) 7 [] ∅ w0)) !! 2%nat = Some driver /\
    g_run driver = Hub_run /\
    g_parent <$> greenlets (snd (Gevent.spawn_later (Some 2%Q) 7 [] ∅ w0)) !! 1%nat
    = Some (Some 2%nat).
Proof.
  destruct (proj1 (proj2 (proj2 (proj2 (proj2 (spawn_later_spec (Some 2%Q) 7 [] ∅ w0)))))
              eq_refl) as [(hub & h & driver & Hh & Hhub & Hd & Hrun & _ & Hg) _].
  cbn in Hh. injection Hh as <-. cbn in Hhub. injection Hhub as <-.
  exists driver. split; [exact Hd|]. split; [exact Hrun|].
  reflexivity.
Defined.

(** ** kill and sleep *)

Lemma get_hub_again (w : World) :
  Gevent.get_hub (snd (Gevent.get_hub w)) = (Ret (hub_of w), snd (Gevent.get_hub w)).
Proof.
  unfold Gevent.get_hub, hub_of. destruct (threadlocal_hub w) as [hub|] eqn:Hh.
  - cbn. by rewrite Hh.
  - reflexivity.
Qed.

Lemma hub_of_get_hub (w : World) : hub_of (snd (Gevent.get_hub w)) = hub_of w.
Proof.
  unfold hub_of, Gevent.get_hub. destruct (threadlocal_hub w) eqn:Hh; cbn.
  - by rewrite Hh.
  - reflexivity.
Qed.

Section kill_sleep_facts.

Variable greenlet_switch : gid -> M pyval.
Variable switch_out_of : gid -> option (M unit).

(** sleep(): the value with which the sleeping greenlet is resumed is not
    looked at (the wait functions assert it is their event; sleep does
    not), so any switch into the greenlet ends the sleep normally; an
    exception thrown into it comes out of sleep.  Called by the hub's own
    greenlet, sleep raises AssertionError and makes no switch. *)
Theorem sleep_returns_on_any_value (s : seconds) (w : World) :
  let wg := snd (Gevent.get_hub w) in
  let hub := hub_of w in
  let w1 := armed (ArmTimer (next_handle w) s (cb_switch (current w))) wg in
  let sw := Gevent.Hub_switch greenlet_switch switch_out_of hub w1 in
  let out := Gevent.sleep greenlet_switch switch_out_of s w in
  (Gevent.Hub_greenlet wg hub <> current w ->
     (forall v, fst sw = Ret v -> fst out = Ret tt) /\
     (forall e, fst sw = Raise e -> fst out = Raise e)) /\
  (Gevent.Hub_greenlet wg hub = current w ->
     out = (Raise (Exn (next_obj w) AssertionError), with_next_obj (S (next_obj w)) wg)).
Proof.
  intros wg hub w1 sw out. subst out. rewrite sleep_outcome. fold wg hub w1 sw.
  split.
  - intros Hne. apply Nat.eqb_neq in Hne. rewrite Hne. cbn [fst]. split.
    + intros v Hv. by rewrite Hv.
    + intros e He. by rewrite He.
  - intros Heq. apply Nat.eqb_eq in Heq. by rewrite Heq.
Qed.

(** kill(g, args...) first arms a timer of delay 0 that throws into [g].
    Called by the hub's greenlet it stops there: no switch, nothing else
    armed.  Called by any other greenlet it then sleeps 0 seconds: it arms
    the timer that resumes the caller, switches to the hub, and ends with
    that timer cancelled; sleep's assertion cannot fail, and whatever is
    thrown into the caller during the switch (the exception of kill itself,
    when a greenlet kills itself) is raised by kill. *)
Theorem kill_spec (g : gid) (throw_args : list exc_arg) (w : World) :
  let h := next_handle w in
  let wa := armed (ArmTimer h (Some 0%Q) (cb_throw g throw_args)) w in
  let wg := snd (Gevent.get_hub wa) in
  let hub := hub_of w in
  let w1 := armed (ArmTimer (S h) (Some 0%Q) (cb_switch (current w))) wg in
  let sw := Gevent.Hub_switch greenlet_switch switch_out_of hub w1 in
  let out := Gevent.kill greenlet_switch switch_out_of g throw_args w in
  trace wg = trace w ++ [ArmTimer h (Some 0%Q) (cb_throw g throw_args)] /\
  (current w = Gevent.Hub_greenlet wg hub -> out = (Ret tt, wg)) /\
  (current w <> Gevent.Hub_greenlet wg hub ->
     fst out = discard_value (fst sw) /\
     trace (snd out) = trace (snd sw) ++ [Cancel (S h)]).
Proof.
  intros h wa wg hub w1 sw out.
  destruct (get_hub_result wa) as (wg' & Hg & Ht & Hh & Hc & Ho).
  assert (Hwg : wg = wg') by (subst wg; by rewrite Hg). 
  assert (Hhub : hub_of wa = hub) by reflexivity.
  split; [rewrite Hwg, Ht; reflexivity|].
  assert (Hkill : out = if negb (Nat.eqb (current w) (Gevent.Hub_greenlet wg hub))
                        then Gevent.sleep greenlet_switch switch_out_of (Some 0%Q) wg
                        else (Ret tt, wg)).
  { subst out. unfold Gevent.kill. unfold bind at 1.
    change (Gevent.timer (Some 0%Q) (cb_throw g throw_args) w) with (Ret h, wa).
    cbn [fst snd]. unfold bind at 1. cbn [getcurrent].
    unfold bind at 1. rewrite Hg, Hhub, <- Hwg.
    unfold bind at 1. cbn [Gevent.get_greenlet].
    change (current wa) with (current w).
    by destruct (negb _). }
  split.
  - intros Heq. rewrite Hkill. apply Nat.eqb_eq in Heq. by rewrite Heq.
  - intros Hne. rewrite Hkill. apply Nat.eqb_neq in Hne. rewrite Hne. cbn [negb].
    assert (Hga : Gevent.get_hub wg = (Ret hub, wg)) by (unfold wg; apply get_hub_again).
    assert (Hho : hub_of wg = hub) by (unfold wg; apply hub_of_get_hub).
    assert (Hcur : current wg = current w) by (rewrite Hwg; exact Hc).
    assert (Hnh : next_handle wg = S h) by (rewrite Hwg; exact Hh).
    rewrite sleep_outcome. cbv zeta. rewrite Hga, Hho, Hcur, Hnh. cbn [snd].
    rewrite Nat.eqb_sym, Hne. fold w1. fold sw. split; reflexivity.
Qed.

End kill_sleep_facts.

Lemma sleep_returns_on_any_value_witness :
  fst (Gevent.sleep (fun _ => ret (VStr "stray")) (fun _ => None) (Some 10%Q) w0) = Ret tt.
Proof.
  apply (proj1 (sleep_returns_on_any_value (fun _ => ret (VStr "stray")) (fun _ => None)
                  (Some 10%Q) w0)) with (v := VStr "stray").
  - cbn. lia.
  - reflexivity.
Defined.

Lemma kill_spec_witness :
  fst (Gevent.kill (fun _ w => (Raise (Exn 5 (OtherException "Killed")), w)) (fun _ => None)
         0%nat [ExcInst (Exn 5 (OtherException "Killed"))] w0)
  = Raise (Exn 5 (OtherException "Killed")).
Proof.
  pose proof (kill_spec (fun _ w => (Raise (Exn 5 (OtherException "Killed")), w))
                (fun _ => None) 0%nat [ExcInst (Exn 5 (OtherException "Killed"))] w0) as H.
  cbv zeta in H. destruct H as (_ & _ & H).
  destruct H as [H _]; [cbn; lia|]. rewrite H. reflexivity.
Defined.

(** ** Hub.run *)

Section Hub_run_facts.

Variable core_dispatch : M Z.
Variable core_signal : Z -> M unit -> M nat.
Variable greenlet_throw : gid -> list exc_arg -> M unit.
Variable MAIN : gid.

Lemma while_True_first {A} (fuel : nat) (body : M (option A)) (w : World) :
  (forall r w', body w = (Ret r, w') -> r <> None) ->
  Gevent.while_True (S fuel) body w
  = match body w with
    | (Ret (Some v), w') => (Ret (Some v), w')
    | (Ret None, w') => (Ret None, w')
    | (Raise e, w') => (Raise e, w')
    end.
Proof.
  intros H. cbn [Gevent.while_True]. unfold bind.
  destruct (body w) as [[[v|]|e] w'] eqn:Hb; try reflexivity.
  by destruct (H None w' eq_refl).
Qed.

(** Hub.run(): its [while True] never goes round.  Whatever fuel is
    given, one run makes exactly one call of core.dispatch and returns
    the first message when the status is positive, the second when it is
    negative, and the status itself when it is 0; an exception of dispatch
    comes out of run.  The SIGINT handler is installed only when the hub
    has none: the run of a hub whose keyboard_interrupt_signal is set makes
    no call of core.signal, and a run that installs the handler stores the
    signal event in the hub before it dispatches. *)
Theorem Hub_run_once (fuel : nat) (self : nat) (w : World) :
  let run := Gevent.Hub_run_ core_dispatch core_signal greenlet_throw MAIN (S fuel) self w in
  let install := Gevent.signal core_signal greenlet_throw MAIN 2
                   (greenlet_throw MAIN [ExcClass Gevent.KeyboardInterrupt]) w in
  (forall h k, hubs w !! self = Some h -> keyboard_interrupt_signal h = Some k ->
     run = finish_run (core_dispatch w)) /\
  (forall h ev w1, hubs w !! self = Some h -> keyboard_interrupt_signal h = None ->
     install = (Ret ev, w1) ->
     let w2 := snd (Gevent.set_keyboard_interrupt_signal self (Some ev) w1) in
     run = finish_run (core_dispatch w2) /\
     (is_Some (hubs w1 !! self) ->
      Gevent.get_keyboard_interrupt_signal self w2 = (Ret (Some ev), w2))) /\
  (forall h e w1, hubs w !! self = Some h -> keyboard_interrupt_signal h = None ->
     install = (Raise e, w1) -> run = (Raise e, w1)).
Proof.
  intros run install.
  assert (Hloop : forall w',
            Gevent.while_True (S fuel)
              (result <- core_dispatch ;;
               if Z.ltb 0 result
               then ret (Some (VStr "Hub.run() has finished because there are no events registered"))
               else if Z.ltb result 0
               then ret (Some (VStr "Hub.run() has finished because there was an error"))
               else ret (Some (VInt result))) w'
            = finish_run (core_dispatch w')).
  { intros w'. rewrite while_True_first.
    - unfold bind, finish_run, run_result.
      destruct (core_dispatch w') as [[r|e] w'']; [|reflexivity].
      destruct (Z.ltb 0 r); [reflexivity|]. by destruct (Z.ltb r 0).
    - intros r w'' Hr. unfold bind in Hr.
      destruct (core_dispatch w') as [[z|e] w3]; [|discriminate].
      destruct (Z.ltb 0 z); [by injection Hr as <- _|].
      destruct (Z.ltb z 0); by injection Hr as <- _. }
  assert (Hrun : run =
            match match hubs w !! self with
                  | Some h => keyboard_interrupt_signal h
                  | None => None
                  end with
            | Some _ => finish_run (core_dispatch w)
            | None =>
                match install with
                | (Ret ev, w1) =>
                    finish_run (core_dispatch
                                  (snd (Gevent.set_keyboard_interrupt_signal self (Some ev) w1)))
                | (Raise e, w1) => (Raise e, w1)
                end
            end).
  { subst run install. unfold Gevent.Hub_run_. unfold bind at 1.
    cbn [Gevent.get_keyboard_interrupt_signal].
    destruct (match hubs w !! self with
              | Some h => keyboard_interrupt_signal h
              | None => None
              end).
    - unfold bind at 1. cbn [ret]. apply Hloop.
    - unfold bind at 1. unfold bind at 1.
      destruct (Gevent.signal _ _ _ _ _ w) as [[ev|e] w1]; [|reflexivity].
      cbn [Gevent.set_keyboard_interrupt_signal]. apply Hloop. }
  split; [|split].
  - intros h k Hh Hk. by rewrite Hrun, Hh, Hk.
  - intros h ev w1 Hh Hk Hi. rewrite Hrun, Hh, Hk, Hi. split; [reflexivity|].
    intros [h1 Hh1].
    unfold Gevent.get_keyboard_interrupt_signal, Gevent.set_keyboard_interrupt_signal.
    cbn. rewrite Hh1. rewrite list_lookup_insert_eq; [reflexivity|].
    by eapply lookup_lt_Some.
  - intros h e w1 Hh Hk Hi. by rewrite Hrun, Hh, Hk, Hi.
Qed.

End Hub_run_facts.

Lemma Hub_run_once_witness :
  Gevent.Hub_run_ (fun w => (Ret 1, w)) (fun _ _ => ret 7%nat) (fun _ _ => ret tt) 0%nat
    5 0%nat w_driver_dead
  = (Ret (Some (VStr "Hub.run() has finished because there are no events registered")),
     w_driver_dead).
Proof.
  apply (proj1 (Hub_run_once (fun w => (Ret 1, w)) (fun _ _ => ret 7%nat) (fun _ _ => ret tt)
                  0%nat 4 0%nat w_driver_dead))
    with (h := {| hub_greenlet := 1%nat; keyboard_interrupt_signal := Some 0%nat |})
         (k := 0%nat); reflexivity.
Defined.

(** ** The wait functions when the reactor fires their event *)

Lemma last_armed_read t h fd cb s arg :
  last_armed (t ++ [ArmRead h fd cb s arg]) = Some (h, arg).
Proof. unfold last_armed. by rewrite last_snoc. Qed.

Lemma last_armed_write t h fd cb s arg :
  last_armed (t ++ [ArmWrite h fd cb s arg]) = Some (h, arg).
Proof. unfold last_armed. by rewrite last_snoc. Qed.

Lemma last_armed_readwrite t h fd cb s arg :
  last_armed (t ++ [ArmReadWrite h fd cb s arg]) = Some (h, arg).
Proof. unfold last_armed. by rewrite last_snoc. Qed.

Lemma wait_outcome_fires (EV_TIMEOUT evtype : Z) (e : effect) (exc : exc_arg) (w : World) :
  last_armed (trace (armed e w)) = Some (next_handle w, (current w, exc)) ->
  let out := wait_outcome (reactor_fires EV_TIMEOUT evtype) (next_handle w) (armed e w) in
  fst out = (if Z.eqb (Z.land evtype EV_TIMEOUT) 0 then Ret tt else Raise (thrown exc w)) /\
  trace (snd out) = trace w ++ [e; Cancel (next_handle w)].
Proof.
  intros Hl. cbv zeta. unfold wait_outcome, reactor_fires. rewrite Hl.
  unfold Gevent._wait_helper.
  destruct (Z.eqb (Z.land evtype EV_TIMEOUT) 0); cbn [negb resumed].
  - cbn. rewrite bool_decide_true by reflexivity. cbn. by rewrite <- app_assoc.
  - destruct exc as [c|ex]; cbn; by rewrite <- app_assoc.
Qed.

(** wait_read, wait_write and wait_readwrite with _wait_helper as the
    callback: when the reactor fires the event without the timeout flag the
    wait returns None; when EV_TIMEOUT is among the flags the wait raises
    [timeout_exc], the very object when an instance was given and a new
    instance when a class was given; in both cases the trace is the arming
    followed by the cancel of that event. *)
Theorem wait_fires (EV_TIMEOUT evtype : Z) (fileno : Z) (t : seconds) (exc : exc_arg)
    (w : World) :
  let hub := reactor_fires EV_TIMEOUT evtype in
  let h := next_handle w in
  let arg := (current w, exc) in
  let outcome := if Z.eqb (Z.land evtype EV_TIMEOUT) 0 then Ret tt else Raise (thrown exc w) in
  (fst (Socket.wait_read hub fileno t exc w) = outcome /\
   trace (snd (Socket.wait_read hub fileno t exc w))
   = trace w ++ [ArmRead h fileno cb_wait_helper t arg; Cancel h]) /\
  (fst (Socket.wait_write hub fileno t exc w) = outcome /\
   trace (snd (Socket.wait_write hub fileno t exc w))
   = trace w ++ [ArmWrite h fileno cb_wait_helper t arg; Cancel h]) /\
  (fst (Socket.wait_readwrite hub fileno t exc w) = outcome /\
   trace (snd (Socket.wait_readwrite hub fileno t exc w))
   = trace w ++ [ArmReadWrite h fileno cb_wait_helper t arg; Cancel h]).
Proof.
  cbv zeta.
  rewrite wait_read_outcome, wait_write_outcome, wait_readwrite_outcome.
  split; [|split]; apply wait_outcome_fires.
  - apply last_armed_read.
  - apply last_armed_write.
  - apply last_armed_readwrite.
Qed.

(** ** with_timeout inside with_timeout *)

(** Two nested with_timeout calls, each with a timeout_value: when the
    function raises the outer call's marker, the inner call lets it through
    (it is not its own marker) and the outer call returns the outer
    timeout_value; when it raises the inner call's marker, the inner
    timeout_value is returned by both.  With both timers armed, the inner
    timer is cancelled first and the outer one last. *)
Theorem nested_with_timeout (s1 s2 : seconds) (v1 v2 : pyval)
    (f : list pyval -> gmap string pyval -> M pyval) (args : list pyval) (w : World) :
  let w1 := with_timeout_entry s1 w in
  let w2 := with_timeout_entry s2 w1 in
  let r := f args ∅ w2 in
  let out := Gevent.with_timeout s1 (inner_with_timeout s2 v2 f) args
               {[ "timeout_value" := v1 ]} w in
  (fst r = Raise (marker w) -> fst out = Ret v1) /\
  (fst r = Raise (marker w1) -> fst out = Ret v2) /\
  (forall v, fst r = Ret v -> fst out = Ret v) /\
  (forall q1 q2, s1 = Some q1 -> s2 = Some q2 ->
     trace (snd out) = trace (snd r) ++ [Cancel (S (next_handle w)); Cancel (next_handle w)]).
Proof.
  intros w1 w2 r out.
  assert (Hk : delete "timeout_value" ({[ "timeout_value" := v1 ]} : gmap string pyval) = ∅)
    by apply delete_singleton_eq.
  assert (Hk2 : delete "timeout_value" (<["timeout_value" := v2]> (∅ : gmap string pyval)) = ∅)
    by (rewrite delete_insert_eq; apply delete_empty).
  assert (Hin : inner_with_timeout s2 v2 f args ∅ w1 =
            let timer := match s2 with Some _ => Some (next_handle w1) | None => None end in
            let w' := match timer with
                      | Some t => with_trace (fun t' => t' ++ [Cancel t]) (snd r)
                      | None => snd r
                      end in
            match fst r with
            | Ret v => (Ret v, w')
            | Raise e =>
                if isinstance_TimeoutError e
                then if exn_is e (marker w1) then (Ret v2, w') else (Raise e, w')
                else (Raise e, w')
            end).
  { unfold inner_with_timeout. rewrite with_timeout_unfold. unfold func_outcome.
    rewrite Hk2. fold w2. fold r. cbv zeta.
    rewrite lookup_insert_eq. cbn [default].
    destruct (fst r) as [v|e]; [reflexivity|].
    destruct (isinstance_TimeoutError e); [|reflexivity].
    rewrite bool_decide_true by eauto. by rewrite andb_true_r. }
  assert (Hout : out =
            let timer := match s1 with Some _ => Some (next_handle w) | None => None end in
            let ri := inner_with_timeout s2 v2 f args ∅ w1 in
            let w' := match timer with
                      | Some t => with_trace (fun t' => t' ++ [Cancel t]) (snd ri)
                      | None => snd ri
                      end in
            match fst ri with
            | Ret v => (Ret v, w')
            | Raise e =>
                if isinstance_TimeoutError e
                then if exn_is e (marker w) then (Ret v1, w') else (Raise e, w')
                else (Raise e, w')
            end).
  { subst out. rewrite with_timeout_unfold. unfold func_outcome. rewrite Hk. fold w1.
    cbv zeta. rewrite lookup_singleton_eq. cbn [default].
    destruct (fst (inner_with_timeout s2 v2 f args ∅ w1)) as [v|e]; [reflexivity|].
    destruct (isinstance_TimeoutError e); [|reflexivity].
    rewrite bool_decide_true by eauto. by rewrite andb_true_r. }
  assert (Hid : exn_is (marker w) (marker w1) = false).
  { unfold exn_is, marker, w1, with_timeout_entry. apply Nat.eqb_neq.
    destruct s1; cbn; lia. }
  assert (Hnh : forall q1, s1 = Some q1 -> next_handle w1 = S (next_handle w)).
  { intros q1 ->. reflexivity. }
  assert (Him : forall w', isinstance_TimeoutError (marker w') = true) by reflexivity.
  assert (Hrefl : forall e, exn_is e e = true) by (intros e; apply Nat.eqb_refl).
  rewrite Hout. cbv zeta. rewrite Hin. cbv zeta.
  split; [|split; [|split]].
  - intros Hr. rewrite Hr. cbn [fst snd]. rewrite Him, Hid. cbn [fst snd].
    by rewrite Him, Hrefl.
  - intros Hr. rewrite Hr. cbn [fst snd]. by rewrite Him, Hrefl.
  - intros v Hr. by rewrite Hr.
  - intros q1 q2 -> ->. rewrite (Hnh q1 eq_refl).
    destruct (fst r) as [v|e]; cbn [fst snd].
    + cbn. by rewrite <- app_assoc.
    + destruct (isinstance_TimeoutError e) eqn:Hi; cbn [fst snd].
      * destruct (exn_is e (marker w1)); cbn [fst snd]; [cbn; by rewrite <- app_assoc|].
        rewrite Hi. destruct (exn_is e (marker w)); cbn; by rewrite <- app_assoc.
      * rewrite Hi. cbn. by rewrite <- app_assoc.
Qed.

Lemma nested_with_timeout_witness :
  fst (Gevent.with_timeout (Some 5%Q)
         (inner_with_timeout (Some 1%Q) (VStr "inner") (fun _ _ => raise (Exn 0 TimeoutError)))
         [] {[ "timeout_value" := VStr "outer" ]} w0)
  = Ret (VStr "outer").
Proof.
  apply (proj1 (nested_with_timeout (Some 5%Q) (Some 1%Q) (VStr "outer") (VStr "inner")
                  (fun _ _ => raise (Exn 0 TimeoutError)) [] w0)).
  reflexivity.
Defined.

(** * Further properties of gevent/socket.py *)

(** ** Integers as floats *)

Lemma round_half_even_ge n d : 0 < d -> n / d <= round_half_even n d.
Proof.
  intros Hd. unfold round_half_even.
  destruct (2 * (n mod d) ?= d); [destruct (Z.even (n / d))|..]; lia.
Qed.

Lemma round_half_even_1 n : round_half_even n 1 = n.
Proof.
  unfold round_half_even. rewrite Z.mod_1_r, Z.div_1_r. reflexivity.
Qed.

Lemma Qred_inject_Z (z : Z) : Qred (inject_Z z) = inject_Z z.
Proof.
  unfold Qred, inject_Z.
  pose proof (Z.ggcd_correct_divisors z 1) as H.
  pose proof (Z.ggcd_gcd z 1) as Hg.
  destruct (Z.ggcd z 1) as [g [aa bb]]. cbn [fst snd] in *.
  rewrite Z.gcd_1_r in Hg. subst g. destruct H as [-> H1].
  assert (bb = 1) as -> by lia. f_equal. lia.
Qed.

(** An integer of at most 53 bits is a float: the conversion is exact. *)
Lemma float_of_int_exact (z : Z) :
  Z.abs z < 2 ^ 53 -> float_of_int z = Some (inject_Z z).
Proof.
  intros Hz. unfold float_of_int, binary64.
  cbn [Qnum Qden inject_Z].
  destruct (Z.eqb_spec z 0) as [->|Hne]; [reflexivity|].
  cbv zeta.
  change (Z.log2 1) with 0. rewrite Z.sub_0_r.
  assert (Ha : 0 < Z.abs z) by lia.
  pose proof (Z.log2_nonneg (Z.abs z)) as Hk0.
  assert (Hk : Z.log2 (Z.abs z) < 53) by (apply Z.log2_lt_pow2; lia).
  destruct (Z.leb_spec 0 (Z.log2 (Z.abs z))) as [_|]; [|lia].
  rewrite Z.mul_1_l.
  destruct (Z.leb_spec (2 ^ Z.log2 (Z.abs z)) (Z.abs z)) as [_|Hc];
    [|pose proof (proj1 (Z.log2_spec _ Ha)); lia].
  rewrite Z.max_l by lia.
  set (e := Z.log2 (Z.abs z) - 52).
  destruct (Z.leb_spec 0 e) as [He|He].
  - assert (e = 0) as -> by lia.
    rewrite Z.pow_0_r, !Z.mul_1_r, round_half_even_1.
    destruct (Z.leb_spec (2 ^ 1024) (Z.abs z)) as [Hbig|_].
    + assert (2 ^ 53 < 2 ^ 1024) by (apply Z.pow_lt_mono_r; lia). lia.
    + cbn [andb]. unfold scale2. cbn [Z.leb Z.compare]. rewrite Z.pow_0_r, Z.mul_1_r.
      f_equal. f_equal. lia.
  - cbn [andb]. rewrite round_half_even_1.
    unfold scale2. destruct (Z.leb_spec 0 e); [lia|].
    assert (Hp : 0 < 2 ^ (- e)) by (apply Z.pow_pos_nonneg; lia).
    f_equal. rewrite <- (Qred_inject_Z z). apply Qred_complete.
    unfold Qeq. cbn [Qnum Qden inject_Z]. rewrite Z2Pos.id by lia.
    nia.
Qed.

(** An integer of 2^1024 or more, of either sign, is beyond the floats. *)
Lemma float_of_int_overflow (z : Z) :
  2 ^ 1024 <= Z.abs z -> float_of_int z = None.
Proof.
  intros Hz. unfold float_of_int, binary64.
  cbn [Qnum Qden inject_Z].
  assert (H0 : 0 < 2 ^ 1024) by (apply Z.pow_pos_nonneg; lia).
  destruct (Z.eqb_spec z 0) as [->|Hne]; [cbn in Hz; lia|].
  cbv zeta.
  change (Z.log2 1) with 0. rewrite Z.sub_0_r.
  assert (Ha : 0 < Z.abs z) by lia.
  assert (Hk : 1024 <= Z.log2 (Z.abs z)) by (apply Z.log2_le_pow2; lia).
  destruct (Z.leb_spec 0 (Z.log2 (Z.abs z))) as [_|]; [|lia].
  rewrite Z.mul_1_l.
  pose proof (Z.log2_spec _ Ha) as [Hlo Hhi].
  destruct (Z.leb_spec (2 ^ Z.log2 (Z.abs z)) (Z.abs z)) as [_|Hc]; [|lia].
  rewrite Z.max_l by lia.
  set (k := Z.log2 (Z.abs z)) in *.
  destruct (Z.leb_spec 0 (k - 52)) as [_|]; [|lia].
  rewrite Z.mul_1_l. cbn [andb].
  assert (Hp : 0 < 2 ^ (k - 52)) by (apply Z.pow_pos_nonneg; lia).
  pose proof (round_half_even_ge (Z.abs z) (2 ^ (k - 52)) Hp) as Hr.
  assert (Hq : 2 ^ 52 <= Z.abs z / 2 ^ (k - 52)).
  { apply Z.div_le_lower_bound; [lia|].
    rewrite <- Z.pow_add_r by lia. replace (k - 52 + 52) with k by lia. exact Hlo. }
  assert (Hm : 2 ^ 1024 <= round_half_even (Z.abs z) (2 ^ (k - 52)) * 2 ^ (k - 52)).
  { transitivity (2 ^ 52 * 2 ^ (k - 52)).
    - rewrite <- Z.pow_add_r by lia. apply Z.pow_le_mono_r; lia.
    - apply Z.mul_le_mono_nonneg_r; lia. }
  destruct (Z.leb_spec (2 ^ 1024) (round_half_even (Z.abs z) (2 ^ (k - 52)) * 2 ^ (k - 52)));
    [reflexivity | lia].
Qed.

(** Beyond 53 bits an integer is rounded to the nearest float, a tie going
    to the even one; the largest integer that is still converted is just
    below 2^1024. *)
Example float_of_int_examples :
  float_of_int (2 ^ 53 + 1) = Some (inject_Z (2 ^ 53)) /\
  float_of_int (2 ^ 53 + 3) = Some (inject_Z (2 ^ 53 + 4)) /\
  float_of_int (2 ^ 1024 - 2 ^ 970 - 1) = Some (inject_Z (2 ^ 1024 - 2 ^ 971)) /\
  float_of_int (2 ^ 1024 - 2 ^ 970) = None /\
  float_of_int (10 ^ 400) = None /\
  binary64 (1 # 10) = Some (3602879701896397 # 36028797018963968).
Proof. vm_compute. repeat split. Qed.

(** ** settimeout, setblocking, gettimeout *)

Lemma settimeout_unfold (self : Socket.socket) (howlong : pyval) (w : World) :
  howlong <> VNone ->
  Socket.settimeout self howlong w
  = match Socket.__float__ howlong with
    | None => raised_new TypeError w
    | Some f =>
        match f w with
        | (Ret x, w') =>
            if Qle_bool 0 x
            then (Ret {| Socket._sock := Socket._sock self; Socket.timeout := Some x;
                         Socket.inst_dict := Socket.inst_dict self |}, w')
            else raised_new ValueError w'
        | (Raise e, w') => (Raise e, w')
        end
    end.
Proof.
  intros Hn. unfold Socket.settimeout. unfold bind at 1.
  assert (H : forall f : M Q,
            (howlong <- f ;;
             if negb (Qle_bool 0 howlong) then raise_new ValueError
             else ret (Some howlong)) w
            = match f w with
              | (Ret x, w') => if Qle_bool 0 x then (Ret (Some x), w')
                               else raised_new ValueError w'
              | (Raise e, w') => (Raise e, w')
              end).
  { intros f. unfold bind. destruct (f w) as [[x|e] w']; [|reflexivity].
    by destruct (Qle_bool 0 x). }
  destruct howlong; try done; cbn [Socket.__float__]; try reflexivity;
    rewrite H;
    match goal with |- context [?f w] =>
      match type of f with M Q => destruct (f w) as [[x|e] w'] end end;
    try reflexivity; by destruct (Qle_bool 0 x).
Qed.

Lemma Qle_bool_0_inject_Z (z : Z) : Qle_bool 0 (inject_Z z) = (0 <=? z).
Proof.
  unfold Qle_bool, inject_Z. cbn [Qnum Qden]. change (0 * 1) with 0. by rewrite Z.mul_1_r.
Qed.

(** settimeout(howlong) accepts None and every value whose [__float__]
    gives a float that is not negative, and gettimeout() then gives that
    float back.  A value without [__float__] raises TypeError, a negative
    one ValueError, and an exception of [__float__] itself comes out as it
    is: an integer of 2^1024 or more, of either sign, raises
    OverflowError.  An integer of at most 53 bits is stored as it is.  A
    call that raises leaves the socket as it was.  setblocking(False) is
    settimeout(0.0) and setblocking(True) is settimeout(None). *)
Theorem settimeout_spec (self : Socket.socket) (howlong : pyval) (w : World) :
  (forall f x w', Socket.__float__ howlong = Some f -> howlong <> VNone ->
     f w = (Ret x, w') -> Qle_bool 0 x = true ->
     exists self',
       Socket.settimeout self howlong w = (Ret self', w') /\
       Socket.gettimeout self' = Some x /\
       Socket._sock self' = Socket._sock self /\
       Socket.inst_dict self' = Socket.inst_dict self) /\
  (forall f x w', Socket.__float__ howlong = Some f -> howlong <> VNone ->
     f w = (Ret x, w') -> Qle_bool 0 x = false ->
     Socket.settimeout self howlong w = raised_new ValueError w') /\
  (forall f e w', Socket.__float__ howlong = Some f -> howlong <> VNone ->
     f w = (Raise e, w') ->
     Socket.settimeout self howlong w = (Raise e, w')) /\
  (Socket.__float__ howlong = None -> howlong <> VNone ->
     Socket.settimeout self howlong w = raised_new TypeError w) /\
  (forall q,
     Socket.settimeout self (VFloat q) w
     = if Qle_bool 0 q
       then (Ret {| Socket._sock := Socket._sock self; Socket.timeout := Some q;
                    Socket.inst_dict := Socket.inst_dict self |}, w)
       else raised_new ValueError w) /\
  (forall z, Z.abs z < 2 ^ 53 ->
     Socket.settimeout self (VInt z) w
     = if 0 <=? z
       then (Ret {| Socket._sock := Socket._sock self; Socket.timeout := Some (inject_Z z);
                    Socket.inst_dict := Socket.inst_dict self |}, w)
       else raised_new ValueError w) /\
  (forall z, 2 ^ 1024 <= Z.abs z ->
     Socket.settimeout self (VInt z) w = raised_new (OtherException "OverflowError") w) /\
  Socket.settimeout self VNone w = (Ret (Socket.setblocking self true), w) /\
  Socket.settimeout self (VFloat 0) w = (Ret (Socket.setblocking self false), w) /\
  eq_zero (Socket.gettimeout (Socket.setblocking self false)) = true /\
  Socket.gettimeout (Socket.setblocking self true) = None.
Proof.
  split; [|split; [|split; [|split; [|split; [|split; [|split]]]]]].
  - intros f x w' Hf Hn Hx Hle. eexists. rewrite settimeout_unfold by done.
    rewrite Hf, Hx, Hle. repeat split.
  - intros f x w' Hf Hn Hx Hle. rewrite settimeout_unfold by done. by rewrite Hf, Hx, Hle.
  - intros f e w' Hf Hn Hx. rewrite settimeout_unfold by done. by rewrite Hf, Hx.
  - intros Hf Hn. rewrite settimeout_unfold by done. by rewrite Hf.
  - intros q. by rewrite settimeout_unfold.
  - intros z Hz. rewrite settimeout_unfold by done. cbn [Socket.__float__].
    unfold Socket.int___float__. rewrite (float_of_int_exact z Hz). cbn [ret].
    by rewrite Qle_bool_0_inject_Z.
  - intros z Hz. rewrite settimeout_unfold by done. cbn [Socket.__float__].
    unfold Socket.int___float__. by rewrite (float_of_int_overflow z Hz).
  - repeat split.
Qed.

Lemma settimeout_spec_witness :
  Socket.settimeout (sock3 None) (VInt (-1)) w0 = raised_new ValueError w0 /\
  Socket.settimeout (sock3 None) (VStr "soon") w0 = raised_new TypeError w0 /\
  Socket.settimeout (sock3 None) (VInt (10 ^ 400)) w0
  = raised_new (OtherException "OverflowError") w0.
Proof.
  split; [|split].
  - apply (proj1 (proj2 (settimeout_spec (sock3 None) (VInt (-1)) w0)))
      with (f := Socket.int___float__ (-1)) (x := inject_Z (-1));
      [reflexivity | discriminate | reflexivity | reflexivity].
  - apply (proj1 (proj2 (proj2 (proj2 (settimeout_spec (sock3 None) (VStr "soon") w0)))));
      [reflexivity | discriminate].
  - apply (proj1 (proj2 (proj2 (proj2 (proj2 (proj2 (proj2
             (settimeout_spec (sock3 None) VNone w0)))))))).
    apply Z.leb_le. vm_compute. reflexivity.
Defined.

(** ** Construction, dup, and the closed socket *)

Section socket_construction_facts.

Variables EWOULDBLOCK EBADF : Z.
Variable hub_switch : M pyval.
Variable kernel : Z -> string -> list pyval -> World -> result pyval.
Variable timed_out : exn.
Variable errno_EWOULDBLOCK : Z.
Variable defaulttimeout : seconds.
Variable _realsocket_new : Z -> Z -> Z -> M Z.
Variable kernel_accept : Z -> World -> result (Z * pyval).

Lemma socket___init____raw (family type proto : Z) (fd : Z) (w : World) :
  Socket.socket___init___ EBADF kernel defaulttimeout _realsocket_new family type proto
    (Socket._sock_raw (Socket._realsocket fd)) w
  = let w' := with_trace (fun t => t ++ [SysCall fd "setblocking" [VInt 0]]) w in
    match kernel fd "setblocking" [VInt 0] w' with
    | Ret _ => (Ret {| Socket._sock := Socket._realsocket fd;
                       Socket.timeout := defaulttimeout;
                       Socket.inst_dict := ∅ |}, w')
    | Raise e => (Raise e, w')
    end.
Proof.
  unfold Socket.socket___init___, bind, Socket._sock_call, bind, emit, ret. cbn.
  by destruct (kernel fd "setblocking" [VInt 0] _).
Qed.

(** socket.__init__ and dup(): every socket object is made with
    setblocking(0) called on its OS socket, as the last step, whatever the
    form of the [_sock] argument.  Without [_sock] a new OS socket is
    made and the timeout is the default one.  A socket made from another
    socket object shares its OS socket and takes over its timeout, or the
    default one when that object has no timeout attribute.  dup() hands
    over the OS socket itself, so the copy shares the OS socket but starts
    with the default timeout, not the timeout of the original, and with no
    method rebound.  On a closed socket, dup() and the constructor raise
    error(EBADF). *)
Theorem dup_spec (self : Socket.socket) (fd : Z) (t : seconds) (family type proto : Z)
    (sock_arg : Socket._sock_arg) (w : World) :
  let init := Socket.socket___init___ EBADF kernel defaulttimeout _realsocket_new
                family type proto in
  (Socket._sock self = Socket._realsocket fd ->
   Socket.dup EBADF kernel defaulttimeout _realsocket_new self w
   = constructed kernel fd defaulttimeout w) /\
  (Socket._sock self = Socket._closedsocket ->
   Socket.dup EBADF kernel defaulttimeout _realsocket_new self w = bad_file_descriptor EBADF w) /\
  init Socket._sock_None w
  = match _realsocket_new family type proto w with
    | (Ret fd', w1) => constructed kernel fd' defaulttimeout w1
    | (Raise e, w1) => (Raise e, w1)
    end /\
  init (Socket._sock_wrapper (Socket._realsocket fd) (Some t)) w = constructed kernel fd t w /\
  init (Socket._sock_wrapper (Socket._realsocket fd) None) w
  = constructed kernel fd defaulttimeout w /\
  init (Socket._sock_raw (Socket._realsocket fd)) w = constructed kernel fd defaulttimeout w /\
  (forall timeout_attr,
     init (Socket._sock_wrapper Socket._closedsocket timeout_attr) w
     = bad_file_descriptor EBADF w) /\
  init (Socket._sock_raw Socket._closedsocket) w = bad_file_descriptor EBADF w /\
  (forall s w', init sock_arg w = (Ret s, w') ->
     exists fd', Socket._sock s = Socket._realsocket fd' /\
                 last (trace w') = Some (SysCall fd' "setblocking" [VInt 0]) /\
                 Socket.inst_dict s = ∅).
Proof.
  assert (Hc : forall fd0 t0 w1,
            (Socket._sock_call EBADF kernel (Socket._realsocket fd0) "setblocking" [VInt 0] ;;;
             ret {| Socket._sock := Socket._realsocket fd0; Socket.timeout := t0;
                    Socket.inst_dict := ∅ |}) w1
            = constructed kernel fd0 t0 w1).
  { intros fd0 t0 w1. unfold constructed, Socket._sock_call, bind, emit, ret, fresh_socket.
    cbn. by destruct (kernel fd0 "setblocking" [VInt 0] _). }
  assert (Hlast : forall fd0 t0 w1 s w',
            constructed kernel fd0 t0 w1 = (Ret s, w') ->
            exists fd', Socket._sock s = Socket._realsocket fd' /\
                        last (trace w') = Some (SysCall fd' "setblocking" [VInt 0]) /\
                        Socket.inst_dict s = ∅).
  { intros fd0 t0 w1 s w'. unfold constructed.
    destruct (kernel fd0 "setblocking" [VInt 0] _); [|discriminate].
    intros [= <- <-]. exists fd0. cbn. by rewrite last_snoc. }
  cbv zeta.
  split; [|split; [|split; [|split; [|split; [|split; [|split; [|split]]]]]]].
  - intros H. unfold Socket.dup, Socket.socket___init___. rewrite H. unfold bind at 1.
    cbn [ret Socket._sock]. apply Hc.
  - intros H. unfold Socket.dup. rewrite H. reflexivity.
  - unfold Socket.socket___init___. unfold bind at 1 2.
    destruct (_realsocket_new family type proto w) as [[fd'|e] w1]; [|reflexivity].
    cbn [ret Socket._sock]. apply Hc.
  - unfold Socket.socket___init___. unfold bind at 1. cbn [ret Socket._sock]. apply Hc.
  - unfold Socket.socket___init___. unfold bind at 1. cbn [ret Socket._sock]. apply Hc.
  - unfold Socket.socket___init___. unfold bind at 1. cbn [ret Socket._sock]. apply Hc.
  - intros timeout_attr. reflexivity.
  - reflexivity.
  - intros s w'. unfold Socket.socket___init___. unfold bind at 1.
    destruct sock_arg as [|[fd0|] ta|[fd0|]].
    + unfold bind at 1.
      destruct (_realsocket_new family type proto w) as [[fd'|e] w1]; [|discriminate].
      cbn [ret Socket._sock]. rewrite Hc. apply Hlast.
    + cbn [ret Socket._sock]. rewrite Hc. apply Hlast.
    + discriminate.
    + cbn [ret Socket._sock]. rewrite Hc. apply Hlast.
    + discriminate.
Qed.

End socket_construction_facts.

Lemma dup_spec_witness :
  fst (Socket.dup 9 (fun _ _ _ _ => Ret VNone) None (fun _ _ _ => ret 4)
         (sock3 (Some 5%Q)) w0)
  = Ret (sock3 None) /\
  fst (Socket.dup 9 (fun _ _ _ _ => Ret VNone) None (fun _ _ _ => ret 4)
         (Socket.close (sock3 (Some 5%Q))) w0)
  = Raise (Exn 0 (error 9)) /\
  exists fd', last (trace (snd (Socket.socket___init___ 9 (fun _ _ _ _ => Ret VNone) None
                                  (fun _ _ _ => ret 4) 2 1 0 Socket._sock_None w0)))
              = Some (SysCall fd' "setblocking" [VInt 0]).
Proof.
  split; [|split].
  - rewrite (proj1 (dup_spec 9 (fun _ _ _ _ => Ret VNone) None (fun _ _ _ => ret 4)
                      (sock3 (Some 5%Q)) 3 None 0 0 0 Socket._sock_None w0)); reflexivity.
  - rewrite (proj1 (proj2 (dup_spec 9 (fun _ _ _ _ => Ret VNone) None (fun _ _ _ => ret 4)
                             (Socket.close (sock3 (Some 5%Q))) 3 None 0 0 0
                             Socket._sock_None w0))); reflexivity.
  - destruct (proj2 (proj2 (proj2 (proj2 (proj2 (proj2 (proj2 (proj2
                (dup_spec 9 (fun _ _ _ _ => Ret VNone) None (fun _ _ _ => ret 4)
                   (sock3 None) 3 None 2 1 0 Socket._sock_None w0))))))))
               (fresh_socket 4 None)
               (with_trace (fun _ => [SysCall 4 "setblocking" [VInt 0]]) w0) eq_refl)
      as (fd' & _ & Hl & _).
    exists fd'. exact Hl.
Defined.

(** ** recv, recvfrom, recv_into, recvfrom_into and accept *)

Section socket_io_facts.

Variables EWOULDBLOCK EBADF : Z.
Variable hub_switch : M pyval.
Variable kernel : Z -> string -> list pyval -> World -> result pyval.
Variable timed_out : exn.
Variable errno_EWOULDBLOCK : Z.
Variable defaulttimeout : seconds.
Variable _realsocket_new : Z -> Z -> Z -> M Z.
Variable kernel_accept : Z -> World -> result (Z * pyval).
Variable after_wait : Socket.socket -> World -> Socket.socket.

Lemma recv_round_outcome (hub : M pyval) name self args (wait_fileno : M Z) w :
  Socket.recv_round EWOULDBLOCK EBADF hub kernel timed_out name self args wait_fileno w
  = match attempt EBADF kernel self name args w with
    | (Ret v, w1) => (Ret (Some v), w1)
    | (Raise ex, w1) =>
        if would_block EWOULDBLOCK ex && negb (eq_zero (Socket.timeout self))
        then (fd <- wait_fileno ;;
              Socket.wait_read hub fd (Socket.timeout self) (ExcInst timed_out) ;;;
              ret None) w1
        else (Raise ex, w1)
    end.
Proof.
  unfold Socket.recv_round. unfold bind at 1. unfold try_except. unfold bind at 1.
  fold (attempt EBADF kernel self name args).
  destruct (attempt EBADF kernel self name args w) as [[v|ex] w1]; [reflexivity|].
  unfold would_block. destruct (isinstance_error ex); [|reflexivity].
  cbn [andb]. destruct (arg0_is ex EWOULDBLOCK); [|reflexivity].
  cbn [negb orb andb]. by destruct (eq_zero (Socket.timeout self)).
Qed.

Lemma loop_step (fuel : nat) (round : M (option pyval)) (w : World) :
  Socket.loop (S fuel) round w
  = match round w with
    | (Ret (Some v), w1) => (Ret (Some v), w1)
    | (Ret None, w1) => Socket.loop fuel round w1
    | (Raise e, w1) => (Raise e, w1)
    end.
Proof. cbn [Socket.loop]. unfold bind. by destruct (round w) as [[[v|]|e] w1]. Qed.

Lemma recv_family_nonblocking name self args (wait_fileno : M Z) fuel w :
  eq_zero (Socket.timeout self) = true ->
  Socket.loop (S fuel)
    (Socket.recv_round EWOULDBLOCK EBADF hub_switch kernel timed_out name self args wait_fileno) w
  = single_attempt EBADF kernel self name args w.
Proof.
  intros Hz. rewrite loop_step, recv_round_outcome. unfold single_attempt.
  destruct (attempt EBADF kernel self name args w) as [[v|ex] w1]; [reflexivity|].
  by rewrite Hz, andb_false_r.
Qed.

(** A socket whose timeout is 0 never waits in recv, recvfrom, recv_into
    and recvfrom_into: they make exactly one call of the underlying socket
    and return its value or raise its exception, would-block included.
    send does the same whenever the timeout it uses is 0: the socket's
    timeout when no keyword is given, the [timeout] keyword otherwise,
    whatever the socket's timeout is.  The switch to the hub, and what
    the other greenlets do to the socket, play no part in the result. *)
Theorem nonblocking_never_waits (self : Socket.socket) (args : list pyval)
    (data flags : pyval) (kw : option seconds) (fuel : nat) (w : World) :
  (eq_zero (Socket.timeout self) = true ->
   Socket.recv EWOULDBLOCK EBADF hub_switch kernel timed_out (S fuel) self args w
   = single_attempt EBADF kernel self "recv" args w /\
   Socket.recvfrom EWOULDBLOCK EBADF hub_switch kernel timed_out (S fuel) self args w
   = single_attempt EBADF kernel self "recvfrom" args w /\
   Socket.recv_into EWOULDBLOCK EBADF hub_switch kernel timed_out (S fuel) self args w
   = single_attempt EBADF kernel self "recv_into" args w /\
   Socket.recvfrom_into EWOULDBLOCK EBADF hub_switch kernel timed_out (S fuel) self args w
   = single_attempt EBADF kernel self "recvfrom_into" args w) /\
  (eq_zero (match kw with None => Socket.timeout self | Some t => t end) = true ->
   Socket.send EWOULDBLOCK EBADF hub_switch kernel timed_out after_wait self data flags kw w
   = attempt EBADF kernel self "send" [data; flags] w).
Proof.
  split.
  - intros Hz.
    split; [|split; [|split]]; by apply recv_family_nonblocking.
  - intros Hz. rewrite send_unfold. cbv zeta. rewrite Hz.
    destruct (attempt EBADF kernel self "send" [data; flags] w) as [[v|ex] w1]; [reflexivity|].
    by rewrite andb_false_r.
Qed.

(** recv on a socket with a timeout that is not 0, when the underlying recv
    would block and the reactor then fires the read event that recv armed,
    with _wait_helper as its callback.  If EV_TIMEOUT is among the flags,
    recv raises the module's one socket.timeout instance, and the event
    has been cancelled; otherwise the event has been cancelled and recv
    tries again from the start. *)
Theorem recv_wait (EV_TIMEOUT evtype : Z) (self : Socket.socket) (args : list pyval)
    (fd : Z) (ex : exn) (fuel : nat) (w : World) :
  let hub := reactor_fires EV_TIMEOUT evtype in
  let first := attempt EBADF kernel self "recv" args w in
  let w2 := waited_read fd (Socket.timeout self) (ExcInst timed_out) (snd first) in
  Socket._sock self = Socket._realsocket fd ->
  Socket.inst_dict self !! "fileno" = None ->
  fst first = Raise ex ->
  would_block EWOULDBLOCK ex = true ->
  eq_zero (Socket.timeout self) = false ->
  Socket.recv EWOULDBLOCK EBADF hub kernel timed_out (S fuel) self args w
  = if Z.eqb (Z.land evtype EV_TIMEOUT) 0
    then Socket.recv EWOULDBLOCK EBADF hub kernel timed_out fuel self args w2
    else (Raise timed_out, w2).
Proof.
  intros hub first w2 Hfd Hdict Hf Hwb Hz.
  assert (Hfileno : Socket.fileno EBADF self = ret fd).
  { unfold Socket.fileno, Socket.lookup_method. by rewrite Hdict, Hfd. }
  unfold Socket.recv. rewrite Hfileno. rewrite loop_step, recv_round_outcome.
  subst first w2. destruct (attempt EBADF kernel self "recv" args w) as [[v|ex'] w1];
    [discriminate|].
  cbn [fst snd] in *. injection Hf as ->. rewrite Hwb, Hz. cbn [andb negb].
  unfold bind at 1. cbn [ret]. unfold bind at 1.
  rewrite wait_read_outcome.
  pose proof (wait_outcome_fires EV_TIMEOUT evtype
                (ArmRead (next_handle w1) fd cb_wait_helper (Socket.timeout self)
                   (current w1, ExcInst timed_out))
                (ExcInst timed_out) w1 (last_armed_read _ _ _ _ _ _)) as Hw.
  cbv zeta in Hw. fold hub in Hw.
  assert (Hworld : snd (wait_outcome hub (next_handle w1)
                          (armed (ArmRead (next_handle w1) fd cb_wait_helper
                                    (Socket.timeout self) (current w1, ExcInst timed_out)) w1))
                   = waited_read fd (Socket.timeout self) (ExcInst timed_out) w1).
  { unfold wait_outcome, hub, reactor_fires, armed, waited_read.
    cbn [trace with_trace with_next_handle]. rewrite last_armed_read.
    unfold Gevent._wait_helper.
    destruct (Z.eqb (Z.land evtype EV_TIMEOUT) 0); cbn.
    - rewrite bool_decide_true by reflexivity. cbn.
      unfold with_trace. cbn. by rewrite <- app_assoc.
    - unfold with_trace. cbn. by rewrite <- app_assoc. }
  destruct (wait_outcome hub _ _) as [r w3]. cbn [fst snd] in *. subst w3.
  destruct Hw as [Hr _]. subst r.
  by destruct (Z.eqb (Z.land evtype EV_TIMEOUT) 0).
Qed.

(** accept(): when the underlying accept returns a connection at once, the
    result is a new socket object around the new descriptor, with
    setblocking(0) called on it and with the default timeout, not the
    timeout of the listening socket.  An error of the underlying accept
    that is not would-block, and any error when the timeout is 0, is raised
    as it is after that single call.  On a closed socket accept raises
    error(EBADF). *)
Theorem accept_spec (self : Socket.socket) (fd : Z) (fuel : nat) (w : World) :
  let out := Socket.accept EBADF hub_switch kernel timed_out errno_EWOULDBLOCK
               defaulttimeout _realsocket_new kernel_accept (S fuel) self w in
  let w1 := with_trace (fun t => t ++ [SysCall fd "accept" []]) w in
  (Socket._sock self = Socket._realsocket fd ->
   (forall client addr, kernel_accept fd w1 = Ret (client, addr) ->
      let w2 := with_trace (fun t => t ++ [SysCall client "setblocking" [VInt 0]]) w1 in
      out = match kernel client "setblocking" [VInt 0] w2 with
            | Ret _ => (Ret (Some (fresh_socket client defaulttimeout, addr)), w2)
            | Raise e => (Raise e, w2)
            end) /\
   (forall ex, kernel_accept fd w1 = Raise ex ->
      isinstance_error ex && arg0_is ex errno_EWOULDBLOCK
        && negb (eq_zero (Socket.timeout self)) = false ->
      out = (Raise ex, w1))) /\
  (Socket._sock self = Socket._closedsocket -> EBADF <> errno_EWOULDBLOCK ->
   out = bad_file_descriptor EBADF w).
Proof.
  intros out w1. subst out. split.
  - intros Hfd. split.
    + intros client addr Hk. cbv zeta.
      unfold Socket.accept. cbn [Socket.while_True].
      unfold bind at 1 2 3 4. unfold try_except. unfold bind at 1.
      rewrite Hfd. cbn [Socket._sock_accept]. unfold bind at 1. cbn [emit].
      fold w1. rewrite Hk. cbn [ret]. unfold bind at 1.
      rewrite socket___init____raw. cbv zeta. unfold fresh_socket.
      by destruct (kernel client "setblocking" [VInt 0] _).
    + intros ex Hk Hg.
      unfold Socket.accept. cbn [Socket.while_True].
      unfold bind at 1 2 3 4. unfold try_except. unfold bind at 1.
      rewrite Hfd. cbn [Socket._sock_accept]. unfold bind at 1. cbn [emit].
      fold w1. rewrite Hk.
      destruct (isinstance_error ex); [|reflexivity]. cbn [andb] in Hg.
      destruct (arg0_is ex errno_EWOULDBLOCK); [|reflexivity].
      cbn [andb negb orb] in *. apply negb_false_iff in Hg. by rewrite Hg.
  - intros Hc Hne.
    unfold Socket.accept. cbn [Socket.while_True].
    unfold bind at 1 2 3 4. unfold try_except. unfold bind at 1.
    rewrite Hc. cbn [Socket._sock_accept].
    unfold Socket._dummy, raise_new, bind, new_exn, raise. cbn.
    apply Z.eqb_neq in Hne. by rewrite Hne.
Qed.

End socket_io_facts.

Lemma nonblocking_never_waits_witness :
  Socket.recv 11 9 stray_switch kernel_busy timed_out_exn 1 (sock3 (Some 0%Q)) [VInt 1024] w0
  = (Raise busy_exn, with_trace (fun _ => [SysCall 3 "recv" [VInt 1024]]) w0) /\
  Socket.send 11 9 stray_switch kernel_busy timed_out_exn untouched (sock3 None)
    (VStr "ping") (VInt 0) (Some (Some 0%Q)) w0
  = (Raise busy_exn, with_trace (fun _ => [SysCall 3 "send" [VStr "ping"; VInt 0]]) w0).
Proof.
  split.
  - rewrite (proj1 (proj1 (nonblocking_never_waits 11 9 stray_switch kernel_busy timed_out_exn
                             untouched (sock3 (Some 0%Q)) [VInt 1024] VNone VNone None 0 w0)
                      eq_refl)).
    reflexivity.
  - rewrite (proj2 (nonblocking_never_waits 11 9 stray_switch kernel_busy timed_out_exn
                      untouched (sock3 None) [] (VStr "ping") (VInt 0) (Some (Some 0%Q)) 0 w0)
               eq_refl).
    reflexivity.
Defined.

Lemma recv_wait_witness :
  Socket.recv 11 9 (reactor_fires 1 1) kernel_busy timed_out_exn 1
    (sock3 (Some (1 # 20))) [VInt 1] w0
  = (Raise timed_out_exn,
     waited_read 3 (Some (1 # 20)) (ExcInst timed_out_exn)
       (with_trace (fun _ => [SysCall 3 "recv" [VInt 1]]) w0)).
Proof.
  rewrite (recv_wait 11 9 kernel_busy timed_out_exn 1 1 (sock3 (Some (1 # 20))) [VInt 1]
             3 busy_exn 0 w0 eq_refl eq_refl eq_refl eq_refl eq_refl).
  reflexivity.
Defined.

Lemma accept_spec_witness :
  fst (Socket.accept 9 stray_switch (fun _ _ _ _ => Ret VNone) timed_out_exn 11 None
         (fun _ _ _ => ret 4) (fun _ _ => Ret (5, VStr "peer")) 1 (sock3 (Some 2%Q)) w0)
  = Ret (Some (fresh_socket 5 None, VStr "peer")).
Proof.
  rewrite (proj1 (proj1 (accept_spec 9 stray_switch (fun _ _ _ _ => Ret VNone) timed_out_exn 11
                           None (fun _ _ _ => ret 4) (fun _ _ => Ret (5, VStr "peer"))
                           (sock3 (Some 2%Q)) 3 0 w0) eq_refl) 5 (VStr "peer") eq_refl).
  reflexivity.
Defined.

(** ** sendall *)

Lemma substring_all (s : string) : String.substring 0 (String.length s) s = s.
Proof. induction s as [|c s IH]; cbn; [reflexivity|]. by rewrite IH. Qed.

Lemma substring_length (s : string) (n m : nat) :
  (n + m <= String.length s)%nat -> String.length (String.substring n m s) = m.
Proof.
  revert n m. induction s as [|c s IH]; intros n m H; cbn in H.
  - assert (n = 0%nat) as -> by lia. assert (m = 0%nat) as -> by lia. reflexivity.
  - destruct n as [|n]; cbn.
    + destruct m as [|m]; cbn; [reflexivity|]. f_equal. apply IH. lia.
    + apply IH. lia.
Qed.

Lemma slice_from_0 (data : string) : Socket.slice_from data 0 = data.
Proof.
  unfold Socket.slice_from, Socket.len. cbn [Z.ltb Z.compare].
  rewrite Z.min_l by lia. rewrite Z.sub_0_r, Nat2Z.id. apply substring_all.
Qed.

(** [data[i:]] for an index inside the string is the unsent rest: it has
    [len(data) - i] characters. *)
Lemma slice_from_length (data : string) (i : Z) :
  0 <= i <= Socket.len data ->
  Socket.len (Socket.slice_from data i) = Socket.len data - i.
Proof.
  intros [H0 H1]. unfold Socket.slice_from.
  destruct (Z.ltb_spec i 0) as [Hlt|_]; [lia|].
  rewrite Z.min_l by lia. unfold Socket.len in *.
  rewrite substring_length by lia. lia.
Qed.

Lemma loop_from_step {St A} (fuel : nat) (body : St -> M (St + A)) (s : St) (w : World) :
  Socket.loop_from (S fuel) body s w
  = match body s w with
    | (Ret (inl s'), w1) => Socket.loop_from fuel body s' w1
    | (Ret (inr a), w1) => (Ret (Some a), w1)
    | (Raise e, w1) => (Raise e, w1)
    end.
Proof. cbn [Socket.loop_from]. unfold bind. by destruct (body s w) as [[[s'|a]|e] w1]. Qed.

Section sendall_facts.

Variables EWOULDBLOCK EBADF : Z.
Variable hub_switch : M pyval.
Variable kernel : Z -> string -> list pyval -> World -> result pyval.
Variable timed_out : exn.
Variable time_time : World -> Q.
Variables float_add float_sub : Q -> Q -> Q.

(** sendall() of the empty string.  On a socket without timeout it returns
    at once and calls nothing; on a socket with a timeout the loop body
    runs before the test, so one send of the empty string is made, and
    sendall returns when that send reports a count that is not negative.
    (Here and below no other greenlet touches the socket while a send
    waits.) *)
Theorem sendall_empty_data (self : Socket.socket) (flags : pyval) (fuel : nat) (w : World) :
  (Socket.timeout self = None ->
   Socket.sendall EWOULDBLOCK EBADF hub_switch kernel timed_out untouched time_time
     float_add float_sub (S fuel) self ""
     flags w = (Ret (Some tt), w)) /\
  (forall q n,
     let sent := Socket.self_send EWOULDBLOCK EBADF hub_switch kernel timed_out untouched self
                   (VStr "") flags (Some (Some q)) w in
     Socket.timeout self = Some q -> fst sent = Ret (VInt n) -> 0 <= n ->
     Socket.sendall EWOULDBLOCK EBADF hub_switch kernel timed_out untouched time_time
     float_add float_sub (S fuel) self ""
       flags w = (Ret (Some tt), snd sent)).
Proof.
  split.
  - intros Ht. unfold Socket.sendall. rewrite Ht. rewrite loop_from_step. reflexivity.
  - intros q n sent Ht Hs Hn. unfold Socket.sendall. rewrite Ht.
    unfold bind at 1. cbn [Socket.time_]. rewrite loop_from_step.
    unfold bind at 1. cbn [Socket.slice ret]. unfold bind at 1.
    change (Socket.slice_from "" 0) with "". fold sent.
    destruct sent as [r w1]. cbn [fst snd] in *. subst r.
    unfold bind at 1. cbn [Socket.iadd Socket.as_number ret Socket.number_add].
    cbn [Socket.number_lt]. unfold Socket.len. cbn [String.length].
    assert (Z.ltb (0 + n) (Z.of_nat 0) = false) as -> by (apply Z.ltb_ge; lia).
    reflexivity.
Qed.

(** sendall() on a socket without timeout sends until the counts add up to
    the length: if the first send takes everything, sendall returns after
    it; if it takes [n1] characters, fewer than there are, the next send
    is given exactly the rest [data[n1:]], which has [len(data) - n1]
    characters, and sendall returns when the two counts reach the
    length. *)
Theorem sendall_progress (self : Socket.socket) (data : string) (flags : pyval)
    (n1 : Z) (fuel : nat) (w : World) :
  let first := Socket.self_send EWOULDBLOCK EBADF hub_switch kernel timed_out untouched self
                 (VStr data) flags None w in
  let second := Socket.self_send EWOULDBLOCK EBADF hub_switch kernel timed_out untouched self
                  (VStr (Socket.slice_from data n1)) flags None (snd first) in
  Socket.timeout self = None ->
  0 < Socket.len data ->
  fst first = Ret (VInt n1) ->
  (Socket.len data <= n1 ->
   Socket.sendall EWOULDBLOCK EBADF hub_switch kernel timed_out untouched time_time
     float_add float_sub (S (S fuel)) self
     data flags w = (Ret (Some tt), snd first)) /\
  (forall n2, 0 <= n1 < Socket.len data ->
     fst second = Ret (VInt n2) -> Socket.len data <= n1 + n2 ->
     Socket.len (Socket.slice_from data n1) = Socket.len data - n1 /\
     Socket.sendall EWOULDBLOCK EBADF hub_switch kernel timed_out untouched time_time
     float_add float_sub (S (S (S fuel)))
       self data flags w = (Ret (Some tt), snd second)).
Proof.
  intros first second Ht Hlen Hf.
  assert (Hstep : forall k,
            Socket.sendall EWOULDBLOCK EBADF hub_switch kernel timed_out untouched time_time
     float_add float_sub (S k) self
              data flags w
            = Socket.loop_from k
                (fun data_sent =>
                   if Socket.number_lt data_sent (Socket.len data)
                   then
                     chunk <- Socket.slice data data_sent ;;
                     v <- Socket.self_send EWOULDBLOCK EBADF hub_switch kernel timed_out untouched self
                            (VStr chunk) flags None ;;
                     data_sent <- Socket.iadd float_add data_sent v ;;
                     ret (inl data_sent)
                   else ret (inr tt))
                (Socket.n_int n1) (snd first)).
  { intros k. unfold Socket.sendall. rewrite Ht. rewrite loop_from_step.
    cbn [Socket.number_lt]. destruct (Z.ltb_spec 0 (Socket.len data)) as [_|]; [|lia].
    unfold bind at 1. cbn [Socket.slice ret]. rewrite slice_from_0.
    unfold bind at 1. fold first. destruct first as [r w1]. cbn [fst snd] in *. subst r.
    unfold bind at 1. cbn [Socket.iadd Socket.as_number ret Socket.number_add].
    reflexivity. }
  split.
  - intros Hall. rewrite Hstep, loop_from_step. cbn [Socket.number_lt].
    destruct (Z.ltb_spec n1 (Socket.len data)) as [|_]; [lia|]. reflexivity.
  - intros n2 Hn1 Hs Hall. split; [by apply slice_from_length; lia|].
    rewrite Hstep, loop_from_step. cbn [Socket.number_lt].
    destruct (Z.ltb_spec n1 (Socket.len data)) as [_|]; [|lia].
    unfold bind at 1. cbn [Socket.slice ret]. unfold bind at 1. fold second.
    destruct second as [r w2]. cbn [fst snd] in *. subst r.
    unfold bind at 1. cbn [Socket.iadd Socket.as_number ret Socket.number_add].
    rewrite loop_from_step. cbn [Socket.number_lt].
    destruct (Z.ltb_spec (n1 + n2) (Socket.len data)) as [|_]; [lia|]. reflexivity.
Qed.

(** sendall() on a socket with timeout [q] keeps one deadline for the whole
    call: [end = time.time() + q], computed once in float arithmetic when
    the call starts.  If the first send takes everything sendall returns.
    If it takes less, [timeleft = end - time.time()] is computed, again in
    floats: when it is not positive sendall raises a new socket.timeout,
    however much was sent; otherwise the next send is given the rest of the
    data and this [timeleft] as its timeout. *)
Theorem sendall_deadline (self : Socket.socket) (data : string) (flags : pyval)
    (q : Q) (n1 : Z) (fuel : nat) (w : World) :
  let first := Socket.self_send EWOULDBLOCK EBADF hub_switch kernel timed_out untouched self
                 (VStr data) flags (Some (Some q)) w in
  let end_ := float_add (time_time w) q in
  let timeleft := float_sub end_ (time_time (snd first)) in
  let second := Socket.self_send EWOULDBLOCK EBADF hub_switch kernel timed_out untouched self
                  (VStr (Socket.slice_from data n1)) flags (Some (Some timeleft)) (snd first) in
  Socket.timeout self = Some q ->
  fst first = Ret (VInt n1) ->
  (Socket.len data <= n1 ->
   Socket.sendall EWOULDBLOCK EBADF hub_switch kernel timed_out untouched time_time
     float_add float_sub (S fuel) self
     data flags w = (Ret (Some tt), snd first)) /\
  (n1 < Socket.len data -> Qle_bool timeleft 0 = true ->
   Socket.sendall EWOULDBLOCK EBADF hub_switch kernel timed_out untouched time_time
     float_add float_sub (S fuel) self
     data flags w = raised_new socket_timeout (snd first)) /\
  (forall n2, n1 < Socket.len data -> Qle_bool timeleft 0 = false ->
     fst second = Ret (VInt n2) -> Socket.len data <= n1 + n2 ->
     Socket.sendall EWOULDBLOCK EBADF hub_switch kernel timed_out untouched time_time
     float_add float_sub (S (S fuel)) self
       data flags w = (Ret (Some tt), snd second)).
Proof.
  intros first end_ timeleft second Ht Hf.
  assert (Hstep : forall k,
            Socket.sendall EWOULDBLOCK EBADF hub_switch kernel timed_out untouched time_time
     float_add float_sub (S k) self
              data flags w
            = if negb (Z.ltb n1 (Socket.len data)) then (Ret (Some tt), snd first)
              else if Qle_bool timeleft 0 then raised_new socket_timeout (snd first)
              else Socket.loop_from k
                (fun '(data_sent, timeleft) =>
                   chunk <- Socket.slice data data_sent ;;
                   v <- Socket.self_send EWOULDBLOCK EBADF hub_switch kernel timed_out untouched self
                          (VStr chunk) flags (Some (Some timeleft)) ;;
                   data_sent <- Socket.iadd float_add data_sent v ;;
                   if negb (Socket.number_lt data_sent (Socket.len data))
                   then ret (inr tt)
                   else
                     now <- Socket.time_ time_time ;;
                     let timeleft := float_sub end_ now in
                     if Qle_bool timeleft 0
                     then raise_new socket_timeout
                     else ret (inl (data_sent, timeleft)))
                (Socket.n_int n1, timeleft) (snd first)).
  { intros k. unfold Socket.sendall. rewrite Ht.
    unfold bind at 1. cbn [Socket.time_]. rewrite loop_from_step.
    unfold bind at 1. cbn [Socket.slice ret]. rewrite slice_from_0.
    unfold bind at 1. fold first. destruct first as [r w1]. cbn [fst snd] in *. subst r.
    unfold bind at 1. cbn [Socket.iadd Socket.as_number ret Socket.number_add].
    cbn [Socket.number_lt]. change (0 + n1) with n1.
    destruct (negb (Z.ltb n1 (Socket.len data))); [reflexivity|].
    unfold bind at 1. cbn [Socket.time_]. fold end_ timeleft.
    by destruct (Qle_bool timeleft 0). }
  split; [|split].
  - intros Hall. rewrite Hstep.
    destruct (Z.ltb_spec n1 (Socket.len data)) as [|_]; [lia|]. reflexivity.
  - intros Hlt Hq. rewrite Hstep, Hq.
    destruct (Z.ltb_spec n1 (Socket.len data)) as [_|]; [|lia]. reflexivity.
  - intros n2 Hlt Hq Hs Hall. rewrite Hstep, Hq.
    destruct (Z.ltb_spec n1 (Socket.len data)) as [_|]; [|lia]. cbn [negb].
    rewrite loop_from_step.
    unfold bind at 1. cbn [Socket.slice ret]. unfold bind at 1. fold second.
    destruct second as [r w2]. cbn [fst snd] in *. subst r.
    unfold bind at 1. cbn [Socket.iadd Socket.as_number ret Socket.number_add].
    cbn [Socket.number_lt].
    destruct (Z.ltb_spec (n1 + n2) (Socket.len data)) as [|_]; [lia|]. reflexivity.
Qed.

End sendall_facts.

Lemma sendall_empty_data_witness :
  Socket.sendall 11 9 stray_switch kernel_busy timed_out_exn untouched (fun _ => 0%Q)
    ieee_add ieee_sub 1 (sock3 None) "" (VInt 0) w0 = (Ret (Some tt), w0).
Proof.
  apply (proj1 (sendall_empty_data 11 9 stray_switch kernel_busy timed_out_exn (fun _ => 0%Q)
                  ieee_add ieee_sub (sock3 None) (VInt 0) 0 w0)).
  reflexivity.
Defined.

Lemma sendall_progress_witness :
  fst (Socket.sendall 11 9 stray_switch (fun _ _ _ _ => Ret (VInt 4)) timed_out_exn untouched
         (fun _ => 0%Q) ieee_add ieee_sub 2 (sock3 None) "ping" (VInt 0) w0) = Ret (Some tt).
Proof.
  rewrite (proj1 (sendall_progress 11 9 stray_switch (fun _ _ _ _ => Ret (VInt 4)) timed_out_exn
                    (fun _ => 0%Q) ieee_add ieee_sub (sock3 None) "ping" (VInt 0) 4 0 w0
                    eq_refl eq_refl eq_refl)).
  - reflexivity.
  - unfold Socket.len. cbn. lia.
Defined.

Lemma sendall_deadline_witness :
  fst (Socket.sendall 11 9 stray_switch (fun _ _ _ _ => Ret (VInt 2)) timed_out_exn untouched
         (fun w => inject_Z (Z.of_nat (length (trace w)))) ieee_add ieee_sub 1
         (sock3 (Some (1 # 2))) "ping" (VInt 0) w0)
  = Raise (Exn 0 socket_timeout).
Proof.
  rewrite (proj1 (proj2 (sendall_deadline 11 9 stray_switch (fun _ _ _ _ => Ret (VInt 2))
                           timed_out_exn (fun w => inject_Z (Z.of_nat (length (trace w))))
                           ieee_add ieee_sub (sock3 (Some (1 # 2))) "ping" (VInt 0) (1 # 2) 2 0
                           w0
                           eq_refl eq_refl))).
  - reflexivity.
  - unfold Socket.len. cbn. lia.
  - reflexivity.
Defined.

(** A timeout too small for the clock's floats: with the clock at
    1700000000 and a socket timeout of 1e-20, [end] is the clock itself, so
    when the first send takes only part of the data the time left is 0 and
    sendall raises socket.timeout after that one send, although the clock
    has not moved. *)
Example sendall_timeout_absorbed :
  let out := Socket.sendall 11 9 stray_switch (fun _ _ _ _ => Ret (VInt 2)) timed_out_exn
               untouched (fun _ => inject_Z 1700000000) ieee_add ieee_sub 5
               (sock3 (Some (1 # 100000000000000000000))) "ping" (VInt 0) w0 in
  ieee_add (inject_Z 1700000000) (1 # 100000000000000000000) = inject_Z 1700000000 /\
  fst out = Raise (Exn 0 socket_timeout) /\
  trace (snd out) = [SysCall 3 "send" [VStr "ping"; VInt 0]].
Proof. vm_compute. repeat split. Qed.

(** ** gethostbyname, connect and connect_ex *)

Lemma connect_round_ext (f g : M (option pyval)) k a b c d e1 e2 (w0 : World) :
  (forall x, f x = g x) ->
  connect_round k a b c d e1 e2 f w0 = connect_round k a b c d e1 e2 g w0.
Proof.
  intros Hfg. unfold connect_round. cbv zeta.
  destruct (k e1 "getsockopt" _ _); [|reflexivity].
  destruct (negb _); [reflexivity|].
  destruct (k e1 "connect_ex" e2 _); [|reflexivity].
  destruct (_ || _); [reflexivity|]. destruct (b _); [apply Hfg | reflexivity].
Qed.

Section connect_facts.

Variables EWOULDBLOCK EBADF : Z.
Variable hub_switch : M pyval.
Variable kernel : Z -> string -> list pyval -> World -> result pyval.
Variable timed_out : exn.
Variable kernel_int : Z -> string -> list pyval -> World -> result Z.
Variable time_time : World -> Q.
Variables float_add float_sub : Q -> Q -> Q.
Variable _socket_gethostbyname : pyval -> M pyval.
Variable _socket_gethostname : M pyval.
Variable resolve_ipv4 : string -> M (list string).
Variable random_choice : list string -> M string.
Variable inet_ntoa : string -> M pyval.
Variables EINVAL EINPROGRESS EALREADY EISCONN EAGAIN : Z.
Variable is_windows : bool.
Variables SOL_SOCKET SO_ERROR : Z.

(** gethostbyname(hostname) asks nobody when the name is an IPv4 literal:
    a string of digits and dots with at least one dot is returned as it is
    and the world is untouched.  A value that is not a string, and a string
    without a dot, go straight to the system's gethostbyname. *)
Theorem gethostbyname_literal (hostname : pyval) (w : World) :
  (forall h, hostname = VStr h -> Socket.contains_dot h = true ->
     Socket._ip4_re_match h = true ->
     Socket.gethostbyname _socket_gethostbyname _socket_gethostname resolve_ipv4
       random_choice inet_ntoa hostname w = (Ret hostname, w)) /\
  (forall h, hostname = VStr h -> Socket.contains_dot h = false ->
     Socket.gethostbyname _socket_gethostbyname _socket_gethostname resolve_ipv4
       random_choice inet_ntoa hostname w = _socket_gethostbyname hostname w) /\
  ((forall h, hostname <> VStr h) ->
     Socket.gethostbyname _socket_gethostbyname _socket_gethostname resolve_ipv4
       random_choice inet_ntoa hostname w = _socket_gethostbyname hostname w).
Proof.
  split; [|split].
  - intros h -> Hd Hm. unfold Socket.gethostbyname. by rewrite Hd, Hm.
  - intros h -> Hd. unfold Socket.gethostbyname. by rewrite Hd.
  - intros Hn. destruct hostname; try reflexivity. by destruct (Hn s).
Qed.

Lemma no_lookup_resolved (addr : Socket.address) (w : World) :
  no_lookup addr = true ->
  match addr with
  | Socket.addr_pair host port =>
      host' <- Socket.gethostbyname _socket_gethostbyname _socket_gethostname resolve_ipv4
                 random_choice inet_ntoa host ;;
      ret (Socket.addr_pair host' port)
  | Socket.addr_other _ => ret addr
  end w = (Ret addr, w).
Proof.
  intros H. destruct addr as [host port|v]; [|reflexivity].
  destruct host; try discriminate. cbn in H. apply andb_true_iff in H as [Hd Hm].
  unfold bind, Socket.gethostbyname. by rewrite Hd, Hm.
Qed.

Lemma connect_body_outcome (fd : Z) (args : list pyval) (rest : M (option pyval)) (w : World) :
  (err <- Socket._sock_call_int EBADF kernel_int (Socket._realsocket fd) "getsockopt"
            [VInt SOL_SOCKET; VInt SO_ERROR] ;;
   if negb (Z.eqb err 0) then raise_new (error err)
   else
     result <- Socket._sock_call_int EBADF kernel_int (Socket._realsocket fd) "connect_ex" args ;;
     if Z.eqb result 0 || Z.eqb result EISCONN then ret (Some VNone)
     else if Socket.in_progress EWOULDBLOCK EINVAL EINPROGRESS EALREADY is_windows result
     then rest
     else raise_new (error result)) w
  = connect_round kernel_int EISCONN
      (Socket.in_progress EWOULDBLOCK EINVAL EINPROGRESS EALREADY is_windows)
      SOL_SOCKET SO_ERROR fd args rest w.
Proof.
  unfold connect_round. cbv zeta. unfold bind at 1. cbn [Socket._sock_call_int].
  unfold bind at 1. cbn [emit].
  destruct (kernel_int fd "getsockopt" _ _) as [err|e]; [|reflexivity].
  destruct (negb (Z.eqb err 0)); [reflexivity|].
  unfold bind at 1. unfold bind at 1. cbn [emit].
  destruct (kernel_int fd "connect_ex" args _) as [r|e]; [|reflexivity].
  destruct (Z.eqb r 0 || Z.eqb r EISCONN); [reflexivity|].
  by destruct (Socket.in_progress _ _ _ _ _ r).
Qed.

(** What an in-progress answer leads to, in the world [w2] where
    connect_ex has answered. *)
Lemma connect_rest_outcome (fd : Z) (end_ : option Q) (w2 : World) :
  match end_ with
  | None =>
      fd0 <- Socket._sock_fileno EBADF (Socket._realsocket fd) ;;
      Socket.wait_readwrite hub_switch fd0 (Some (-1)%Q) (ExcInst timed_out) ;;;
      ret None
  | Some end_ =>
      now <- Socket.time_ time_time ;;
      let timeleft := float_sub end_ now in
      if Qle_bool timeleft 0 then raise_new socket_timeout
      else
        fd0 <- Socket._sock_fileno EBADF (Socket._realsocket fd) ;;
        Socket.wait_readwrite hub_switch fd0 (Some timeleft) (ExcInst timed_out) ;;;
        ret None
  end w2
  = match readwrite_timeout float_sub end_ (time_time w2) with
    | None => raised_new socket_timeout w2
    | Some t_wait =>
        match wait_outcome hub_switch (next_handle w2)
                (armed (ArmReadWrite (next_handle w2) fd cb_wait_helper (Some t_wait)
                          (current w2, ExcInst timed_out)) w2) with
        | (Ret _, w3) => (@Ret (option pyval) None, w3)
        | (Raise e, w3) => (Raise e, w3)
        end
    end.
Proof.
  unfold readwrite_timeout. destruct end_ as [e_|].
  - unfold bind at 1. cbn [Socket.time_].
    destruct (Qle_bool (float_sub e_ (time_time w2)) 0); [reflexivity|].
    unfold bind at 1. cbn [Socket._sock_fileno ret]. unfold bind at 1.
    rewrite wait_readwrite_outcome. by destruct (wait_outcome _ _ _) as [[[]|e] w3].
  - unfold bind at 1. cbn [Socket._sock_fileno ret]. unfold bind at 1.
    rewrite wait_readwrite_outcome. by destruct (wait_outcome _ _ _) as [[[]|e] w3].
Qed.

Lemma connect_loop_step (fd : Z) (addr : Socket.address) (end_ : option Q) (fuel : nat)
    (w' : World) :
  Socket.connect_loop EWOULDBLOCK EBADF hub_switch timed_out kernel_int time_time float_sub
    EINVAL EINPROGRESS EALREADY EISCONN is_windows SOL_SOCKET SO_ERROR (S fuel)
    (Socket._realsocket fd) addr end_ w'
  = match connect_round kernel_int EISCONN
            (Socket.in_progress EWOULDBLOCK EINVAL EINPROGRESS EALREADY is_windows)
            SOL_SOCKET SO_ERROR fd (Socket.address_args addr)
            (fun w2 =>
               match readwrite_timeout float_sub end_ (time_time w2) with
               | None => raised_new socket_timeout w2
               | Some t_wait =>
                   match wait_outcome hub_switch (next_handle w2)
                           (armed (ArmReadWrite (next_handle w2) fd cb_wait_helper
                                     (Some t_wait) (current w2, ExcInst timed_out)) w2) with
                   | (Ret _, w3) => (@Ret (option pyval) None, w3)
                   | (Raise e, w3) => (Raise e, w3)
                   end
               end) w' with
    | (Ret (Some v), w3) => (Ret (Some v), w3)
    | (Ret None, w3) =>
        Socket.connect_loop EWOULDBLOCK EBADF hub_switch timed_out kernel_int time_time
          float_sub EINVAL EINPROGRESS EALREADY EISCONN is_windows SOL_SOCKET SO_ERROR fuel
          (Socket._realsocket fd) addr end_ w3
    | (Raise e, w3) => (Raise e, w3)
    end.
Proof.
  unfold Socket.connect_loop at 1. cbn [Socket.while_True]. unfold bind at 1.
  rewrite connect_body_outcome.
  erewrite connect_round_ext by (intros w2; apply connect_rest_outcome).
  by destruct (connect_round _ _ _ _ _ _ _ _ _) as [[[v|]|e] w3].
Qed.

(** connect(address), for an address that needs no name lookup.  With
    timeout 0 it is one call of the underlying connect and nothing else.
    Otherwise connect runs its loop on the OS socket it has read once:
    without deadline on a socket without timeout, and else against the
    deadline [time.time() + timeout], computed in floats when the call
    starts.  Every round of the loop, in whatever world it starts, first
    reads SO_ERROR: a pending error is raised as error(err) before any
    connect_ex is tried; connect_ex answering 0 or EISCONN ends connect with
    None; an answer that is neither success nor one of the in-progress
    codes is raised as error(result).  On an in-progress answer the round
    raises a new socket.timeout, arming nothing, when the time left to the
    deadline is not positive; otherwise it arms a read-write event on the
    descriptor with the time left as timeout (-1 without deadline) and
    switches to the hub; an exception out of the wait is raised, and after a
    normal wait the next round starts, on the same OS socket and with the
    same deadline. *)
Theorem connect_spec (self : Socket.socket) (addr : Socket.address) (fd : Z)
    (end_ : option Q) (fuel : nat) (w w' : World) :
  let connect := Socket.connect EWOULDBLOCK EBADF hub_switch kernel timed_out kernel_int
                   time_time float_add float_sub _socket_gethostbyname _socket_gethostname
                   resolve_ipv4 random_choice inet_ntoa EINVAL EINPROGRESS EALREADY EISCONN
                   is_windows SOL_SOCKET SO_ERROR in
  let rounds := Socket.connect_loop EWOULDBLOCK EBADF hub_switch timed_out kernel_int
                  time_time float_sub EINVAL EINPROGRESS EALREADY EISCONN is_windows
                  SOL_SOCKET SO_ERROR in
  let args := Socket.address_args addr in
  let w1 := with_trace
              (fun t => t ++ [SysCall fd "getsockopt" [VInt SOL_SOCKET; VInt SO_ERROR]]) w' in
  let w2 := with_trace (fun t => t ++ [SysCall fd "connect_ex" args]) w1 in
  let round := rounds (S fuel) (Socket._realsocket fd) addr end_ w' in
  no_lookup addr = true ->
  Socket._sock self = Socket._realsocket fd ->
  (eq_zero (Socket.timeout self) = true ->
   connect fuel self addr w = single_attempt EBADF kernel self "connect" args w) /\
  (Socket.timeout self = None ->
   connect fuel self addr w = rounds fuel (Socket._realsocket fd) addr None w) /\
  (forall t, Socket.timeout self = Some t -> Qeq_bool t 0 = false ->
   connect fuel self addr w
   = rounds fuel (Socket._realsocket fd) addr (Some (float_add (time_time w) t)) w) /\
  (forall e, kernel_int fd "getsockopt" [VInt SOL_SOCKET; VInt SO_ERROR] w1 = Raise e ->
     round = (Raise e, w1)) /\
  (forall err, kernel_int fd "getsockopt" [VInt SOL_SOCKET; VInt SO_ERROR] w1 = Ret err ->
     err <> 0 -> round = raised_new (error err) w1) /\
  (kernel_int fd "getsockopt" [VInt SOL_SOCKET; VInt SO_ERROR] w1 = Ret 0 ->
   (forall e, kernel_int fd "connect_ex" args w2 = Raise e -> round = (Raise e, w2)) /\
   (forall r, kernel_int fd "connect_ex" args w2 = Ret r ->
      (r = 0 \/ r = EISCONN -> round = (Ret (Some VNone), w2)) /\
      (r <> 0 -> r <> EISCONN ->
       Socket.in_progress EWOULDBLOCK EINVAL EINPROGRESS EALREADY is_windows r = false ->
       round = raised_new (error r) w2) /\
      (r <> 0 -> r <> EISCONN ->
       Socket.in_progress EWOULDBLOCK EINVAL EINPROGRESS EALREADY is_windows r = true ->
       (readwrite_timeout float_sub end_ (time_time w2) = None ->
        round = raised_new socket_timeout w2) /\
       (forall t_wait, readwrite_timeout float_sub end_ (time_time w2) = Some t_wait ->
          let h := next_handle w2 in
          let waited := wait_outcome hub_switch h
                          (armed (ArmReadWrite h fd cb_wait_helper (Some t_wait)
                                    (current w2, ExcInst timed_out)) w2) in
          (forall e, fst waited = Raise e -> round = (Raise e, snd waited)) /\
          (fst waited = Ret tt ->
           round = rounds fuel (Socket._realsocket fd) addr end_ (snd waited)))))).
Proof.
  intros connect rounds args w1 w2 round Hno Hfd. subst connect rounds.
  assert (Hround : round =
            match connect_round kernel_int EISCONN
                    (Socket.in_progress EWOULDBLOCK EINVAL EINPROGRESS EALREADY is_windows)
                    SOL_SOCKET SO_ERROR fd args
                    (fun w2 =>
                       match readwrite_timeout float_sub end_ (time_time w2) with
                       | None => raised_new socket_timeout w2
                       | Some t_wait =>
                           match wait_outcome hub_switch (next_handle w2)
                                   (armed (ArmReadWrite (next_handle w2) fd cb_wait_helper
                                             (Some t_wait) (current w2, ExcInst timed_out))
                                      w2) with
                           | (Ret _, w3) => (@Ret (option pyval) None, w3)
                           | (Raise e, w3) => (Raise e, w3)
                           end
                       end) w' with
            | (Ret (Some v), w3) => (Ret (Some v), w3)
            | (Ret None, w3) =>
                Socket.connect_loop EWOULDBLOCK EBADF hub_switch timed_out kernel_int
                  time_time float_sub EINVAL EINPROGRESS EALREADY EISCONN is_windows
                  SOL_SOCKET SO_ERROR fuel (Socket._realsocket fd) addr end_ w3
            | (Raise e, w3) => (Raise e, w3)
            end).
  { subst round. apply connect_loop_step. }
  clearbody round. unfold connect_round in Hround. cbv zeta in Hround.
  fold w1 in Hround. fold w2 in Hround.
  split; [|split; [|split; [|split; [|split]]]].
  - intros Hz. unfold Socket.connect. unfold bind at 1. rewrite no_lookup_resolved by done.
    rewrite Hz. unfold bind, single_attempt, attempt. fold args.
    by destruct (Socket._sock_call EBADF kernel (Socket._sock self) "connect" args w)
      as [[v|e] w3].
  - intros Ht. unfold Socket.connect. unfold bind at 1. rewrite no_lookup_resolved by done.
    by rewrite Ht, Hfd.
  - intros t Ht Hz. unfold Socket.connect. unfold bind at 1.
    rewrite no_lookup_resolved by done.
    rewrite Ht, Hfd. cbn [eq_zero]. rewrite Hz. reflexivity.
  - intros e Hk. by rewrite Hround, Hk.
  - intros err Hk Hne. apply Z.eqb_neq in Hne. by rewrite Hround, Hk, Hne.
  - intros Hk0. rewrite Hk0 in Hround. cbn [Z.eqb negb] in Hround. split.
    + intros e Hk. by rewrite Hround, Hk.
    + intros r Hk. rewrite Hk in Hround. split; [|split].
      * intros Hr.
        assert (Z.eqb r 0 || Z.eqb r EISCONN = true) as Hs.
        { destruct Hr as [-> | ->]; [reflexivity|]. rewrite Z.eqb_refl. apply orb_true_r. }
        by rewrite Hround, Hs.
      * intros Hr0 Hr1 Hip. apply Z.eqb_neq in Hr0, Hr1.
        by rewrite Hround, Hr0, Hr1, Hip.
      * intros Hr0 Hr1 Hip. apply Z.eqb_neq in Hr0, Hr1.
        rewrite Hr0, Hr1, Hip in Hround. cbn [orb] in Hround. split.
        -- intros Hrt. by rewrite Hround, Hrt.
        -- intros t_wait Hrt h waited. rewrite Hrt in Hround. fold h in Hround.
           fold waited in Hround. split.
           ++ intros e He. rewrite Hround. destruct waited as [r0 w3]. cbn [fst snd] in *.
              by subst r0.
           ++ intros He. rewrite Hround. destruct waited as [r0 w3]. cbn [fst snd] in *.
              by subst r0.
Qed.

Lemma connect_closed (self : Socket.socket) (addr : Socket.address) (fuel : nat) (w : World) :
  no_lookup addr = true ->
  Socket._sock self = Socket._closedsocket ->
  Socket.connect EWOULDBLOCK EBADF hub_switch kernel timed_out kernel_int
    time_time float_add float_sub _socket_gethostbyname _socket_gethostname resolve_ipv4
    random_choice inet_ntoa EINVAL EINPROGRESS EALREADY EISCONN is_windows
    SOL_SOCKET SO_ERROR (S fuel) self addr w
  = bad_file_descriptor EBADF w.
Proof.
  intros Hno Hc. unfold Socket.connect. unfold bind at 1. rewrite no_lookup_resolved by done.
  rewrite Hc. destruct (eq_zero (Socket.timeout self)); [reflexivity|].
  destruct (Socket.timeout self); reflexivity.
Qed.

(** connect_ex(address) turns the failures of connect into return values:
    what connect returns comes back, with 0 in place of None; a
    socket.timeout becomes EAGAIN (on Windows the module binds no name
    EAGAIN, so NameError is raised there instead); a socket.error of exactly
    that class becomes its errno; every other exception is raised as it
    is.  So on a closed socket connect_ex, given an address that needs no
    name lookup, does not raise: it returns EBADF.  When the host of the
    address has to be looked up, the lookup comes first: its exception
    comes out of connect before the socket is looked at, closed or not. *)
Theorem connect_ex_spec (self : Socket.socket) (addr : Socket.address) (fuel : nat)
    (w : World) :
  let c := Socket.lookup_method EBADF self "connect"
             (Socket.connect EWOULDBLOCK EBADF hub_switch kernel timed_out kernel_int
                time_time float_add float_sub _socket_gethostbyname _socket_gethostname
                resolve_ipv4 random_choice inet_ntoa EINVAL EINPROGRESS EALREADY EISCONN
                is_windows SOL_SOCKET SO_ERROR fuel self addr) w in
  let out := Socket.connect_ex EWOULDBLOCK EBADF hub_switch kernel timed_out kernel_int
               time_time float_add float_sub _socket_gethostbyname _socket_gethostname
               resolve_ipv4 random_choice inet_ntoa EINVAL EINPROGRESS EALREADY EISCONN EAGAIN
               is_windows SOL_SOCKET SO_ERROR fuel self addr w in
  (forall v, fst c = Ret (Some v) ->
     out = (Ret (Some (if Socket.truthy v then v else VInt 0)), snd c)) /\
  (forall ex, fst c = Raise ex -> exn_cls ex = socket_timeout ->
     out = if is_windows then raised_new (OtherException "NameError") (snd c)
           else (Ret (Some (VInt EAGAIN)), snd c)) /\
  (forall ex n, fst c = Raise ex -> exn_cls ex = error n ->
     out = (Ret (Some (VInt n)), snd c)) /\
  (forall ex, fst c = Raise ex -> isinstance_error ex = false -> out = (Raise ex, snd c)) /\
  (forall fuel', fuel = S fuel' -> Socket._sock self = Socket._closedsocket ->
     no_lookup addr = true ->
     out = (Ret (Some (VInt EBADF)), with_next_obj (S (next_obj w)) w)) /\
  (forall host port ex w1, addr = Socket.addr_pair host port ->
     Socket.inst_dict self !! "connect" = None ->
     Socket.gethostbyname _socket_gethostbyname _socket_gethostname resolve_ipv4
       random_choice inet_ntoa host w = (Raise ex, w1) ->
     c = (Raise ex, w1)).
Proof.
  intros c out.
  assert (Hout : out =
            match fst c with
            | Ret (Some v) => (Ret (Some (if Socket.truthy v then v else VInt 0)), snd c)
            | Ret None => (Ret None, snd c)
            | Raise ex =>
                if Socket.isinstance_timeout ex || isinstance_error ex
                then (if Socket.isinstance_timeout ex
                      then if is_windows then raise_new (OtherException "NameError")
                           else ret (Some (VInt EAGAIN))
                      else match exn_cls ex with
                           | error n => ret (Some (VInt n))
                           | _ => raise ex
                           end) (snd c)
                else (Raise ex, snd c)
            end).
  { subst out. unfold Socket.connect_ex, try_except. unfold bind at 1. fold c.
    by destruct c as [[[v|]|ex] w1]. }
  split; [|split; [|split; [|split; [|split]]]].
  - intros v Hc. by rewrite Hout, Hc.
  - intros ex Hc Hcls. rewrite Hout, Hc. unfold Socket.isinstance_timeout. rewrite Hcls.
    cbn [orb]. by destruct is_windows.
  - intros ex n Hc Hcls. rewrite Hout, Hc.
    unfold Socket.isinstance_timeout, isinstance_error. by rewrite Hcls.
  - intros ex Hc Hi. rewrite Hout, Hc, Hi.
    assert (Socket.isinstance_timeout ex = false) as ->; [|reflexivity].
    unfold Socket.isinstance_timeout, isinstance_error in *. by destruct (exn_cls ex).
  - intros fuel' -> Hcl Hno.
    assert (Hc : c = bad_file_descriptor EBADF w).
    { subst c. unfold Socket.lookup_method.
      destruct (Socket.inst_dict self !! "connect") as [[]|]; [reflexivity|].
      by apply connect_closed. }
    rewrite Hout, Hc. reflexivity.
  - intros host port ex w1 -> Hd Hg. subst c. unfold Socket.lookup_method. rewrite Hd.
    unfold Socket.connect. unfold bind at 1. unfold bind at 1. by rewrite Hg.
Qed.

End connect_facts.

Lemma gethostbyname_literal_witness :
  Socket.gethostbyname (fun _ => raise busy_exn) (raise busy_exn) (fun _ => raise busy_exn)
    (fun _ => raise busy_exn) (fun _ => raise busy_exn) (VStr "127.0.0.1") w0
  = (Ret (VStr "127.0.0.1"), w0).
Proof.
  apply (proj1 (gethostbyname_literal (fun _ => raise busy_exn) (raise busy_exn)
                  (fun _ => raise busy_exn) (fun _ => raise busy_exn) (fun _ => raise busy_exn)
                  (VStr "127.0.0.1") w0)) with (h := "127.0.0.1"); reflexivity.
Defined.

Lemma connect_spec_witness :
  Socket.connect_loop 11 9 resume_with_last_event timed_out_exn connecting (fun _ => 0%Q)
    ieee_sub 22 115 114 106 false 1 4 2 (Socket._realsocket 3)
    (Socket.addr_pair (VStr "127.0.0.1") (VInt 80)) None w0
  = Socket.connect_loop 11 9 resume_with_last_event timed_out_exn connecting (fun _ => 0%Q)
      ieee_sub 22 115 114 106 false 1 4 1 (Socket._realsocket 3)
      (Socket.addr_pair (VStr "127.0.0.1") (VInt 80)) None
      (with_trace (fun _ => [SysCall 3 "getsockopt" [VInt 1; VInt 4];
                             SysCall 3 "connect_ex" [VStr "127.0.0.1"; VInt 80];
                             ArmReadWrite 0 3 cb_wait_helper (Some (-1)%Q)
                               (0%nat, ExcInst timed_out_exn);
                             Cancel 0])
         (with_next_handle 1 w0)).
Proof.
  pose proof (connect_spec 11 9 resume_with_last_event kernel_busy timed_out_exn connecting
                (fun _ => 0%Q) ieee_add ieee_sub (fun _ => raise busy_exn) (raise busy_exn)
                (fun _ => raise busy_exn) (fun _ => raise busy_exn) (fun _ => raise busy_exn)
                22 115 114 106 false 1 4
                (sock3 None) (Socket.addr_pair (VStr "127.0.0.1") (VInt 80)) 3 None 1 w0 w0
                eq_refl eq_refl) as H.
  cbv zeta in H. destruct H as (_ & _ & _ & _ & _ & H).
  destruct (H eq_refl) as [_ H2].
  destruct (H2 115 eq_refl) as (_ & _ & H3).
  destruct (H3 ltac:(lia) ltac:(lia) eq_refl) as [_ H4].
  destruct (H4 (-1)%Q eq_refl) as [_ H5].
  rewrite (H5 eq_refl). reflexivity.
Defined.

Lemma connect_ex_spec_witness :
  fst (Socket.connect_ex 11 9 stray_switch kernel_busy timed_out_exn (fun _ _ _ _ => Ret 0)
         (fun _ => 0%Q) ieee_add ieee_sub (fun _ => raise busy_exn) (raise busy_exn)
         (fun _ => raise busy_exn)
         (fun _ => raise busy_exn) (fun _ => raise busy_exn) 22 115 114 106 11 false 1 4
         1 (Socket.close (sock3 None)) (Socket.addr_other (VStr "/tmp/sock")) w0)
  = Ret (Some (VInt 9)) /\
  fst (Socket.connect_ex 11 9 stray_switch kernel_busy timed_out_exn (fun _ _ _ _ => Ret 0)
         (fun _ => 0%Q) ieee_add ieee_sub (fun _ => raise busy_exn) (ret (VStr "localhost"))
         (fun _ => raise (Exn 7 (OtherException "DNSError")))
         (fun _ => raise busy_exn) (fun _ => raise busy_exn) 22 115 114 106 11 false 1 4
         1 (Socket.close (sock3 None)) (Socket.addr_pair (VStr "example.com") (VInt 80)) w0)
  = Raise (Exn 7 (OtherException "DNSError")).
Proof.
  split.
  - pose proof (connect_ex_spec 11 9 stray_switch kernel_busy timed_out_exn
                  (fun _ _ _ _ => Ret 0) (fun _ => 0%Q) ieee_add ieee_sub
                  (fun _ => raise busy_exn) (raise busy_exn)
                  (fun _ => raise busy_exn) (fun _ => raise busy_exn) (fun _ => raise busy_exn)
                  22 115 114 106 11 false 1 4
                  (Socket.close (sock3 None)) (Socket.addr_other (VStr "/tmp/sock")) 1 w0) as H.
    cbv zeta in H. destruct H as (_ & _ & _ & _ & H & _).
    rewrite (H 0%nat eq_refl eq_refl eq_refl). reflexivity.
  - pose proof (connect_ex_spec 11 9 stray_switch kernel_busy timed_out_exn
                  (fun _ _ _ _ => Ret 0) (fun _ => 0%Q) ieee_add ieee_sub
                  (fun _ => raise busy_exn) (ret (VStr "localhost"))
                  (fun _ => raise (Exn 7 (OtherException "DNSError")))
                  (fun _ => raise busy_exn) (fun _ => raise busy_exn)
                  22 115 114 106 11 false 1 4
                  (Socket.close (sock3 None))
                  (Socket.addr_pair (VStr "example.com") (VInt 80)) 1 w0) as H.
    cbv zeta in H. destruct H as (_ & _ & _ & H4 & _ & H6).
    pose proof (H6 (VStr "example.com") (VInt 80) (Exn 7 (OtherException "DNSError")) w0
                  eq_refl eq_refl eq_refl) as Hc.
    rewrite (H4 (Exn 7 (OtherException "DNSError"))); [by rewrite Hc | by rewrite Hc | reflexivity].
Defined.

(** A connect that is in progress at first and established at the second
    round, on a socket with a timeout of 5 seconds: the deadline is computed
    once, and the wait is given the time left to it. *)
Example connect_run :
  let out := Socket.connect 11 9 resume_with_last_event kernel_busy timed_out_exn connecting
               (fun w => inject_Z (100 + Z.of_nat (length (trace w)))) ieee_add ieee_sub
               (fun _ => raise busy_exn) (raise busy_exn) (fun _ => raise busy_exn)
               (fun _ => raise busy_exn) (fun _ => raise busy_exn) 22 115 114 106 false 1 4
               5 (sock3 (Some 5%Q)) (Socket.addr_pair (VStr "127.0.0.1") (VInt 80)) w0 in
  fst out = Ret (Some VNone) /\
  trace (snd out)
  = [SysCall 3 "getsockopt" [VInt 1; VInt 4];
     SysCall 3 "connect_ex" [VStr "127.0.0.1"; VInt 80];
     ArmReadWrite 0 3 cb_wait_helper (Some 3%Q) (0%nat, ExcInst timed_out_exn);
     Cancel 0;
     SysCall 3 "getsockopt" [VInt 1; VInt 4];
     SysCall 3 "connect_ex" [VStr "127.0.0.1"; VInt 80]].
Proof. vm_compute. repeat split. Qed.

(** ** bind_and_listen and the methods of a closed socket *)

Section bind_facts.

Variable EBADF : Z.
Variable kernel : Z -> string -> list pyval -> World -> result pyval.
Variables SOL_SOCKET SO_REUSEADDR : Z.

(** bind_and_listen: with reuse_addr false only bind and listen are
    called.  With reuse_addr true the option is read first and written back
    with bit 0 set; a socket.error from reading or from writing it is
    swallowed and bind and listen still follow, while an exception of another
    class is raised.  In every case listen is not called when bind
    fails: the exception of bind is the result. *)
Theorem bind_and_listen_spec (descriptor : Socket.socket) (addr : list pyval)
    (backlog : pyval) (w : World) :
  let bl := Socket.bind_and_listen EBADF kernel SOL_SOCKET SO_REUSEADDR descriptor addr
              backlog in
  let get := Socket.method EBADF kernel descriptor "getsockopt"
               [VInt SOL_SOCKET; VInt SO_REUSEADDR] w in
  let rest := bind_then_listen EBADF kernel descriptor addr backlog in
  bl false w = rest w /\
  (forall ex, fst get = Raise ex ->
     bl true w = if isinstance_error ex then rest (snd get) else (Raise ex, snd get)) /\
  (forall z,
     let set := Socket.method EBADF kernel descriptor "setsockopt"
                  [VInt SOL_SOCKET; VInt SO_REUSEADDR; VInt (Z.lor z 1)] (snd get) in
     fst get = Ret (VInt z) ->
     (forall v, fst set = Ret v -> bl true w = rest (snd set)) /\
     (forall ex, fst set = Raise ex ->
        bl true w = if isinstance_error ex then rest (snd set) else (Raise ex, snd set))) /\
  (forall w' ex, fst (Socket.method EBADF kernel descriptor "bind" addr w') = Raise ex ->
     rest w' = (Raise ex, snd (Socket.method EBADF kernel descriptor "bind" addr w'))).
Proof.
  intros bl get rest. subst bl rest.
  split; [reflexivity|]. split; [|split].
  - intros ex Hg. unfold Socket.bind_and_listen. unfold bind at 1. unfold try_except.
    unfold bind at 1. fold get. destruct get as [r w1]. cbn [fst snd] in *. subst r.
    by destruct (isinstance_error ex).
  - intros z set Hg. split.
    + intros v Hs. unfold Socket.bind_and_listen. unfold bind at 1. unfold try_except.
      unfold bind at 1. fold get. destruct get as [r w1]. cbn [fst snd] in *. subst r.
      unfold bind at 1. cbn [Socket.or_1 ret]. unfold bind at 1. fold set.
      destruct set as [r w2]. cbn [fst snd] in *. subst r. reflexivity.
    + intros ex Hs. unfold Socket.bind_and_listen. unfold bind at 1. unfold try_except.
      unfold bind at 1. fold get. destruct get as [r w1]. cbn [fst snd] in *. subst r.
      unfold bind at 1. cbn [Socket.or_1 ret]. unfold bind at 1. fold set.
      destruct set as [r w2]. cbn [fst snd] in *. subst r.
      by destruct (isinstance_error ex).
  - intros w' ex Hb. unfold bind_then_listen. unfold bind at 1.
    destruct (Socket.method EBADF kernel descriptor "bind" addr w') as [r w1].
    cbn [fst snd] in *. by subst r.
Qed.

End bind_facts.

Lemma bind_and_listen_spec_witness :
  Socket.bind_and_listen 9 (fun _ name _ _ => if String.eqb name "getsockopt"
                                              then Raise busy_exn else Ret VNone)
    1 2 (sock3 None) [VStr ""; VInt 0] (VInt 50) true w0
  = (Ret tt,
     with_trace (fun _ => [SysCall 3 "getsockopt" [VInt 1; VInt 2];
                           SysCall 3 "bind" [VStr ""; VInt 0];
                           SysCall 3 "listen" [VInt 50]]) w0).
Proof.
  rewrite (proj1 (proj2 (bind_and_listen_spec 9
                           (fun _ name _ _ => if String.eqb name "getsockopt"
                                              then Raise busy_exn else Ret VNone)
                           1 2 (sock3 None) [VStr ""; VInt 0] (VInt 50) w0))
             busy_exn eq_refl).
  reflexivity.
Defined.

Section closed_more_facts.

Variables EWOULDBLOCK EBADF : Z.
Variable hub_switch : M pyval.
Variable kernel : Z -> string -> list pyval -> World -> result pyval.
Variable timed_out : exn.
Variable time_time : World -> Q.
Variables float_add float_sub : Q -> Q -> Q.
Variable after_wait : Socket.socket -> World -> Socket.socket.

(** After close(), sendall() and fileno() raise error(EBADF) too, and do
    nothing else: sendall is one of the names close rebinds in the
    instance, and fileno reaches the closed placeholder. *)
Theorem closed_sendall_fileno (self : Socket.socket) (data : string) (flags : pyval)
    (fuel : nat) (w : World) :
  Socket.lookup_method EBADF (Socket.close self) "sendall"
    (Socket.sendall EWOULDBLOCK EBADF hub_switch kernel timed_out after_wait time_time
       float_add float_sub fuel (Socket.close self) data flags) w
  = bad_file_descriptor EBADF w /\
  Socket.fileno EBADF (Socket.close self) w = bad_file_descriptor EBADF w /\
  Socket.self_send EWOULDBLOCK EBADF hub_switch kernel timed_out after_wait (Socket.close self)
    (VStr data) flags None w
  = bad_file_descriptor EBADF w.
Proof.
  unfold Socket.fileno, Socket.self_send, Socket.lookup_method.
  rewrite !close_inst_dict. cbn [bool_decide].
  split; [reflexivity|]. split; [|reflexivity].
  rewrite bool_decide_false by set_solver.
  by destruct (Socket.inst_dict self !! "fileno") as [[]|].
Qed.

End closed_more_facts.

(** ** More runs of the model *)

(** The pattern of IPv4 literals: digits and dots, also with a newline at
    the end; a name with letters does not match, nor does the empty
    string. *)
Example _ip4_re_examples :
  Socket._ip4_re_match "127.0.0.1" = true /\
  Socket._ip4_re_match "..." = true /\
  Socket._ip4_re_match (String.append "10.0.0.1" (String (Ascii.ascii_of_nat 10) "")) = true /\
  Socket._ip4_re_match "example.com" = false /\
  Socket._ip4_re_match "" = false.
Proof. repeat split. Qed.

(** tcp_listener on a kernel that accepts everything: the socket is made,
    set non-blocking, SO_REUSEADDR is read and set, then bind and listen. *)
Example tcp_listener_run :
  let out := Socket.tcp_listener 9
               (fun _ name _ _ => if String.eqb name "getsockopt" then Ret (VInt 0)
                                  else Ret VNone)
               None (fun _ _ _ => ret 6) 1 2 2 1 [VStr ""; VInt 8080] (VInt 50) true w0 in
  fst out = Ret (fresh_socket 6 None) /\
  trace (snd out)
  = [SysCall 6 "setblocking" [VInt 0];
     SysCall 6 "getsockopt" [VInt 1; VInt 2];
     SysCall 6 "setsockopt" [VInt 1; VInt 2; VInt 1];
     SysCall 6 "bind" [VStr ""; VInt 8080];
     SysCall 6 "listen" [VInt 50]].
Proof. repeat split. Qed.
